(** * zabbix-zfs: the parsing and correlation engine of zfs.py

    A shallow embedding of [src/zfs.py] and the properties its specification
    states about it.

    Modelling conventions.
    - Python [str] is [string]; the text handled is ASCII (what the zpool
      tools and the kstat pseudo-files emit), so [str.isdigit], [str.strip],
      [int] and the class [\s] are modelled on ASCII characters.
    - Python [int] is [Z] (unbounded).
    - Python [float] is binary64, held as a [spec_float] of the Standard
      Library; [int / int] and [float * float] round to nearest, ties to
      even, as IEEE 754 has it.
    - A [dict] is a [gmap]; a dict comprehension is a left-to-right fold of
      insertions, later keys overriding earlier ones.
    - Exceptions are values of [exn]; code that can raise lives in the error
      monad [result].
    - The two collaborators that the script reaches through the operating
      system, [subprocess.check_output] and [open], are the two fields of
      [env]. *)

From Stdlib Require Import ZArith QArith Ascii String List Lia Bool SpecFloat.
From stdpp Require Import gmap strings list fin_maps.

Local Open Scope Z_scope.
Local Open Scope string_scope.
Local Open Scope list_scope.

(** ** Exceptions and the error monad *)

Inductive exn : Type :=
| IndexError
| KeyError (k : string)
| ValueError
| ZeroDivisionError
| OverflowError
| OSError
| CalledProcessError.

Inductive result (A : Type) : Type :=
| Ok (a : A)
| Err (e : exn).
Arguments Ok {A} a.
Arguments Err {A} e.

#[global] Instance result_ret : MRet result := @Ok.
#[global] Instance result_bind : MBind result := λ A B f m,
  match m with
  | Ok a => f a
  | Err e => Err e
  end.

(** [try: m  except BaseException: h] *)
Definition try_except {A} (m : result A) (h : result A) : result A :=
  match m with
  | Ok a => Ok a
  | Err _ => h
  end.

Definition is_ok {A} (m : result A) : bool :=
  match m with Ok _ => true | Err _ => false end.

(** [l[i]] on a Python list. *)
Definition index {A} (l : list A) (i : nat) : result A :=
  match l !! i with
  | Some a => Ok a
  | None => Err IndexError
  end.

(** [d[k]] on a Python dict. *)
Definition getitem {V} (d : gmap string V) (k : string) : result V :=
  match d !! k with
  | Some v => Ok v
  | None => Err (KeyError k)
  end.

(** ** Characters and strings *)

Definition is_digit (c : ascii) : bool :=
  let n := nat_of_ascii c in (48 <=? n)%nat && (n <=? 57)%nat.

(** ASCII characters for which [str.isspace] holds. *)
Definition is_space (c : ascii) : bool :=
  let n := nat_of_ascii c in
  ((9 <=? n)%nat && (n <=? 13)%nat) || ((28 <=? n)%nat && (n <=? 32)%nat).

Definition digit_val (c : ascii) : Z := Z.of_nat (nat_of_ascii c) - 48.

Definition tab : ascii := ascii_of_nat 9.
Definition newline : ascii := ascii_of_nat 10.
Definition nl : string := String newline "".

Fixpoint all_digits (s : string) : bool :=
  match s with
  | "" => true
  | String c s' => is_digit c && all_digits s'
  end.

(** [s.isdigit()]: non-empty and every character a digit. *)
Definition isdigit (s : string) : bool :=
  match s with
  | "" => false
  | String _ _ => all_digits s
  end.

(** [s.startswith('/')] *)
Definition startswith_slash (s : string) : bool :=
  match s with
  | String "/" _ => true
  | _ => false
  end.

Fixpoint lstrip (s : string) : string :=
  match s with
  | "" => ""
  | String c s' => if is_space c then lstrip s' else s
  end.

Fixpoint rstrip (s : string) : string :=
  match s with
  | "" => ""
  | String c s' =>
      match rstrip s' with
      | "" => if is_space c then "" else String c ""
      | r => String c r
      end
  end.

(** [s.strip()] *)
Definition strip (s : string) : string := rstrip (lstrip s).

(** [sep.join(l)] *)
Fixpoint join (sep : string) (l : list string) : string :=
  match l with
  | [] => ""
  | [x] => x
  | x :: l' => x +:+ sep +:+ join sep l'
  end.

(** [l[1:4]] *)
Definition slice_1_4 {A} (l : list A) : list A := take 3 (drop 1 l).

(** Decimal digits with single underscores between them, as [int] reads
    them; [prev] tells whether the previous character was a digit. *)
Fixpoint int_digits (s : string) (acc : Z) (prev : bool) : option Z :=
  match s with
  | "" => if prev then Some acc else None
  | String c s' =>
      if is_digit c then int_digits s' (10 * acc + digit_val c) true
      else if Ascii.eqb c "_" && prev then int_digits s' acc false
      else None
  end.

(** The white space [int] skips around the number in an ASCII string:
    that of C's [isspace]. *)
Definition is_c_space (c : ascii) : bool :=
  let n := nat_of_ascii c in
  ((9 <=? n)%nat && (n <=? 13)%nat) || (n =? 32)%nat.

Fixpoint int_lstrip (s : string) : string :=
  match s with
  | "" => ""
  | String c s' => if is_c_space c then int_lstrip s' else s
  end.

Fixpoint int_rstrip (s : string) : string :=
  match s with
  | "" => ""
  | String c s' =>
      match int_rstrip s' with
      | "" => if is_c_space c then "" else String c ""
      | r => String c r
      end
  end.

Definition int_strip (s : string) : string := int_rstrip (int_lstrip s).

(** [int(s)] in base ten: surrounding white space, an optional sign, then
    the digits. *)
Definition py_int (s : string) : option Z :=
  match int_strip s with
  | String "-" d => Z.opp <$> int_digits d 0 false
  | String "+" d => int_digits d 0 false
  | d => int_digits d 0 false
  end.

Definition int (s : string) : result Z :=
  match py_int s with
  | Some z => Ok z
  | None => Err ValueError
  end.

(** The number a string of digits denotes. *)
Fixpoint digits_value (s : string) (acc : Z) : Z :=
  match s with
  | "" => acc
  | String c s' => digits_value s' (10 * acc + digit_val c)
  end.

(** ** Splitting: [re.split] for the two patterns the script uses *)

Inductive pattern : Type :=
| Tab        (* r'\t'  *)
| Spaces.    (* r'\s+' *)

(** Split at every occurrence of the character [d]. *)
Fixpoint split_char (d : ascii) (s : string) (cur : string) : list string :=
  match s with
  | "" => [cur]
  | String c s' =>
      if Ascii.eqb c d then cur :: split_char d s' ""
      else split_char d s' (cur +:+ String c "")
  end.

(** Split at every maximal run of white space; [ws] tells whether the
    previous character belonged to such a run. *)
Fixpoint split_ws (s : string) (cur : string) (ws : bool) : list string :=
  match s with
  | "" => [cur]
  | String c s' =>
      if is_space c then
        if ws then split_ws s' cur true else cur :: split_ws s' "" true
      else split_ws s' (cur +:+ String c "") false
  end.

Definition re_split (p : pattern) (s : string) : list string :=
  match p with
  | Tab => split_char tab s ""
  | Spaces => split_ws s "" false
  end.

(** ** Comprehensions and loops in the error monad *)

(** [{k: v for x in l if c}]: [f x] is [Ok None] when the condition fails,
    [Ok (Some (k, v))] when the pair is produced, and [Err e] when
    evaluating the condition, the key or the value raises. *)
Fixpoint dict_comp {A V} (f : A → result (option (string * V))) (l : list A)
    (acc : gmap string V) : result (gmap string V) :=
  match l with
  | [] => Ok acc
  | x :: l' =>
      kv ← f x;
      dict_comp f l'
        (match kv with Some (k, v) => <[k:=v]> acc | None => acc end)
  end.

(** [[v for x in l if c]] *)
Fixpoint list_comp {A B} (f : A → result (option B)) (l : list A)
    : result (list B) :=
  match l with
  | [] => Ok []
  | x :: l' =>
      v ← f x;
      r ← list_comp f l';
      Ok (match v with Some b => b :: r | None => r end)
  end.

(** [for x in l: st = step st x] *)
Fixpoint for_loop {A S} (step : S → A → result S) (l : list A) (st : S)
    : result S :=
  match l with
  | [] => Ok st
  | x :: l' => st' ← step st x; for_loop step l' st'
  end.

(** [sum(l)] *)
Definition py_sum (l : list Z) : Z := foldr Z.add 0 l.

(** ** The operating system *)

Record env : Type := {
  (** [check_output(cmd, encoding='utf8', stderr=DEVNULL)] *)
  check_output : list string → result string;
  (** [open(fn)] followed by reading the file line by line: the lines, each
      with its line terminator. *)
  open_lines : string → result (list string)
}.

Definition ZP : string := "/sbin/zpool".
Definition ZFS : string := "/sbin/zfs".

(** The rows [run] builds from the text a command printed. *)
Definition rows_of_output (split : pattern) (r : string) : list (list string) :=
  (λ x, re_split split (strip x))
    <$> filter (λ x, strip x ≠ "") (split_char newline r "").

Definition run (e : env) (cmd : list string) (split : pattern)
    : result (list (list string)) :=
  r ← check_output e cmd;
  Ok (rows_of_output split r).

Definition read_file (e : env) (fn : string) (skip : nat) (split : pattern)
    : result (list (list string)) :=
  f ← open_lines e fn;
  Ok (re_split split <$> drop skip f).

(** ** Pool I/O statistics *)

Definition iostats_path (pool : string) : string :=
  "/proc/spl/kstat/zfs/" +:+ pool +:+ "/iostats".
Definition io_path (pool : string) : string :=
  "/proc/spl/kstat/zfs/" +:+ pool +:+ "/io".

(** The [try]/[except] of [pool_io_stats]: the rows it goes on with. *)
Definition pool_io_rows (e : env) (pool : string) : result (list (list string)) :=
  try_except (read_file e (iostats_path pool) 1 Spaces)
             (read_file e (io_path pool) 1 Spaces).

Definition io_pair (x : string * string) : result (option (string * Z)) :=
  if isdigit x.2 then v ← int x.2; Ok (Some (x.1, v)) else Ok None.

Definition pool_io_stats (e : env) (pool : string) : result (gmap string Z) :=
  r ← pool_io_rows e pool;
  h ← index r 0;
  v ← index r 1;
  dict_comp io_pair (zip h v) ∅.

(** ** The status report *)

Record errors : Type := { read : Z; write : Z; cksum : Z }.

Definition no_errors : errors := {| read := 0; write := 0; cksum := 0 |}.

(** The state of the first loop of [pool_status]: the current pool and the
    scrub map. *)
Definition scrub_state : Type := string * gmap string bool.

Definition scrub_step (st : scrub_state) (l : list string) : result scrub_state :=
  f ← index l 0;
  st1 ← (if f =? "pool:"
         then p ← index l 1; Ok (p, <[p:=false]> st.2)
         else Ok st);
  f' ← index l 0;
  if (f' =? "scan:") && (join " " (slice_1_4 l) =? "scrub in progress")
  then Ok (st1.1, <[st1.1:=true]> st1.2)
  else Ok st1.

Definition scrub_loop (r : list (list string)) : result (gmap string bool) :=
  st ← for_loop scrub_step r ("", ∅);
  Ok st.2.

(** The body of the [try] of the second loop. *)
Definition vdev_errors_try (acc : gmap string errors) (x : list string)
    : result (gmap string errors) :=
  a ← (s ← index x 2; int s);
  b ← (s ← index x 3; int s);
  c ← (s ← index x 4; int s);
  k ← index x 0;
  Ok (<[k:={| read := a; write := b; cksum := c |}]> acc).

Definition vdev_errors_except (acc : gmap string errors) (x : list string)
    : result (gmap string errors) :=
  k ← index x 0;
  Ok (<[k:=no_errors]> acc).

Definition vdev_errors_step (acc : gmap string errors) (x : list string)
    : result (gmap string errors) :=
  if (length x <? 5)%nat then Ok acc
  else
    f ← index x 0;
    if negb (startswith_slash f) then Ok acc
    else try_except (vdev_errors_try acc x) (vdev_errors_except acc x).

Definition vdev_errors_loop (r : list (list string)) : result (gmap string errors) :=
  for_loop vdev_errors_step r ∅.

Definition status_cmd : list string := [ZP; "status"; "-Pp"].

Definition pool_status (e : env) : result (gmap string bool * gmap string errors) :=
  r ← run e status_cmd Spaces;
  scrub ← scrub_loop r;
  vdev_errors ← vdev_errors_loop r;
  Ok (scrub, vdev_errors).

(** ** The device listing *)

Record vdev : Type := {
  v_name : string;
  v_size : Z;
  v_alloc : Z;
  v_free : Z;
  v_frag : Z;
  v_usage : Z;
  v_online : Z;
  v_errors : errors
}.

(** [int(x[i]) if x[i].isdigit() else 0] *)
Definition int_or_zero (x : list string) (i : nat) : result Z :=
  s ← index x i;
  if isdigit s then s' ← index x i; int s' else Ok 0.

(** [int(x[i] == 'ONLINE')] *)
Definition online_at (x : list string) (i : nat) : result Z :=
  h ← index x i;
  Ok (Z.b2z (h =? "ONLINE")).

Definition vdev_entry (errs : gmap string errors) (x : list string)
    : result (option (string * vdev)) :=
  f ← index x 0;
  if startswith_slash f then
    k ← index x 0;
    name ← index x 0;
    size ← int_or_zero x 1;
    alloc ← int_or_zero x 2;
    free ← int_or_zero x 3;
    frag ← int_or_zero x 6;
    usage ← int_or_zero x 7;
    online ← online_at x 9;
    es ← (p ← index x 0; getitem errs p);
    Ok (Some (k, {| v_name := name; v_size := size; v_alloc := alloc;
                    v_free := free; v_frag := frag; v_usage := usage;
                    v_online := online; v_errors := es |}))
  else Ok None.

Definition vdev_list_cmd : list string := [ZP; "list"; "-PHvp"].

Definition vdev_list (e : env) (errs : gmap string errors)
    : result (gmap string vdev) :=
  r ← run e vdev_list_cmd Tab;
  dict_comp (vdev_entry errs) r ∅.

(** ** Slab usage *)

Definition slab_path : string := "/proc/spl/kmem/slab".

Definition slab_row (x : list string) : result (option Z) :=
  s ← index x 2;
  if isdigit s then s' ← index x 2; v ← int s'; Ok (Some v) else Ok None.

Definition slab_usage (e : env) : result Z :=
  r ← read_file e slab_path 2 Spaces;
  l ← list_comp slab_row r;
  Ok (py_sum l).

(** ** Binary64 arithmetic

    The two operations the script computes on floats, [int / int] and
    [float * int], with the rounding of IEEE 754 binary64: 53 bits of
    precision, exponents of the last place from -1074 to 971. *)

(** The integer nearest to [N / D], the even one when two are as near
    ([0 <= N], [0 < D]). *)
Definition round_half_even (N D : Z) : Z :=
  let q := (N / D)%Z in
  let r := (N mod D)%Z in
  if (2 * r <? D)%Z then q
  else if (D <? 2 * r)%Z then (q + 1)%Z
  else if Z.even q then q else (q + 1)%Z.

(** [2 ^ k <= n / d], on positive [n] and [d]. *)
Definition ge_pow2 (n d k : Z) : bool :=
  (d * 2 ^ Z.max k 0 <=? n * 2 ^ Z.max (- k) 0)%Z.

(** The integer part of the binary logarithm of [n / d]. *)
Definition ilog2 (n d : Z) : Z :=
  let k := (Z.log2 n - Z.log2 d)%Z in
  if ge_pow2 n d k then k else (k - 1)%Z.

(** The binary64 nearest to [n / d] ([0 < n], [0 < d]), with sign [s]: the
    quotient is rounded to a multiple of [2 ^ e], where [e] leaves 53
    bits to a normal number and is -1074 for a subnormal one; a result
    beyond the largest finite number is an infinity. *)
Definition round_pos (s : bool) (n d : Z) : spec_float :=
  let e := Z.max (ilog2 n d - 52) (-1074) in
  let m := round_half_even (n * 2 ^ Z.max (- e) 0) (d * 2 ^ Z.max e 0) in
  let '(m, e) := if (m =? 2 ^ 53)%Z then ((2 ^ 52)%Z, (e + 1)%Z) else (m, e) in
  match m with
  | Zpos p => if (e <=? 971)%Z then S754_finite s p e else S754_infinity s
  | _ => S754_zero s
  end.

(** The exponent [round_pos] first rounds at. *)
Definition round_exp (n d : Z) : Z := Z.max (ilog2 n d - 52) (-1074).

(** [x * y] on two floats. *)
Definition float_mul (x y : spec_float) : spec_float :=
  match x, y with
  | S754_nan, _ | _, S754_nan => S754_nan
  | S754_infinity sx, S754_infinity sy => S754_infinity (xorb sx sy)
  | S754_infinity sx, S754_finite sy _ _ => S754_infinity (xorb sx sy)
  | S754_finite sx _ _, S754_infinity sy => S754_infinity (xorb sx sy)
  | S754_infinity _, S754_zero _ => S754_nan
  | S754_zero _, S754_infinity _ => S754_nan
  | S754_finite sx _ _, S754_zero sy => S754_zero (xorb sx sy)
  | S754_zero sx, S754_finite sy _ _ => S754_zero (xorb sx sy)
  | S754_zero sx, S754_zero sy => S754_zero (xorb sx sy)
  | S754_finite sx mx ex, S754_finite sy my ey =>
      round_pos (xorb sx sy)
        (Zpos mx * Zpos my * 2 ^ Z.max (ex + ey) 0)
        (2 ^ Z.max (- (ex + ey)) 0)
  end.

(** [100.0], the float the integer [100] converts to. *)
Definition hundred : spec_float := S754_finite false 7036874417766400 (-46).

(** A Python number: an [int] or a [float]. *)
Inductive number : Type :=
| Int (z : Z)
| Float (f : spec_float).

(** ** ARC statistics *)

Record arc_l1 : Type := {
  l1_size : Z;
  l1_hitrate : number;
  l1_free : Z;
  l1_meta_used : Z;
  l1_meta_limit : Z
}.

Record arc_l2 : Type := {
  l2_usage : Z;
  l2_usage_actual : Z;
  l2_hitrate : number;
  l2_bytes_read : Z;
  l2_bytes_written : Z;
  l2_io_error : Z;
  l2_cksum_bad : Z
}.

Record arc : Type := { l1 : arc_l1; l2 : arc_l2 }.

(** [a / b] on two integers: the float nearest to the quotient, with the
    sign of a zero taken from the operands; a quotient too large for a
    float raises [OverflowError]. *)
Definition truediv (a b : Z) : result spec_float :=
  if (b =? 0)%Z then Err ZeroDivisionError
  else if (a =? 0)%Z then Ok (S754_zero (b <? 0)%Z)
  else
    match round_pos (xorb (a <? 0)%Z (b <? 0)%Z) (Z.abs a) (Z.abs b) with
    | S754_infinity _ => Err OverflowError
    | f => Ok f
    end.

(** [r[hit] / l * 100 if l else 0] *)
Definition hitrate (r : gmap string Z) (hit : string) (l : Z) : result number :=
  if negb (l =? 0)%Z then
    h ← getitem r hit;
    q ← truediv h l;
    Ok (Float (float_mul q hundred))
  else Ok (Int 0).

Definition arc_row (x : list string) : result (option (string * Z)) :=
  k ← index x 0;
  v ← (s ← index x 2; int s);
  Ok (Some (k, v)).

(** [arc_stats] from the dictionary [r] it reads on. *)
Definition arc_of_map (r : gmap string Z) : result arc :=
  hits ← getitem r "hits";
  misses ← getitem r "misses";
  let l1 := hits + misses in
  l2_hits ← getitem r "l2_hits";
  l2_misses ← getitem r "l2_misses";
  let l2 := l2_hits + l2_misses in
  size ← getitem r "size";
  hr1 ← hitrate r "hits" l1;
  free ← getitem r "memory_available_bytes";
  meta_used ← getitem r "arc_meta_used";
  meta_limit ← getitem r "arc_meta_limit";
  usage ← getitem r "l2_size";
  usage_actual ← getitem r "l2_asize";
  hr2 ← hitrate r "l2_hits" l2;
  bytes_read ← getitem r "l2_read_bytes";
  bytes_written ← getitem r "l2_write_bytes";
  io_error ← getitem r "l2_io_error";
  cksum_bad ← getitem r "l2_cksum_bad";
  Ok {| l1 := {| l1_size := size; l1_hitrate := hr1; l1_free := free;
                 l1_meta_used := meta_used; l1_meta_limit := meta_limit |};
        l2 := {| l2_usage := usage; l2_usage_actual := usage_actual;
                 l2_hitrate := hr2; l2_bytes_read := bytes_read;
                 l2_bytes_written := bytes_written; l2_io_error := io_error;
                 l2_cksum_bad := cksum_bad |} |}.

Definition arcstats_path : string := "/proc/spl/kstat/zfs/arcstats".

Definition arc_stats (e : env) : result arc :=
  rows ← read_file e arcstats_path 2 Spaces;
  r ← dict_comp arc_row rows ∅;
  arc_of_map r.

(** ** The pool and dataset listings, and the snapshot

    [float] is left open: the development holds for every reading
    [py_float] of it, [None] standing for [ValueError]. *)

Record pool (F : Type) : Type := {
  p_name : string;
  p_size : Z;
  p_alloc : Z;
  p_free : Z;
  p_frag : Z;
  p_usage : Z;
  p_dedup : F;
  p_scrub : Z;
  p_online : Z;
  p_io : gmap string Z
}.
Arguments p_name {F}. Arguments p_size {F}. Arguments p_alloc {F}.
Arguments p_free {F}. Arguments p_frag {F}. Arguments p_usage {F}.
Arguments p_dedup {F}. Arguments p_scrub {F}. Arguments p_online {F}.
Arguments p_io {F}.

Record dataset (F : Type) : Type := {
  d_name : string;
  d_avail : Z;
  d_used : Z;
  d_compress : F;
  d_referenced : Z
}.

Arguments d_name {F}. Arguments d_avail {F}. Arguments d_used {F}.
Arguments d_compress {F}. Arguments d_referenced {F}.

Record snapshot (F : Type) : Type := {
  vdevs : gmap string vdev;
  pools : gmap string (pool F);
  datasets : gmap string (dataset F);
  s_arc : arc;
  slab : Z
}.
Arguments vdevs {F}. Arguments pools {F}. Arguments datasets {F}.
Arguments s_arc {F}. Arguments slab {F}.

Definition pool_list_cmd : list string :=
  [ZP; "list"; "-Hpo";
   "name,size,allocated,free,fragmentation,capacity,dedupratio,health"].

Definition zfs_list_cmd : list string :=
  [ZFS; "list"; "-Hpo"; "name,avail,used,compressratio,referenced"].

Section Listings.
Context {F : Type} (py_float : string → option F).

Definition float (s : string) : result F :=
  match py_float s with
  | Some f => Ok f
  | None => Err ValueError
  end.

Definition int_at (x : list string) (i : nat) : result Z :=
  s ← index x i; int s.

Definition pool_entry (e : env) (scrub : gmap string bool) (x : list string)
    : result (option (string * pool F)) :=
  k ← index x 0;
  name ← index x 0;
  size ← int_at x 1;
  alloc ← int_at x 2;
  free ← int_at x 3;
  frag ← int_at x 4;
  usage ← int_at x 5;
  dedup ← (s ← index x 6; float s);
  sc ← (p ← index x 0; getitem scrub p);
  online ← online_at x 7;
  io ← (p ← index x 0; pool_io_stats e p);
  Ok (Some (k, {| p_name := name; p_size := size; p_alloc := alloc;
                  p_free := free; p_frag := frag; p_usage := usage;
                  p_dedup := dedup; p_scrub := Z.b2z sc;
                  p_online := online; p_io := io |})).

Definition pool_list (e : env) (scrub : gmap string bool)
    : result (gmap string (pool F)) :=
  r ← run e pool_list_cmd Tab;
  dict_comp (pool_entry e scrub) r ∅.

Definition zfs_entry (x : list string)
    : result (option (string * dataset F)) :=
  k ← index x 0;
  name ← index x 0;
  avail ← int_at x 1;
  used ← int_at x 2;
  compress ← (s ← index x 3; float s);
  referenced ← int_at x 4;
  Ok (Some (k, {| d_name := name; d_avail := avail; d_used := used;
                  d_compress := compress; d_referenced := referenced |})).

Definition zfs_list (e : env) : result (gmap string (dataset F)) :=
  r ← run e zfs_list_cmd Tab;
  dict_comp zfs_entry r ∅.

(** The script's top level, up to the [json.dumps] of its result. *)
Definition collect (e : env) : result (snapshot F) :=
  '(scrub, vdev_errors) ← pool_status e;
  vs ← vdev_list e vdev_errors;
  ps ← pool_list e scrub;
  ds ← zfs_list e;
  a ← arc_stats e;
  s ← slab_usage e;
  Ok {| vdevs := vs; pools := ps; datasets := ds; s_arc := a; slab := s |}.
End Listings.

(** ** Notions the specification speaks of *)

Abbreviation row := (list string).

(** A row whose first field is the marker "pool:". *)
Definition marker (l : row) : Prop := l !! 0%nat = Some "pool:".

(** A "pool:" row that introduces the pool [k]. *)
Definition names (k : string) (l : row) : Prop :=
  l !! 0%nat = Some "pool:" ∧ l !! 1%nat = Some k.

(** A "scan:" row whose next three fields read "scrub in progress". *)
Definition scan_row (l : row) : Prop :=
  l !! 0%nat = Some "scan:" ∧ join " " (slice_1_4 l) = "scrub in progress".

(** The rows [pre] read so far leave the pool [k] in scope, [cur] being the
    pool in scope before them: either no marker occurs in [pre] and [k] is
    [cur], or the last marker of [pre] introduces [k]. *)
Definition opens (k cur : string) (pre : list row) : Prop :=
  (Forall (λ l, ¬ marker l) pre ∧ k = cur)
  ∨ ∃ pre1 mk body,
      pre = pre1 ++ mk :: body ∧ names k mk ∧ Forall (λ l, ¬ marker l) body.

(** A scan row reporting a scrub in progress lies before every marker. *)
Definition early_scan (rs : list row) : Prop :=
  ∃ pre l post,
    rs = pre ++ l :: post ∧ Forall (λ l, ¬ marker l) pre ∧ scan_row l.

(** What the first loop of [pool_status] needs of a row to go through. *)
Definition status_row_ok (l : row) : Prop :=
  l ≠ [] ∧ (marker l → (2 ≤ length l)%nat).

(** A device-error row of the status report. *)
Definition dev_row (x : row) : Prop :=
  (5 ≤ length x)%nat ∧ ∃ f, x !! 0%nat = Some f ∧ startswith_slash f = true.

(** The error record of a device-error row. *)
Definition error_record (x : row) : errors :=
  match x !! 2%nat ≫= py_int, x !! 3%nat ≫= py_int, x !! 4%nat ≫= py_int with
  | Some a, Some b, Some c => {| read := a; write := b; cksum := c |}
  | _, _, _ => no_errors
  end.

(** A row the device listing keeps. *)
Definition retained (x : row) : Prop :=
  ∃ f, x !! 0%nat = Some f ∧ startswith_slash f = true.

(** The value of a numeric field: the number when the field is purely
    numeric, zero otherwise (also when the field is missing). *)
Definition numeric (f : option string) : Z :=
  match f with
  | Some s => if isdigit s then digits_value s 0 else 0
  | None => 0
  end.

(** The rational number a finite float stands for (0 for the others). *)
Definition float_value (f : spec_float) : Q :=
  match f with
  | S754_finite s m e =>
      Qmake (cond_Zopp s (Zpos m) * 2 ^ Z.max e 0)
            (Z.to_pos (2 ^ Z.max (- e) 0))
  | _ => 0%Q
  end.

Definition number_value (x : number) : Q :=
  match x with
  | Int z => inject_Z z
  | Float f => float_value f
  end.

(** Neither an infinity nor a NaN. *)
Definition is_finite (x : number) : bool :=
  match x with
  | Int _ | Float (S754_zero _) | Float (S754_finite _ _ _) => true
  | Float _ => false
  end.

(** The float nearest to [hit / l], for [0 <= hit] and [0 < l]. *)
Definition quotient (hit l : Z) : spec_float :=
  if (hit =? 0)%Z then S754_zero false else round_pos false hit l.

(** The hit rate of a cache tier: hits / (hits + misses) * 100 as
    binary64 computes it, and the integer 0 when the tier has no access. *)
Definition rate (hit miss : Z) : number :=
  if (hit + miss =? 0)%Z then Int 0
  else Float (float_mul (quotient hit (hit + miss)) hundred).

(** The keys [arc_stats] reads. *)
Definition arc_keys : list string :=
  ["hits"; "misses"; "l2_hits"; "l2_misses"; "size"; "memory_available_bytes";
   "arc_meta_used"; "arc_meta_limit"; "l2_size"; "l2_asize"; "l2_read_bytes";
   "l2_write_bytes"; "l2_io_error"; "l2_cksum_bad"].

(** ** Concrete inputs *)

(** A reading of [float] on plain decimal notation (an optional sign,
    digits, an optional point and digits), enough to run the model on the
    rows the zpool tools print. *)
Definition float_dec (s : string) : option Q :=
  let '(neg, body) :=
    match strip s with
    | String "-" r => (true, r)
    | String "+" r => (false, r)
    | r => (false, r)
    end in
  let sign (q : Q) : Q := if neg : bool then Qopp q else q in
  match split_char "." body "" with
  | [i] => if isdigit i then Some (sign (inject_Z (digits_value i 0))) else None
  | [i; f] =>
      if all_digits i && all_digits f && negb ((i =? "") && (f =? ""))
      then Some (sign (inject_Z (digits_value i 0)
                       + Qmake (digits_value f 0)
                           (Pos.pow 10 (Pos.of_nat (String.length f)))))%Q
      else None
  | _ => None
  end.

(** One line of tab-separated fields. *)
Definition tsv (fields : list string) : string :=
  join (String tab "") fields +:+ nl.

(** An environment given by the text of each command and the lines of each
    file. *)
Definition env_of (cmds : list (list string * string))
    (files : list (string * list string)) : env :=
  {| check_output := λ cmd,
       match list_find (λ c, c.1 = cmd) cmds with
       | Some (_, c) => Ok c.2
       | None => Err CalledProcessError
       end;
     open_lines := λ fn,
       match list_find (λ f, f.1 = fn) files with
       | Some (_, f) => Ok f.2
       | None => Err OSError
       end |}.

(** The first, respectively last, character of [s] is not white space. *)
Definition first_nonspace (s : string) : bool :=
  match s with
  | "" => false
  | String c _ => negb (is_space c)
  end.

Fixpoint last_nonspace (s : string) : bool :=
  match s with
  | "" => false
  | String c "" => negb (is_space c)
  | String _ s' => last_nonspace s'
  end.

#[local] Instance marker_dec (l : row) : Decision (marker l).
Proof. unfold marker. apply _. Defined.

#[local] Instance scan_row_dec (l : row) : Decision (scan_row l).
Proof. unfold scan_row. apply _. Defined.

#[local] Instance status_row_ok_dec (l : row) : Decision (status_row_ok l).
Proof. unfold status_row_ok. apply _. Defined.

(** The status report of the specification's scenario: pool [tank] without a
    scan line, pool [backup] with a scrub in progress. *)
Definition report_two_pools : list row :=
  [ ["pool:"; "tank"];
    ["state:"; "ONLINE"];
    ["pool:"; "backup"];
    ["scan:"; "scrub"; "in"; "progress"; "since"; "Mon"] ].

(** A status report that opens with a scan line. *)
Definition report_scan_first : list row :=
  [ ["scan:"; "scrub"; "in"; "progress"] ].

#[local] Instance dev_row_dec (x : row) : Decision (dev_row x).
Proof.
  unfold dev_row. destruct (x !! 0%nat) as [f|].
  - destruct (decide ((5 ≤ length x)%nat ∧ startswith_slash f = true)) as [H|H].
    + left. destruct H. eauto.
    + right. intros (? & f' & [= <-] & ?). by apply H.
  - right. by intros (_ & f & ? & _).
Defined.

(** What a row of the status report adds to the device-error map. *)
Definition dev_entry (x : row) : option (string * errors) :=
  match x !! 0%nat with
  | Some f => if decide (dev_row x) then Some (f, error_record x) else None
  | None => None
  end.

(** Status reports over device rows, as the specification's scenarios have
    them. *)
Definition report_devices : list row :=
  [ ["pool:"; "tank"];
    ["/dev/sda1"; "ONLINE"; "0"; "0"; "0"];
    ["/dev/sdb1"; "ONLINE"; "-"; "-"; "-"];
    ["/dev/sdc1"; "DEGRADED"; "3"; "0"; "12"];
    ["/dev/sdd1"; "ONLINE"; "1"; "2"] ].

(** A status report in which a device is listed twice: with its counts
    among the devices of the pool, then as a spare in use. *)
Definition report_spare : list row :=
  [ ["pool:"; "tank"];
    ["/dev/sdb1"; "ONLINE"; "3"; "0"; "12"];
    ["spares"];
    ["/dev/sdb1"; "INUSE"; "currently"; "in"; "use"] ].

(** The text of a status report that opens with a scan line. *)
Definition status_scan_first : string :=
  "  scan: scrub in progress since Mon" +:+ nl +:+
  "  pool: tank" +:+ nl +:+
  " state: ONLINE" +:+ nl.

(** What a (name, value) pair of the I/O statistics adds to the result. *)
Definition io_entry (x : string * string) : option (string * Z) :=
  if isdigit x.2 then Some (x.1, digits_value x.2 0) else None.

(** The lines of a kstat file of I/O statistics: a header line skipped by
    the reader, the counter names, the values. *)
Definition iostats_lines : list string :=
  [ "12 1 0x01 1 80 3594 1022" +:+ nl;
    "nread nwritten reads writes wtime" +:+ nl;
    "4096 8192 - 7" +:+ nl ].

(** A kstat file that stops after the counter names. *)
Definition iostats_short : list string :=
  [ "12 1 0x01 1 80 3594 1022" +:+ nl;
    "nread nwritten reads writes" +:+ nl ].

Definition tank_row : row :=
  ["tank"; "1000"; "400"; "600"; "3"; "40"; "1.00"; "ONLINE"].

Definition env_tank (io_files : list (string * list string)) : env :=
  env_of [ (status_cmd, "  pool: tank" +:+ nl);
           (vdev_list_cmd, tsv ["tank"; "1000"; "400"; "600"]);
           (pool_list_cmd, tsv tank_row) ]
         io_files.

(** The record the device listing builds from a kept row [x] with first
    field [k], health string [h] and error record [es]. *)
Definition vdev_of (x : row) (k h : string) (es : errors) : vdev :=
  {| v_name := k;
     v_size := numeric (x !! 1%nat);
     v_alloc := numeric (x !! 2%nat);
     v_free := numeric (x !! 3%nat);
     v_frag := numeric (x !! 6%nat);
     v_usage := numeric (x !! 7%nat);
     v_online := Z.b2z (h =? "ONLINE");
     v_errors := es |}.

(** A device listing: a pool-summary row, a device, a spare without
    statistics. *)
Definition device_listing : string :=
  tsv ["tank"; "1000"; "400"; "600"; "-"; "-"; "3"; "40"; "1.00"; "ONLINE"; "-"]
  +:+ tsv ["/dev/sda1"; "1000"; "400"; "600"; "-"; "-"; "3"; "40"; "-"; "ONLINE"]
  +:+ tsv ["/dev/sdb1"; "-"; "-"; "-"; "-"; "-"; "-"; "-"; "-"; "Online"].

Definition device_errors : gmap string errors :=
  {[ "/dev/sda1" := {| read := 1; write := 0; cksum := 2 |};
     "/dev/sdb1" := no_errors ]}.

(** A pool whose fragmentation is not reported. *)
Definition pool_row_no_frag : row :=
  ["tank"; "1000"; "400"; "600"; "-"; "40"; "1.00"; "ONLINE"].

(** The ARC counters of the specification's scenario, and counters with no
    hit yet. *)
Definition arc_counters (hits misses l2_hits l2_misses : Z) : gmap string Z :=
  list_to_map
    [ ("hits", hits); ("misses", misses); ("l2_hits", l2_hits);
      ("l2_misses", l2_misses); ("size", 4096);
      ("memory_available_bytes", 1024); ("arc_meta_used", 10);
      ("arc_meta_limit", 100); ("l2_size", 0); ("l2_asize", 0);
      ("l2_read_bytes", 0); ("l2_write_bytes", 0); ("l2_io_error", 0);
      ("l2_cksum_bad", 0) ].

(** The number the third field of a slab row adds to the total. *)
Definition third (x : row) : Z := numeric (x !! 2%nat).

Definition slab_entry (x : row) : option Z :=
  match x !! 2%nat with
  | Some s => if isdigit s then Some (digits_value s 0) else None
  | None => None
  end.

(** A slab file: two header lines, three caches, a footer. *)
Definition slab_lines : list string :=
  [ "--------------------- cache ---------------------" +:+ nl;
    "name flags size alloc slabsize objsize" +:+ nl;
    "spl_vn_cache 0x00020 98304 48048 16384 104" +:+ nl;
    "zio_cache 0x00040 - - 16384 1048" +:+ nl;
    "ddt_cache 0x00040 24576 24576 24576 24576" +:+ nl;
    "total: 3" +:+ nl ].

(** A slab file with a blank line after the header. *)
Definition slab_lines_blank : list string :=
  [ "--------------------- cache ---------------------" +:+ nl;
    "name flags size alloc slabsize objsize" +:+ nl;
    nl;
    "spl_vn_cache 0x00020 98304 48048 16384 104" +:+ nl ].

(** Environments over the inputs above. *)
Definition env_scan_first : env := env_of [(status_cmd, status_scan_first)] [].

Definition env_short_iostats : env :=
  env_tank [ (iostats_path "tank", iostats_short);
             (io_path "tank", iostats_lines) ].

Definition short_rows : list row := [["nread"; "nwritten"; "reads"; "writes"; ""]].

Definition env_devices : env := env_of [(vdev_list_cmd, device_listing)] [].

Definition env_no_frag : env := env_of [(pool_list_cmd, tsv pool_row_no_frag)] [].

Definition env_slab : env := env_of [] [(slab_path, slab_lines)].

Definition env_slab_blank : env := env_of [] [(slab_path, slab_lines_blank)].

(** Two pools, one of them degraded, with their I/O statistics. *)
Definition env_two_pools : env :=
  env_of [ (pool_list_cmd,
            tsv tank_row
            +:+ tsv ["backup"; "2000"; "500"; "1500"; "7"; "25"; "1.50";
                     "DEGRADED"]) ]
         [ (iostats_path "tank", iostats_lines);
           (io_path "backup", iostats_lines) ].

(** No character of [s] is white space. *)
Fixpoint no_space (s : string) : bool :=
  match s with
  | "" => true
  | String c s' => negb (is_space c) && no_space s'
  end.

(** A command whose output is indented and ends with blank lines. *)
Definition indented_listing : string :=
  String tab (tsv ["/dev/sda1"; "1000"; ""; "600"]) +:+ nl +:+ "   " +:+ nl.

Definition env_indented : env :=
  env_of [ (vdev_list_cmd, indented_listing);
           (status_cmd, "  pool:   tank  " +:+ nl) ] [].

(** An environment in which every command prints nothing but blank lines. *)
Definition env_blank : env :=
  {| check_output := λ _, Ok (nl +:+ "  " +:+ nl);
     open_lines := λ _, Err OSError |}.

(** The records [vdev_list] builds from [device_listing]. *)
Definition sda1_record : vdev :=
  {| v_name := "/dev/sda1"; v_size := 1000; v_alloc := 400; v_free := 600;
     v_frag := 3; v_usage := 40; v_online := 1;
     v_errors := {| read := 1; write := 0; cksum := 2 |} |}.

Definition sdb1_record : vdev :=
  {| v_name := "/dev/sdb1"; v_size := 0; v_alloc := 0; v_free := 0;
     v_frag := 0; v_usage := 0; v_online := 0; v_errors := no_errors |}.

Definition device_records : gmap string vdev :=
  {[ "/dev/sda1" := sda1_record; "/dev/sdb1" := sdb1_record ]}.

(** What [zfs_list] needs of a row: five fields, integers in fields 1, 2
    and 4, a float in field 3. *)
Definition zfs_row_ok {F : Type} (py_float : string → option F) (x : row)
    : Prop :=
  ∃ k s1 s2 s3 s4,
    x !! 0%nat = Some k ∧ x !! 1%nat = Some s1 ∧ x !! 2%nat = Some s2
    ∧ x !! 3%nat = Some s3 ∧ x !! 4%nat = Some s4
    ∧ is_Some (py_int s1) ∧ is_Some (py_int s2) ∧ is_Some (py_float s3)
    ∧ is_Some (py_int s4).

Definition scrub_two : gmap string bool :=
  {[ "tank" := false; "backup" := true ]}.

(** The map [pool_list] builds in [env_two_pools], and its record of the
    pool [backup]. *)
Definition two_pools_map : gmap string (pool Q) :=
  Eval vm_compute in
    match pool_list float_dec env_two_pools scrub_two with
    | Ok m => m
    | Err _ => ∅
    end.

Definition backup_record : pool Q :=
  Eval vm_compute in
    match two_pools_map !! "backup" with
    | Some p => p
    | None => {| p_name := ""; p_size := 0; p_alloc := 0; p_free := 0;
                 p_frag := 0; p_usage := 0; p_dedup := inject_Z 0;
                 p_scrub := 0; p_online := 0; p_io := ∅ |}
    end.

(** A dataset listing, and one with a placeholder. *)
Definition dataset_rows : list row :=
  [ ["tank"; "600"; "400"; "1.00"; "96"];
    ["tank/home"; "600"; "300"; "1.52"; "300"] ].

Definition env_datasets : env :=
  env_of [ (zfs_list_cmd,
            tsv ["tank"; "600"; "400"; "1.00"; "96"]
            +:+ tsv ["tank/home"; "600"; "300"; "1.52"; "300"]) ] [].

Definition datasets_map : gmap string (dataset Q) :=
  Eval vm_compute in
    match zfs_list float_dec env_datasets with
    | Ok m => m
    | Err _ => ∅
    end.

Definition home_record : dataset Q :=
  Eval vm_compute in
    match datasets_map !! "tank/home" with
    | Some d => d
    | None => {| d_name := ""; d_avail := 0; d_used := 0;
                 d_compress := inject_Z 0; d_referenced := 0 |}
    end.

(** What [arc_stats] needs of a row of the arcstats file: a third field
    that reads as an integer. *)
Definition arc_row_ok (x : row) : Prop :=
  ∃ s, x !! 2%nat = Some s ∧ is_Some (py_int s).

(** A status report in which a "pool:" line lost its name. *)
Definition status_nameless : string :=
  "  pool: tank" +:+ nl +:+ "  pool:" +:+ nl.

Definition env_nameless : env := env_of [(status_cmd, status_nameless)] [].

(** An arcstats file: two header lines, then name, type and value. *)
Definition arcstats_lines : list string :=
  [ "13 1 0x01 98 26656 2811 1652" +:+ nl;
    "name type data" +:+ nl;
    "hits 4 80" +:+ nl; "misses 4 20" +:+ nl;
    "l2_hits 4 0" +:+ nl; "l2_misses 4 0" +:+ nl;
    "size 4 4096" +:+ nl; "memory_available_bytes 4 1024" +:+ nl;
    "arc_meta_used 4 10" +:+ nl; "arc_meta_limit 4 100" +:+ nl;
    "l2_size 4 0" +:+ nl; "l2_asize 4 0" +:+ nl;
    "l2_read_bytes 4 0" +:+ nl; "l2_write_bytes 4 0" +:+ nl;
    "l2_io_error 4 0" +:+ nl; "l2_cksum_bad 4 0" +:+ nl ].

(** A whole installation: one pool on one device, one dataset. *)
Definition status_full : string :=
  "  pool: tank" +:+ nl +:+
  " state: ONLINE" +:+ nl +:+
  "  scan: scrub in progress since Mon" +:+ nl +:+
  "config:" +:+ nl +:+
  "  NAME STATE READ WRITE CKSUM" +:+ nl +:+
  "  tank ONLINE 0 0 0" +:+ nl +:+
  "    /dev/sda1 ONLINE 0 0 2" +:+ nl.

Definition env_full : env :=
  env_of
    [ (status_cmd, status_full);
      (vdev_list_cmd,
       tsv ["tank"; "1000"; "400"; "600"; "-"; "-"; "3"; "40"; "1.00";
            "ONLINE"; "-"]
       +:+ String tab
             (tsv ["/dev/sda1"; "1000"; "400"; "600"; "-"; "-"; "3"; "40"; "-";
                   "ONLINE"]));
      (pool_list_cmd, tsv tank_row);
      (zfs_list_cmd, tsv ["tank"; "600"; "400"; "1.00"; "96"]) ]
    [ (iostats_path "tank", iostats_lines);
      (arcstats_path, arcstats_lines);
      (slab_path, slab_lines) ].

Definition snapshot_full : snapshot Q :=
  Eval vm_compute in
    match collect float_dec env_full with
    | Ok s => s
    | Err _ => {| vdevs := ∅; pools := ∅; datasets := ∅;
                  s_arc := {| l1 := {| l1_size := 0; l1_hitrate := Int 0;
                                       l1_free := 0; l1_meta_used := 0;
                                       l1_meta_limit := 0 |};
                              l2 := {| l2_usage := 0; l2_usage_actual := 0;
                                       l2_hitrate := Int 0;
                                       l2_bytes_read := 0;
                                       l2_bytes_written := 0;
                                       l2_io_error := 0;
                                       l2_cksum_bad := 0 |} |};
                  slab := 0 |}
    end.

(** The four counters the hit rates are computed from. *)
Definition arc_rate_keys : list string :=
  ["hits"; "misses"; "l2_hits"; "l2_misses"].

(** A row of the arcstats file whose third field reads as an integer that
    is not negative. *)
Definition arc_row_nonneg (x : row) : Prop :=
  ∃ s z, x !! 2%nat = Some s ∧ py_int s = Some z ∧ (0 ≤ z)%Z.

(** One of the two quotients of [arc_stats] is too large for a float. *)
Definition arc_overflow (r : gmap string Z) : Prop :=
  ∃ h m,
    (r !! "hits" = Some h ∧ r !! "misses" = Some m
     ∧ truediv h (h + m) = Err OverflowError)
    ∨ (r !! "l2_hits" = Some h ∧ r !! "l2_misses" = Some m
       ∧ truediv h (h + m) = Err OverflowError).

(** * Properties *)

(** ** The error monad *)

Lemma bind_ok {A B} (m : result A) (f : A → result B) (b : B) :
  m ≫= f = Ok b → ∃ a, m = Ok a ∧ f a = Ok b.
Proof. destruct m as [a|e]; [eauto | discriminate]. Qed.

Lemma bind_err_l {A B} (f : A → result B) (e : exn) : Err e ≫= f = Err e.
Proof. reflexivity. Qed.

Lemma index_ok {A} (l : list A) (i : nat) (a : A) :
  index l i = Ok a ↔ l !! i = Some a.
Proof. unfold index. destruct (l !! i); split; congruence. Qed.

Lemma index_err {A} (l : list A) (i : nat) (e : exn) :
  index l i = Err e ↔ (length l ≤ i)%nat ∧ e = IndexError.
Proof.
  unfold index. destruct (l !! i) eqn:H.
  - apply lookup_lt_Some in H. split; [discriminate | lia].
  - apply lookup_ge_None in H. split; [intros [= <-]; done | intros [_ ->]; done].
Qed.

Lemma index_lt {A} (l : list A) (i : nat) :
  (i < length l)%nat → ∃ a, index l i = Ok a ∧ l !! i = Some a.
Proof.
  intros H. destruct (lookup_lt_is_Some_2 l i H) as [a Ha].
  exists a. split; [by apply index_ok | done].
Qed.

(** Unfold one monadic step whose outcome is known. *)
Ltac step_ok H :=
  apply bind_ok in H; destruct H as (? & ? & H).

(** ** Characters and numbers *)

Lemma is_digit_not_special (c : ascii) :
  is_digit c = true →
  is_space c = false ∧ Ascii.eqb c "_" = false
  ∧ c ≠ "-"%char ∧ c ≠ "+"%char.
Proof.
  destruct c as [[] [] [] [] [] [] [] []]; vm_compute; try discriminate;
    intros _; repeat split; discriminate.
Qed.

Lemma int_digits_all (s : string) (acc : Z) (prev : bool) :
  all_digits s = true → (s ≠ "" ∨ prev = true) →
  int_digits s acc prev = Some (digits_value s acc).
Proof.
  revert acc prev. induction s as [|c s IH]; intros acc prev Hd Hne; simpl.
  - destruct Hne as [? | ->]; done.
  - simpl in Hd. apply andb_true_iff in Hd as [Hc Hs].
    rewrite Hc. apply IH; [done | by right].
Qed.

Lemma lstrip_digits (s : string) : all_digits s = true → lstrip s = s.
Proof.
  destruct s as [|c s]; [done|]. simpl. intros [Hc _]%andb_true_iff.
  by destruct (is_digit_not_special c Hc) as (-> & _).
Qed.

Lemma rstrip_digits (s : string) : all_digits s = true → rstrip s = s.
Proof.
  induction s as [|c s IH]; [done|]. simpl. intros [Hc Hs]%andb_true_iff.
  rewrite (IH Hs). destruct (is_digit_not_special c Hc) as (-> & _).
  by destruct s.
Qed.

Lemma strip_digits (s : string) : all_digits s = true → strip s = s.
Proof.
  intros H. unfold strip. rewrite lstrip_digits by done. by apply rstrip_digits.
Qed.

Lemma is_digit_not_c_space (c : ascii) : is_digit c = true → is_c_space c = false.
Proof.
  destruct c as [[] [] [] [] [] [] [] []]; vm_compute; try discriminate; done.
Qed.

Lemma int_strip_digits (s : string) : all_digits s = true → int_strip s = s.
Proof.
  intros H. unfold int_strip.
  assert (int_lstrip s = s) as ->.
  { destruct s as [|c s]; [done|]. simpl in *.
    apply andb_true_iff in H as [Hc _]. by rewrite (is_digit_not_c_space c Hc). }
  induction s as [|c s IH]; [done|]. simpl in *.
  apply andb_true_iff in H as [Hc Hs]. rewrite (IH Hs).
  rewrite (is_digit_not_c_space c Hc). by destruct s.
Qed.

Lemma isdigit_all (s : string) : isdigit s = true → all_digits s = true ∧ s ≠ "".
Proof. destruct s; [discriminate | done]. Qed.

(** After [s.isdigit()], [int(s)] does not raise and is the number the
    digits denote. *)
Lemma py_int_isdigit (s : string) :
  isdigit s = true → py_int s = Some (digits_value s 0).
Proof.
  intros [Hd Hne]%isdigit_all. unfold py_int. rewrite int_strip_digits by done.
  destruct s as [|c s]; [done|].
  assert (Hc : is_digit c = true) by (simpl in Hd; by apply andb_true_iff in Hd as [? _]).
  destruct (is_digit_not_special c Hc) as (_ & _ & Hm & Hp).
  assert (int_digits (String c s) 0 false = Some (digits_value (String c s) 0))
    as Hi by (apply int_digits_all; [done | by left]).
  destruct c as [[] [] [] [] [] [] [] []]; try done.
Qed.

Lemma int_isdigit (s : string) :
  isdigit s = true → int s = Ok (digits_value s 0).
Proof. intros H. unfold int. by rewrite py_int_isdigit. Qed.

Lemma digits_value_nonneg (s : string) (acc : Z) :
  all_digits s = true → (0 ≤ acc)%Z → (0 ≤ digits_value s acc)%Z.
Proof.
  revert acc. induction s as [|c s IH]; intros acc Hd Hacc; simpl; [done|].
  simpl in Hd. apply andb_true_iff in Hd as [Hc Hs]. apply IH; [done|].
  assert (0 ≤ digit_val c)%Z; [|lia].
  unfold is_digit in Hc. unfold digit_val.
  apply andb_true_iff in Hc as [H1 _]. apply Nat.leb_le in H1. lia.
Qed.

Example re_split_rows :
  re_split Spaces ("a b" +:+ nl) = ["a"; "b"; ""]
  ∧ re_split Spaces nl = [""; ""]
  ∧ re_split Spaces " a" = [""; "a"]
  ∧ re_split Tab (String "a" (String tab (String tab "b"))) = ["a"; ""; "b"].
Proof. repeat split; reflexivity. Qed.

Example py_int_examples :
  py_int "42" = Some 42%Z ∧ py_int "-7" = Some (-7)%Z
  ∧ py_int " +1_000 " = Some 1000%Z ∧ py_int "007" = Some 7%Z
  ∧ py_int "-" = None ∧ py_int "" = None ∧ py_int "1__0" = None
  ∧ py_int "_1" = None ∧ py_int "1_" = None ∧ py_int "+ 5" = None
  ∧ py_int (String (ascii_of_nat 31) "5") = None
  ∧ py_int (String (ascii_of_nat 12) "5") = Some 5%Z.
Proof. repeat split; reflexivity. Qed.

(** ** Comprehensions and loops *)

Section Comprehensions.
Context {A V : Type} (f : A → result (option (string * V))).

Lemma dict_comp_app (l1 l2 : list A) (acc : gmap string V) :
  dict_comp f (l1 ++ l2) acc = dict_comp f l1 acc ≫= dict_comp f l2.
Proof.
  revert acc. induction l1 as [|x l1 IH]; intros acc; simpl; [done|].
  destruct (f x) as [kv|e]; simpl; [apply IH | done].
Qed.

Lemma dict_comp_ok_iff (l : list A) (acc : gmap string V) :
  is_ok (dict_comp f l acc) = true ↔ Forall (λ x, is_ok (f x) = true) l.
Proof.
  revert acc. induction l as [|x l IH]; intros acc; simpl.
  - split; [constructor | done].
  - destruct (f x) as [kv|e] eqn:Hx; simpl.
    + rewrite IH. split; [intros; constructor; [by rewrite Hx | done]|].
      by intros [_ ?]%Forall_cons.
    + split; [done|]. intros [H _]%Forall_cons. by rewrite Hx in H.
Qed.

Lemma dict_comp_first_err (pre post : list A) (x : A) (acc : gmap string V)
    (e : exn) :
  Forall (λ y, is_ok (f y) = true) pre → f x = Err e →
  dict_comp f (pre ++ x :: post) acc = Err e.
Proof.
  intros Hpre Hx. rewrite dict_comp_app.
  apply (dict_comp_ok_iff pre acc) in Hpre.
  destruct (dict_comp f pre acc) as [m|?]; [|done]. simpl. by rewrite Hx.
Qed.

Lemma dict_comp_err (l : list A) (x : A) (acc : gmap string V) (e : exn) :
  x ∈ l → f x = Err e → ∃ e', dict_comp f l acc = Err e'.
Proof.
  intros Hin Hx. destruct (dict_comp f l acc) as [m|e'] eqn:H; [|eauto].
  assert (is_ok (dict_comp f l acc) = true) as Hok by (by rewrite H).
  apply dict_comp_ok_iff in Hok. rewrite Forall_forall in Hok.
  specialize (Hok x Hin). by rewrite Hx in Hok.
Qed.

Lemma dict_comp_dom (l : list A) (acc m : gmap string V) (k : string) :
  dict_comp f l acc = Ok m →
  is_Some (m !! k) ↔
    is_Some (acc !! k) ∨ ∃ x v, x ∈ l ∧ f x = Ok (Some (k, v)).
Proof.
  revert acc. induction l as [|x l IH]; intros acc H; simpl in H.
  - injection H as <-. split; [by left|]. intros [?|(x & v & Hin & _)]; [done|].
    by apply elem_of_nil in Hin.
  - destruct (f x) as [kv|e] eqn:Hx; [|done]. simpl in H.
    rewrite (IH _ H). clear IH H. split.
    + intros [Hacc|(y & v & Hin & Hy)].
      * destruct kv as [[k' v']|]; [|by left].
        destruct (decide (k' = k)) as [->|Hne].
        -- right. exists x, v'. split; [left | done].
        -- rewrite lookup_insert_ne in Hacc by done. by left.
      * right. exists y, v. split; [by right | done].
    + intros [Hacc|(y & v & Hin & Hy)].
      * left. destruct kv as [[k' v']|]; [|done].
        destruct (decide (k' = k)) as [->|Hne].
        -- rewrite lookup_insert_eq. eauto.
        -- by rewrite lookup_insert_ne.
      * apply elem_of_cons in Hin as [->|Hin].
        -- left. rewrite Hx in Hy. injection Hy as ->.
           rewrite lookup_insert_eq. eauto.
        -- right. eauto.
Qed.

Lemma dict_comp_keep (l : list A) (acc m : gmap string V) (k : string) :
  dict_comp f l acc = Ok m →
  Forall (λ y, ∀ v, f y ≠ Ok (Some (k, v))) l →
  m !! k = acc !! k.
Proof.
  revert acc. induction l as [|x l IH]; intros acc H Hno; simpl in H.
  - by injection H as <-.
  - apply Forall_cons in Hno as [Hx Hl].
    destruct (f x) as [kv|e] eqn:Hfx; [|done]. simpl in H.
    rewrite (IH _ H Hl). destruct kv as [[k' v']|]; [|done].
    apply lookup_insert_ne. intros ->. by apply (Hx v').
Qed.

Lemma dict_comp_last (pre post : list A) (x : A) (acc m : gmap string V)
    (k : string) (v : V) :
  dict_comp f (pre ++ x :: post) acc = Ok m →
  f x = Ok (Some (k, v)) →
  Forall (λ y, ∀ v', f y ≠ Ok (Some (k, v'))) post →
  m !! k = Some v.
Proof.
  intros H Hx Hpost. rewrite dict_comp_app in H.
  destruct (dict_comp f pre acc) as [m1|?]; [|done]. simpl in H.
  rewrite Hx in H. simpl in H.
  rewrite (dict_comp_keep _ _ _ _ H Hpost). apply lookup_insert_eq.
Qed.

Lemma dict_comp_origin (l : list A) (acc m : gmap string V) (k : string)
    (v : V) :
  dict_comp f l acc = Ok m → m !! k = Some v →
  acc !! k = Some v ∨ ∃ x, x ∈ l ∧ f x = Ok (Some (k, v)).
Proof.
  revert acc. induction l as [|x l IH]; intros acc H Hm; simpl in H.
  - injection H as <-. by left.
  - destruct (f x) as [kv|e] eqn:Hx; [|done]. simpl in H.
    destruct (IH _ H Hm) as [Hacc|(y & Hin & Hy)].
    + destruct kv as [[k' v']|]; [|by left].
      destruct (decide (k' = k)) as [->|Hne].
      * rewrite lookup_insert_eq in Hacc. injection Hacc as ->.
        right. exists x. split; [left | done].
      * rewrite lookup_insert_ne in Hacc by done. by left.
    + right. exists y. split; [by right | done].
Qed.
End Comprehensions.

Lemma for_loop_app {A S} (step : S → A → result S) (l1 l2 : list A) (st : S) :
  for_loop step (l1 ++ l2) st = for_loop step l1 st ≫= for_loop step l2.
Proof.
  revert st. induction l1 as [|x l1 IH]; intros st; simpl; [done|].
  destruct (step st x); simpl; [apply IH | done].
Qed.

(** A loop whose step only inserts is a comprehension. *)
Lemma for_loop_dict_comp {A V} (step : gmap string V → A → result (gmap string V))
    (g : A → option (string * V)) (l : list A) (acc : gmap string V) :
  (∀ acc x, step acc x
            = Ok (match g x with Some (k, v) => <[k:=v]> acc | None => acc end)) →
  for_loop step l acc = dict_comp (λ x, Ok (g x)) l acc.
Proof.
  intros Hstep. revert acc. induction l as [|x l IH]; intros acc; simpl; [done|].
  rewrite Hstep. simpl. apply IH.
Qed.

Lemma list_comp_ok {A B} (f : A → result (option B)) (g : A → option B)
    (l : list A) :
  Forall (λ x, f x = Ok (g x)) l →
  list_comp f l = Ok (omap g l).
Proof.
  induction 1 as [|x l Hx _ IH]; simpl; [done|].
  rewrite Hx, IH. simpl. by destruct (g x).
Qed.

Lemma list_comp_first_err {A B} (f : A → result (option B)) (pre post : list A)
    (x : A) (e : exn) :
  Forall (λ y, is_ok (f y) = true) pre → f x = Err e →
  list_comp f (pre ++ x :: post) = Err e.
Proof.
  induction 1 as [|y pre Hy _ IH]; intros Hx; simpl.
  - by rewrite Hx.
  - destruct (f y); [|done]. simpl. by rewrite IH.
Qed.

(** ** The scrub map *)

Lemma scan_row_not_marker (l : row) : scan_row l → ¬ marker l.
Proof. intros [H _] Hm. unfold marker in Hm. congruence. Qed.

Lemma scrub_step_marker (st : scrub_state) (l : row) (p : string) :
  names p l → scrub_step st l = Ok (p, <[p:=false]> st.2).
Proof.
  intros [H0 H1]. unfold scrub_step.
  apply index_ok in H0, H1. rewrite H0. simpl. by rewrite H1.
Qed.

Lemma scrub_step_scan (st : scrub_state) (l : row) :
  scan_row l → scrub_step st l = Ok (st.1, <[st.1:=true]> st.2).
Proof.
  intros [H0 Hj]. unfold scrub_step.
  apply index_ok in H0. rewrite H0. simpl. by rewrite Hj.
Qed.

Lemma scrub_step_other (st : scrub_state) (l : row) :
  l ≠ [] → ¬ marker l → ¬ scan_row l → scrub_step st l = Ok st.
Proof.
  intros Hne Hm Hs. unfold scrub_step. destruct l as [|f l]; [done|].
  simpl. destruct (String.eqb_spec f "pool:") as [->|_]; [by destruct Hm|].
  simpl. destruct (String.eqb_spec f "scan:") as [->|_]; [|done]. simpl.
  destruct (String.eqb_spec (join " " (slice_1_4 ("scan:" :: l)))
              "scrub in progress") as [Hj|_]; [|done].
  by destruct Hs.
Qed.

Lemma scrub_step_short (st : scrub_state) (l : row) :
  ¬ status_row_ok l → scrub_step st l = Err IndexError.
Proof.
  intros Hbad. destruct l as [|f l]; [done|].
  destruct (decide (f = "pool:")) as [->|Hf].
  - destruct l as [|p l]; [done|]. destruct Hbad. split; [done|]. simpl. lia.
  - destruct Hbad. split; [done|]. intros Hm. unfold marker in Hm. simpl in Hm.
    congruence.
Qed.

(** The kinds of rows the first loop tells apart. *)
Lemma status_row_cases (l : row) :
  (∃ p, names p l) ∨ (¬ marker l ∧ scan_row l)
  ∨ (l ≠ [] ∧ ¬ marker l ∧ ¬ scan_row l) ∨ ¬ status_row_ok l.
Proof.
  destruct (decide (status_row_ok l)) as [[Hne Hlen]|?]; [|by do 3 right].
  destruct (decide (marker l)) as [Hm|Hm].
  - left. specialize (Hlen Hm).
    destruct (lookup_lt_is_Some_2 l 1 ltac:(lia)) as [p Hp]. by exists p.
  - destruct (decide (scan_row l)); [right; by left | do 2 right; by left].
Qed.

Lemma scrub_loop_total (rs : list row) (st : scrub_state) :
  Forall status_row_ok rs → ∃ st', for_loop scrub_step rs st = Ok st'.
Proof.
  intros H. revert st. induction H as [|l rs Hl _ IH]; intros st; simpl; [eauto|].
  destruct (status_row_cases l) as [[p Hp]|[[_ Hs]|[(Hne & Hm & Hs)|?]]]; [| | |done].
  - rewrite (scrub_step_marker _ _ _ Hp). apply IH.
  - rewrite (scrub_step_scan _ _ Hs). apply IH.
  - rewrite (scrub_step_other _ _ Hne Hm Hs). apply IH.
Qed.

Lemma scrub_loop_raises (rs : list row) (st : scrub_state) :
  ¬ Forall status_row_ok rs → for_loop scrub_step rs st = Err IndexError.
Proof.
  revert st. induction rs as [|l rs IH]; intros st Hbad; [by destruct Hbad|].
  simpl.
  destruct (status_row_cases l) as [[p Hp]|[[Hm Hs]|[(Hne & Hm & Hs)|Hl]]].
  - rewrite (scrub_step_marker _ _ _ Hp). simpl. apply IH. intros H.
    apply Hbad. constructor; [|done]. destruct Hp as [H0 H1].
    split; [by intros ->|]. intros _. apply lookup_lt_Some in H1. lia.
  - rewrite (scrub_step_scan _ _ Hs). simpl. apply IH. intros H.
    apply Hbad. constructor; [|done]. destruct Hs as [H0 _].
    split; [by intros ->|]. done.
  - rewrite (scrub_step_other _ _ Hne Hm Hs). simpl. apply IH. intros H.
    apply Hbad. by constructor.
  - by rewrite (scrub_step_short _ _ Hl).
Qed.

Lemma opens_cons_marker (k cur p : string) (l : row) (pre : list row) :
  names p l → opens k cur (l :: pre) ↔ opens k p pre.
Proof.
  intros Hp. assert (marker l) as Hm by apply Hp. split.
  - intros [[Hno _]|(pre1 & mk & body & Heq & Hmk & Hbody)].
    + apply Forall_cons in Hno as [? _]. done.
    + destruct pre1 as [|l' pre1]; simpl in Heq; injection Heq as <- ->.
      * left. split; [done|]. destruct Hp as [_ H1], Hmk as [_ H2]. congruence.
      * right. by exists pre1, mk, body.
  - intros [[Hno ->]|(pre1 & mk & body & -> & Hmk & Hbody)]; right.
    + by exists [], l, pre.
    + by exists (l :: pre1), mk, body.
Qed.

Lemma opens_cons_other (k cur : string) (l : row) (pre : list row) :
  ¬ marker l → opens k cur (l :: pre) ↔ opens k cur pre.
Proof.
  intros Hm. split.
  - intros [[Hno ->]|(pre1 & mk & body & Heq & Hmk & Hbody)].
    + left. by apply Forall_cons in Hno as [_ ?].
    + destruct pre1 as [|l' pre1]; simpl in Heq; injection Heq as <- ->.
      * destruct Hm. apply Hmk.
      * right. by exists pre1, mk, body.
  - intros [[Hno ->]|(pre1 & mk & body & -> & Hmk & Hbody)].
    + left. split; [by constructor | done].
    + right. by exists (l :: pre1), mk, body.
Qed.

Lemma scrub_flag_inv (rs : list row) (cur cur' : string) (m m' : gmap string bool) :
  for_loop scrub_step rs (cur, m) = Ok (cur', m') →
  ∀ k, m' !! k = Some true ↔
    (∃ pre l post,
        rs = pre ++ l :: post ∧ opens k cur pre ∧ scan_row l
        ∧ Forall (λ y, ¬ names k y) post)
    ∨ (m !! k = Some true ∧ Forall (λ y, ¬ names k y) rs).
Proof.
  revert cur m. induction rs as [|l rs IH]; intros cur m H k; simpl in H.
  - injection H as <- <-. split.
    + intros Hm. right. by split.
    + intros [(pre & l & post & Heq & _)|[Hm _]]; [|done].
      by destruct pre.
  - destruct (status_row_cases l) as [[p Hp]|[[Hm Hs]|[(Hne & Hm & Hs)|Hl]]].
    + rewrite (scrub_step_marker _ _ _ Hp) in H. simpl in H.
      rewrite (IH _ _ H k). clear IH H.
      assert (marker l) as Hm by apply Hp. split.
      * intros [(pre & l' & post & -> & Ho & Hs & Hpost)|[Hk Hrs]].
        -- left. exists (l :: pre), l', post.
           split; [done|]. split; [|done]. by apply (opens_cons_marker k cur p).
        -- right. destruct (decide (p = k)) as [->|Hne].
           ++ by rewrite lookup_insert_eq in Hk.
           ++ rewrite lookup_insert_ne in Hk by done. split; [done|].
              constructor; [|done]. intros [_ H1]. destruct Hp as [_ H2].
              congruence.
      * intros [(pre & l' & post & Heq & Ho & Hs & Hpost)|[Hk Hrs]].
        -- destruct pre as [|l0 pre]; simpl in Heq; injection Heq as <- ->.
           ++ by destruct (scan_row_not_marker _ Hs).
           ++ left. exists pre, l', post. split; [done|]. split; [|done].
              by apply (opens_cons_marker k cur p l).
        -- right. apply Forall_cons in Hrs as [Hl Hrs]. split; [|done].
           rewrite lookup_insert_ne; [done|]. intros <-. by apply Hl.
    + rewrite (scrub_step_scan _ _ Hs) in H. simpl in H.
      rewrite (IH _ _ H k). clear IH H. split.
      * intros [(pre & l' & post & -> & Ho & Hs' & Hpost)|[Hk Hrs]].
        -- left. exists (l :: pre), l', post.
           split; [done|]. split; [|done]. by apply opens_cons_other.
        -- destruct (decide (cur = k)) as [->|Hne].
           ++ left. exists [], l, rs. split; [done|]. split; [|done].
              left. by split.
           ++ rewrite lookup_insert_ne in Hk by done. right. split; [done|].
              constructor; [|done]. intros [? _]. by apply Hm.
      * intros [(pre & l' & post & Heq & Ho & Hs' & Hpost)|[Hk Hrs]].
        -- destruct pre as [|l0 pre]; simpl in Heq; injection Heq as <- ->.
           ++ right. destruct Ho as [[_ ->]|(pre1 & ? & ? & Heq & _)];
                [|by destruct pre1].
              by rewrite lookup_insert_eq.
           ++ left. exists pre, l', post. split; [done|]. split; [|done].
              by apply (opens_cons_other k cur l).
        -- right. apply Forall_cons in Hrs as [_ Hrs]. split; [|done].
           destruct (decide (cur = k)) as [->|Hne];
             [apply lookup_insert_eq | by rewrite lookup_insert_ne].
    + rewrite (scrub_step_other _ _ Hne Hm Hs) in H. simpl in H.
      rewrite (IH _ _ H k). clear IH H. split.
      * intros [(pre & l' & post & -> & Ho & Hs' & Hpost)|[Hk Hrs]].
        -- left. exists (l :: pre), l', post.
           split; [done|]. split; [|done]. by apply opens_cons_other.
        -- right. split; [done|]. constructor; [|done]. intros [? _].
           by apply Hm.
      * intros [(pre & l' & post & Heq & Ho & Hs' & Hpost)|[Hk Hrs]].
        -- destruct pre as [|l0 pre]; simpl in Heq; injection Heq as <- ->;
             [done|].
           left. exists pre, l', post. split; [done|]. split; [|done].
           by apply (opens_cons_other k cur l).
        -- right. by apply Forall_cons in Hrs as [_ Hrs].
    + by rewrite (scrub_step_short _ _ Hl) in H.
Qed.

Lemma early_scan_cons_marker (l : row) (rs : list row) :
  marker l → ¬ early_scan (l :: rs).
Proof.
  intros Hm (pre & l' & post & Heq & Hpre & Hs).
  destruct pre as [|l0 pre]; simpl in Heq; injection Heq as <- ->.
  - by apply (scan_row_not_marker l).
  - by apply Forall_cons in Hpre as [? _].
Qed.

Lemma early_scan_cons_other (l : row) (rs : list row) :
  ¬ marker l → ¬ scan_row l → early_scan (l :: rs) ↔ early_scan rs.
Proof.
  intros Hm Hs. split.
  - intros (pre & l' & post & Heq & Hpre & Hs').
    destruct pre as [|l0 pre]; simpl in Heq; injection Heq as <- ->; [done|].
    exists pre, l', post. split; [done|]. split; [|done].
    by apply Forall_cons in Hpre as [_ ?].
  - intros (pre & l' & post & -> & Hpre & Hs').
    exists (l :: pre), l', post. split; [done|]. split; [|done].
    by constructor.
Qed.

Lemma scrub_dom_inv (rs : list row) (cur cur' : string) (m m' : gmap string bool) :
  for_loop scrub_step rs (cur, m) = Ok (cur', m') →
  ∀ k, is_Some (m' !! k) ↔
    is_Some (m !! k) ∨ (∃ l, l ∈ rs ∧ names k l) ∨ (k = cur ∧ early_scan rs).
Proof.
  revert cur m. induction rs as [|l rs IH]; intros cur m H k; simpl in H.
  - injection H as <- <-. split; [by left|].
    intros [?|[(l & Hin & _)|[_ (pre & ? & ? & Heq & _)]]]; [done| |].
    + by apply elem_of_nil in Hin.
    + by destruct pre.
  - destruct (status_row_cases l) as [[p Hp]|[[Hm Hs]|[(Hne & Hm & Hs)|Hl]]].
    + rewrite (scrub_step_marker _ _ _ Hp) in H. simpl in H.
      rewrite (IH _ _ H k). clear IH H.
      assert (marker l) as Hm by apply Hp. split.
      * intros [Hk|[(l' & Hin & Hn)|[-> _]]].
        -- destruct (decide (p = k)) as [->|Hne].
           ++ right. left. exists l. split; [left | done].
           ++ rewrite lookup_insert_ne in Hk by done. by left.
        -- right. left. exists l'. split; [by right | done].
        -- right. left. exists l. split; [left | done].
      * intros [Hk|[(l' & Hin & Hn)|[_ He]]].
        -- left. destruct (decide (p = k)) as [->|Hne];
             [rewrite lookup_insert_eq; eauto | by rewrite lookup_insert_ne].
        -- apply elem_of_cons in Hin as [->|Hin].
           ++ left. destruct Hp as [_ H1], Hn as [_ H2].
              assert (p = k) as -> by congruence.
              rewrite lookup_insert_eq. eauto.
           ++ right. left. eauto.
        -- by destruct (early_scan_cons_marker l rs Hm).
    + rewrite (scrub_step_scan _ _ Hs) in H. simpl in H.
      rewrite (IH _ _ H k). clear IH H. split.
      * intros [Hk|[(l' & Hin & Hn)|[-> (pre & l' & post & -> & Hpre & Hs')]]].
        -- destruct (decide (cur = k)) as [->|Hne].
           ++ right. right. split; [done|]. by exists [], l, rs.
           ++ rewrite lookup_insert_ne in Hk by done. by left.
        -- right. left. exists l'. split; [by right | done].
        -- right. right. split; [done|]. by exists [], l, (pre ++ l' :: post).
      * intros [Hk|[(l' & Hin & Hn)|[-> _]]].
        -- left. destruct (decide (cur = k)) as [->|Hne];
             [rewrite lookup_insert_eq; eauto | by rewrite lookup_insert_ne].
        -- apply elem_of_cons in Hin as [->|Hin].
           ++ destruct Hm. apply Hn.
           ++ right. left. eauto.
        -- left. rewrite lookup_insert_eq. eauto.
    + rewrite (scrub_step_other _ _ Hne Hm Hs) in H. simpl in H.
      rewrite (IH _ _ H k). clear IH H.
      rewrite (early_scan_cons_other l rs Hm Hs). split.
      * intros [Hk|[(l' & Hin & Hn)|He]]; [by left | | by do 2 right].
        right. left. exists l'. split; [by right | done].
      * intros [Hk|[(l' & Hin & Hn)|He]]; [by left | | by do 2 right].
        apply elem_of_cons in Hin as [->|Hin]; [destruct Hm; apply Hn|].
        right. left. eauto.
    + by rewrite (scrub_step_short _ _ Hl) in H.
Qed.

Example scrub_two_pools :
  scrub_loop report_two_pools = Ok {[ "tank" := false; "backup" := true ]}.
Proof. vm_compute. reflexivity. Qed.

(** C1, as stated, fails: on a report that opens with a scan line reading
    "scrub in progress" the scrub map has the key [""], which no "pool:" row
    introduces. *)
Lemma scrub_map_key_without_marker :
  scrub_loop report_scan_first = Ok {[ "" := true ]}
  ∧ ¬ ∃ l, l ∈ report_scan_first ∧ names "" l.
Proof.
  split; [vm_compute; reflexivity|].
  intros (l & Hin & Hn). apply list_elem_of_singleton in Hin as ->.
  destruct Hn as [Hn _]. discriminate.
Qed.

(** C1 (amended): on every status report the first loop goes through (no
    empty row, every "pool:" row has a second field), the keys of the scrub
    map are the pool names introduced by "pool:" rows, together with [""]
    when a scan row reading "scrub in progress" comes before every marker;
    and the flag of [k] is true iff some such scan row lies in a scope of
    [k] (after a marker introducing [k], or from the start for [""], and
    before the next marker) that no later marker introducing [k] follows. *)
Theorem scrub_map_scopes (rs : list row) :
  Forall status_row_ok rs →
  ∃ m, scrub_loop rs = Ok m
    ∧ (∀ k, k ∈ dom m ↔ (∃ l, l ∈ rs ∧ names k l) ∨ (k = "" ∧ early_scan rs))
    ∧ (∀ k, m !! k = Some true ↔
         ∃ pre l post,
           rs = pre ++ l :: post ∧ opens k "" pre ∧ scan_row l
           ∧ Forall (λ y, ¬ names k y) post)
    ∧ (∀ k, k ∈ dom m → m !! k ≠ Some true → m !! k = Some false).
Proof.
  intros Hok. destruct (scrub_loop_total rs ("", ∅) Hok) as [[cur m] H].
  exists m. unfold scrub_loop. rewrite H. split; [done|]. split; [|split].
  - intros k. rewrite elem_of_dom, (scrub_dom_inv _ _ _ _ _ H k).
    rewrite lookup_empty. split.
    + intros [[? ?]|[?|?]]; [done | by left | by right].
    + intros [?|?]; [right; by left | by do 2 right].
  - intros k. rewrite (scrub_flag_inv _ _ _ _ _ H k). rewrite lookup_empty.
    split; [|by left]. by intros [?|[? _]].
  - intros k [[] Hb]%elem_of_dom Hne; done.
Qed.

Lemma scrub_map_scopes_witness :
  Forall status_row_ok report_two_pools
  ∧ ∃ m, scrub_loop report_two_pools = Ok m
    ∧ (∀ k, k ∈ dom m ↔
         (∃ l, l ∈ report_two_pools ∧ names k l)
         ∨ (k = "" ∧ early_scan report_two_pools))
    ∧ (∀ k, m !! k = Some true ↔
         ∃ pre l post,
           report_two_pools = pre ++ l :: post ∧ opens k "" pre ∧ scan_row l
           ∧ Forall (λ y, ¬ names k y) post)
    ∧ (∀ k, k ∈ dom m → m !! k ≠ Some true → m !! k = Some false).
Proof.
  assert (Forall status_row_ok report_two_pools) as H.
  { repeat constructor; simpl; try discriminate; lia. }
  split; [exact H | exact (scrub_map_scopes report_two_pools H)].
Defined.

(** ** Rows of a command's output *)

Lemma split_ws_cons (s cur : string) (ws : bool) :
  ∃ f fs, split_ws s cur ws = f :: fs.
Proof.
  revert cur ws. induction s as [|c s IH]; intros cur ws; simpl; [eauto|].
  destruct (is_space c); [destruct ws|]; eauto.
Qed.

Lemma split_char_cons (d : ascii) (s cur : string) :
  ∃ f fs, split_char d s cur = f :: fs.
Proof.
  revert cur. induction s as [|c s IH]; intros cur; simpl; [eauto|].
  destruct (Ascii.eqb c d); eauto.
Qed.

(** [re.split] never returns an empty list: no row is empty. *)
Lemma re_split_nonempty (p : pattern) (s : string) : re_split p s ≠ [].
Proof.
  destruct p; simpl.
  - by destruct (split_char_cons tab s "") as (f & fs & ->).
  - by destruct (split_ws_cons s "" false) as (f & fs & ->).
Qed.

Lemma rows_of_output_nonempty (p : pattern) (out : string) :
  Forall (λ x, x ≠ []) (rows_of_output p out).
Proof.
  unfold rows_of_output. apply Forall_fmap, Forall_forall.
  intros x _. apply re_split_nonempty.
Qed.

Lemma append_nonempty (s : string) (c : ascii) : s +:+ String c "" ≠ "".
Proof. by destruct s. Qed.

Lemma split_ws_fields (s cur : string) (ws : bool) :
  last_nonspace s = true ∨ (s = "" ∧ cur ≠ "") →
  cur ≠ "" ∨ ws = true ∨ first_nonspace s = true →
  Forall (λ f, f ≠ "") (split_ws s cur ws).
Proof.
  revert cur ws. induction s as [|c s IH]; intros cur ws H1 H2; simpl.
  - destruct H1 as [?|[_ ?]]; [done|]. by constructor.
  - destruct H1 as [H1|[? _]]; [|done].
    destruct (is_space c) eqn:Hc.
    + assert (last_nonspace s = true) as Hs.
      { simpl in H1. rewrite Hc in H1. by destruct s. }
      destruct ws.
      * apply IH; [by left | right; by left].
      * constructor.
        -- destruct H2 as [?|[?|H2]]; [done | done |].
           simpl in H2. by rewrite Hc in H2.
        -- apply IH; [by left | right; by left].
    + apply IH.
      * destruct s; [right; split; [done | apply append_nonempty] | by left].
      * left. apply append_nonempty.
Qed.

Lemma lstrip_first (s : string) : lstrip s ≠ "" → first_nonspace (lstrip s) = true.
Proof.
  induction s as [|c s IH]; simpl; [done|].
  destruct (is_space c) eqn:Hc; [done|]. intros _. simpl. by rewrite Hc.
Qed.

Lemma rstrip_last (s : string) : rstrip s ≠ "" → last_nonspace (rstrip s) = true.
Proof.
  induction s as [|c s IH]; simpl; [done|].
  destruct (rstrip s) as [|c' r] eqn:Hr.
  - destruct (is_space c) eqn:Hc; [done|]. intros _. simpl. by rewrite Hc.
  - intros _. by apply IH.
Qed.

Lemma rstrip_first (s : string) :
  first_nonspace s = true → first_nonspace (rstrip s) = true ∧ rstrip s ≠ "".
Proof.
  destruct s as [|c s]; simpl; [done|]. intros Hc.
  destruct (rstrip s); [|done].
  apply negb_true_iff in Hc. rewrite Hc. simpl. by rewrite Hc.
Qed.

(** A stripped, non-blank line splits on white space into non-empty
    fields. *)
Lemma strip_fields (s : string) :
  strip s ≠ "" → Forall (λ f, f ≠ "") (re_split Spaces (strip s)).
Proof.
  intros Hne. unfold strip in *. simpl.
  assert (lstrip s ≠ "") as Hl by (intros H; by rewrite H in Hne).
  apply lstrip_first, rstrip_first in Hl as [Hf _].
  apply split_ws_fields; [left; by apply rstrip_last | by do 2 right].
Qed.

Lemma status_rows_fields (out : string) :
  Forall (Forall (λ f, f ≠ "")) (rows_of_output Spaces out).
Proof.
  unfold rows_of_output. apply Forall_fmap, Forall_forall.
  intros x [Hx _]%list_elem_of_filter. by apply strip_fields.
Qed.

(** No "pool:" row of the status report introduces the empty name. *)
Lemma status_rows_named (out : string) :
  Forall (λ l, ¬ names "" l) (rows_of_output Spaces out).
Proof.
  eapply Forall_impl; [apply status_rows_fields|].
  intros l Hl [_ H1]. rewrite Forall_forall in Hl.
  apply (Hl ""); [|done]. by apply list_elem_of_lookup_2 with 1%nat.
Qed.

(** ** The status parser *)

Lemma pool_status_ok (e : env) (scrub : gmap string bool)
    (ve : gmap string errors) :
  pool_status e = Ok (scrub, ve) →
  ∃ out, check_output e status_cmd = Ok out
    ∧ scrub_loop (rows_of_output Spaces out) = Ok scrub
    ∧ vdev_errors_loop (rows_of_output Spaces out) = Ok ve.
Proof.
  unfold pool_status, run. intros H.
  destruct (check_output e status_cmd) as [out|]; [|done]. simpl in H.
  exists out. split; [done|].
  destruct (scrub_loop _) as [s|]; [|done]. simpl in H.
  destruct (vdev_errors_loop _) as [v|]; [|done]. simpl in H.
  by injection H as -> ->.
Qed.

Lemma scrub_loop_early_scan (rs : list row) (m : gmap string bool) :
  scrub_loop rs = Ok m → early_scan rs → Forall (λ l, ¬ names "" l) rs →
  m !! "" = Some true.
Proof.
  unfold scrub_loop. intros H (pre & l & post & -> & Hpre & Hs) Hn.
  destruct (for_loop scrub_step _ _) as [[cur m']|] eqn:Hl; [|done].
  injection H as ->. apply (scrub_flag_inv _ _ _ _ _ Hl). left.
  exists pre, l, post. split; [done|]. split; [left; by split|].
  split; [done|]. apply Forall_app in Hn as [_ Hn].
  by apply Forall_cons in Hn as [_ ?].
Qed.

(** C10: when the status report has a scan row reading "scrub in progress"
    before any "pool:" marker, the scrub map [pool_status] returns maps the
    empty string to true. *)
Theorem early_scan_marks_empty_name (e : env) (out : string)
    (scrub : gmap string bool) (ve : gmap string errors) :
  check_output e status_cmd = Ok out →
  pool_status e = Ok (scrub, ve) →
  early_scan (rows_of_output Spaces out) →
  scrub !! "" = Some true.
Proof.
  intros Hout (out' & Hout' & Hs & _)%pool_status_ok He.
  rewrite Hout in Hout'. injection Hout' as <-.
  apply (scrub_loop_early_scan _ _ Hs He), status_rows_named.
Qed.

Lemma early_scan_marks_empty_name_witness :
  check_output env_scan_first status_cmd = Ok status_scan_first
  ∧ pool_status env_scan_first = Ok ({[ "" := true; "tank" := false ]}, ∅)
  ∧ early_scan (rows_of_output Spaces status_scan_first)
  ∧ ({[ "" := true; "tank" := false ]} : gmap string bool) !! "" = Some true.
Proof.
  assert (check_output env_scan_first status_cmd = Ok status_scan_first) as H1
    by (vm_compute; reflexivity).
  assert (pool_status env_scan_first
          = Ok ({[ "" := true; "tank" := false ]}, ∅)) as H2
    by (vm_compute; reflexivity).
  assert (early_scan (rows_of_output Spaces status_scan_first)) as H3.
  { exists [], ["scan:"; "scrub"; "in"; "progress"; "since"; "Mon"],
      [["pool:"; "tank"]; ["state:"; "ONLINE"]].
    split; [vm_compute; reflexivity|]. split; [constructor|].
    split; reflexivity. }
  split; [exact H1|]. split; [exact H2|]. split; [exact H3|].
  exact (early_scan_marks_empty_name env_scan_first _ _ _ H1 H2 H3).
Defined.

(** ** Device-error rows *)

Lemma vdev_errors_step_entry (acc : gmap string errors) (x : row) :
  vdev_errors_step acc x
  = Ok (match dev_entry x with Some (k, v) => <[k:=v]> acc | None => acc end).
Proof.
  unfold vdev_errors_step, dev_entry.
  destruct (Nat.ltb_spec (length x) 5) as [Hlen|Hlen].
  - destruct (x !! 0%nat); [|done].
    destruct (decide (dev_row x)) as [[? _]|]; [lia | done].
  - destruct (index_lt x 0 ltac:(lia)) as (f & -> & H0).
    destruct (index_lt x 2 ltac:(lia)) as (s2 & Hi2 & H2).
    destruct (index_lt x 3 ltac:(lia)) as (s3 & Hi3 & H3).
    destruct (index_lt x 4 ltac:(lia)) as (s4 & Hi4 & H4).
    rewrite H0. simpl.
    destruct (startswith_slash f) eqn:Hf; simpl.
    + destruct (decide (dev_row x)) as [_|Hn];
        [|destruct Hn; split; [lia | eauto]].
      unfold vdev_errors_try, vdev_errors_except, error_record, int.
      rewrite Hi2, Hi3, Hi4, H2, H3, H4. simpl.
      assert (index x 0 = Ok f) as -> by (by apply index_ok).
      destruct (py_int s2); [|done]. simpl.
      destruct (py_int s3); [|done]. simpl.
      by destruct (py_int s4).
    + destruct (decide (dev_row x)) as [(_ & f' & Hf' & Hs)|]; [|done].
      congruence.
Qed.

Lemma vdev_errors_loop_comp (rs : list row) :
  vdev_errors_loop rs = dict_comp (λ x, Ok (dev_entry x)) rs ∅.
Proof. apply for_loop_dict_comp, vdev_errors_step_entry. Qed.

Lemma dev_entry_some (x : row) (k : string) (v : errors) :
  dev_entry x = Some (k, v) ↔
  dev_row x ∧ x !! 0%nat = Some k ∧ v = error_record x.
Proof.
  unfold dev_entry. destruct (x !! 0%nat) as [f|] eqn:H0.
  - destruct (decide (dev_row x)) as [Hd|Hd].
    + split; [by intros [= -> ->] | by intros (_ & [= ->] & ->)].
    + split; [done | by intros [? _]].
  - split; [done | by intros (_ & ? & _)].
Qed.

(** C2 (amended): the second loop of [pool_status] never raises; the
    device-error map has an entry for the first field of every row that has
    at least five fields and whose first field begins with "/"; the entry
    holds the counts read from fields 2 to 4 of the last such row with that
    first field, or zeros when one of them is not an integer; and the first
    loop leaves such a row alone. *)
Theorem device_error_rows (rs : list row) :
  ∃ m, vdev_errors_loop rs = Ok m
    ∧ (∀ k, k ∈ dom m ↔ ∃ x, x ∈ rs ∧ dev_row x ∧ x !! 0%nat = Some k)
    ∧ (∀ pre x post k,
         rs = pre ++ x :: post → dev_row x → x !! 0%nat = Some k →
         Forall (λ y, ¬ (dev_row y ∧ y !! 0%nat = Some k)) post →
         m !! k = Some (error_record x))
    ∧ (∀ x st, dev_row x → scrub_step st x = Ok st).
Proof.
  rewrite vdev_errors_loop_comp.
  destruct (dict_comp (λ x, Ok (dev_entry x)) rs ∅) as [m|err] eqn:H.
  - exists m. split; [done|]. split; [|split].
    + intros k. rewrite elem_of_dom, (dict_comp_dom _ _ _ _ k H), lookup_empty.
      split.
      * intros [[? ?]|(x & v & Hin & [= Hx])]; [done|].
        apply dev_entry_some in Hx as (? & ? & _). eauto.
      * intros (x & Hin & Hd & H0). right. exists x, (error_record x).
        split; [done|]. f_equal. by apply dev_entry_some.
    + intros pre x post k -> Hd H0 Hpost.
      apply (dict_comp_last _ _ _ _ _ _ _ _ H).
      * f_equal. by apply dev_entry_some.
      * eapply Forall_impl; [exact Hpost|]. intros y Hy v' [= Hv].
        apply dev_entry_some in Hv as (? & ? & _). by apply Hy.
    + intros x st (Hlen & f & H0 & Hf). apply scrub_step_other.
      * intros ->. simpl in Hlen. lia.
      * intros Hm. unfold marker in Hm. rewrite H0 in Hm.
        injection Hm as ->. done.
      * intros [Hs _]. rewrite H0 in Hs. injection Hs as ->. done.
  - assert (is_ok (dict_comp (λ x, Ok (dev_entry x)) rs ∅) = true) as Hok
      by (apply dict_comp_ok_iff, Forall_forall; done).
    by rewrite H in Hok.
Qed.

Example device_errors_scenario :
  vdev_errors_loop report_devices
  = Ok {[ "/dev/sda1" := no_errors; "/dev/sdb1" := no_errors;
          "/dev/sdc1" := {| read := 3; write := 0; cksum := 12 |} ]}.
Proof. vm_compute. reflexivity. Qed.

(** C2, as stated, fails: a device listed twice, the second time as a
    spare in use, loses the counts of its first row: the entry holds the
    zeros of the second row, so not every device row has its counts in the
    map. *)
Lemma device_errors_overwritten :
  (∃ x, x ∈ report_spare ∧ dev_row x ∧ x !! 0%nat = Some "/dev/sdb1"
     ∧ error_record x = {| read := 3; write := 0; cksum := 12 |})
  ∧ vdev_errors_loop report_spare = Ok {[ "/dev/sdb1" := no_errors ]}
  ∧ ¬ (∀ rs m x k,
         vdev_errors_loop rs = Ok m → x ∈ rs → dev_row x →
         x !! 0%nat = Some k → m !! k = Some (error_record x)).
Proof.
  assert (["/dev/sdb1"; "ONLINE"; "3"; "0"; "12"] ∈ report_spare) as Hin
    by (right; left).
  assert (dev_row ["/dev/sdb1"; "ONLINE"; "3"; "0"; "12"]) as Hd
    by (split; [simpl; lia | by exists "/dev/sdb1"]).
  assert (vdev_errors_loop report_spare = Ok {[ "/dev/sdb1" := no_errors ]})
    as Hm by (vm_compute; reflexivity).
  split; [|split; [exact Hm|]].
  - eexists. split; [exact Hin|]. split; [exact Hd|]. by split.
  - intros H. specialize (H _ _ _ "/dev/sdb1" Hm Hin Hd eq_refl).
    rewrite lookup_singleton_eq in H. vm_compute in H. discriminate H.
Qed.

(** ** Pool I/O statistics *)

Lemma io_pair_entry (x : string * string) : io_pair x = Ok (io_entry x).
Proof.
  unfold io_pair, io_entry. destruct (isdigit x.2) eqn:H; [|done].
  by rewrite (int_isdigit _ H).
Qed.

Lemma io_entry_some (x : string * string) (k : string) (z : Z) :
  io_entry x = Some (k, z) ↔
  x.1 = k ∧ isdigit x.2 = true ∧ z = digits_value x.2 0.
Proof.
  unfold io_entry. destruct (isdigit x.2).
  - split; [by intros [= <- <-] | by intros (<- & _ & ->)].
  - split; [done | by intros (_ & ? & _)].
Qed.

Lemma lookup_zip (h v : list string) (i : nat) (k s : string) :
  zip h v !! i = Some (k, s) ↔ h !! i = Some k ∧ v !! i = Some s.
Proof.
  rewrite lookup_zip_with.
  destruct (h !! i) as [k'|], (v !! i) as [s'|]; simpl;
    split; try done; try (by intros [? ?]).
  - by intros [= -> ->].
  - by intros [[= ->] [= ->]].
Qed.

Lemma pool_io_stats_rows (e : env) (pool : string) (h v : row)
    (rest : list row) :
  pool_io_rows e pool = Ok (h :: v :: rest) →
  pool_io_stats e pool = dict_comp (λ x, Ok (io_entry x)) (zip h v) ∅.
Proof.
  intros H. unfold pool_io_stats. rewrite H. simpl.
  generalize (∅ : gmap string Z).
  induction (zip h v) as [|x l IH]; intros acc; simpl; [done|].
  rewrite io_pair_entry. simpl. apply IH.
Qed.

(** C6: [pool_io_stats] reads the "iostats" file, skipping one line, and
    when that read fails reads the "io" file instead, skipping one line;
    from the names [h] and the values [v] it goes on with, the result holds
    the number of every value that is purely numeric under its name (the
    last such pair deciding for a name that occurs twice), and nothing else:
    a name whose value is not purely numeric, or missing, gets no entry. *)
Theorem pool_io_stats_map (e : env) (pool : string) :
  (∀ ls, open_lines e (iostats_path pool) = Ok ls →
     pool_io_rows e pool = Ok (re_split Spaces <$> drop 1 ls))
  ∧ (∀ ex, open_lines e (iostats_path pool) = Err ex →
     pool_io_rows e pool
     = (ls ← open_lines e (io_path pool); Ok (re_split Spaces <$> drop 1 ls)))
  ∧ (∀ h v rest, pool_io_rows e pool = Ok (h :: v :: rest) →
     ∃ m, pool_io_stats e pool = Ok m
       ∧ (∀ k, k ∈ dom m ↔
            ∃ i s, h !! i = Some k ∧ v !! i = Some s ∧ isdigit s = true)
       ∧ (∀ k z, m !! k = Some z →
            ∃ i s, h !! i = Some k ∧ v !! i = Some s ∧ isdigit s = true
                   ∧ z = digits_value s 0)
       ∧ (∀ i k s, h !! i = Some k → v !! i = Some s → isdigit s = true →
            (∀ j s', (i < j)%nat → h !! j = Some k → v !! j = Some s' →
                     isdigit s' = false) →
            m !! k = Some (digits_value s 0))).
Proof.
  split; [|split].
  - intros ls H. unfold pool_io_rows, read_file. by rewrite H.
  - intros ex H. unfold pool_io_rows, read_file. by rewrite H.
  - intros h v rest H. rewrite (pool_io_stats_rows _ _ _ _ _ H).
    destruct (dict_comp (λ x, Ok (io_entry x)) (zip h v) ∅) as [m|err] eqn:Hm.
    2:{ assert (is_ok (dict_comp (λ x, Ok (io_entry x)) (zip h v) ∅) = true)
          as Hok by (apply dict_comp_ok_iff, Forall_forall; done).
        by rewrite Hm in Hok. }
    exists m. split; [done|]. split; [|split].
    + intros k. rewrite elem_of_dom, (dict_comp_dom _ _ _ _ k Hm), lookup_empty.
      split.
      * intros [[? ?]|([k' s] & z & Hin & [= Hx])]; [done|].
        apply io_entry_some in Hx as (Hk & Hd & _). simpl in *. subst k'.
        apply list_elem_of_lookup in Hin as [i Hi].
        apply lookup_zip in Hi as [? ?]. eauto.
      * intros (i & s & Hh & Hv & Hd). right.
        exists (k, s), (digits_value s 0). split.
        -- apply list_elem_of_lookup. exists i. by apply lookup_zip.
        -- f_equal. by apply io_entry_some.
    + intros k z Hz.
      destruct (dict_comp_origin _ _ _ _ _ _ Hm Hz) as [?|([k' s] & Hin & [= Hx])];
        [done|].
      apply io_entry_some in Hx as (Hk & Hd & ->). simpl in *. subst k'.
      apply list_elem_of_lookup in Hin as [i Hi].
      apply lookup_zip in Hi as [? ?]. eauto 10.
    + intros i k s Hh Hv Hd Hlast.
      assert (zip h v !! i = Some (k, s)) as Hi by (by apply lookup_zip).
      rewrite <-(take_drop_middle _ _ _ Hi) in Hm.
      apply (dict_comp_last _ _ _ _ _ _ _ _ Hm).
      * f_equal. by apply io_entry_some.
      * apply Forall_lookup. intros j [k' s'] Hj z [= Hx].
        apply io_entry_some in Hx as (Hk & Hd' & _). simpl in *. subst k'.
        rewrite lookup_drop in Hj. apply lookup_zip in Hj as [Hh' Hv'].
        rewrite (Hlast (S i + j)%nat s') in Hd'; [done | lia | done | done].
Qed.

Example pool_io_stats_example :
  pool_io_stats (env_of [] [(iostats_path "tank", iostats_lines)]) "tank"
  = Ok {[ "nread" := 4096; "nwritten" := 8192; "writes" := 7 ]}
  ∧ pool_io_stats (env_of [] [(io_path "tank", iostats_lines)]) "tank"
  = Ok {[ "nread" := 4096; "nwritten" := 8192; "writes" := 7 ]}.
Proof. split; vm_compute; reflexivity. Qed.

(** ** Failures that abort the snapshot *)

(** A failing step makes the whole sequence fail, with some exception. *)
Ltac fails_through :=
  repeat match goal with
    | |- ∃ ex, Err _ = Err ex => eexists; reflexivity
    | |- ∃ ex, (Err _ ≫= _) = Err ex => eexists; reflexivity
    | |- ∃ ex, (?m ≫= _) = Err ex =>
        let E := fresh "E" in destruct m eqn:E; simpl
    | H : ?m = Err _ |- context [?m] => rewrite H; simpl
    end.

Section Aborts.
Context {F : Type} (py_float : string → option F).

Lemma pool_entry_io_err (e : env) (scrub : gmap string bool) (x : row)
    (p : string) (ex : exn) :
  x !! 0%nat = Some p → pool_io_stats e p = Err ex →
  ∃ ex', pool_entry py_float e scrub x = Err ex'.
Proof.
  intros H0%index_ok Hio. unfold pool_entry. rewrite H0. simpl.
  rewrite Hio. fails_through.
Qed.

Lemma pool_list_row_err (e : env) (scrub : gmap string bool) (rs : list row)
    (x : row) (ex : exn) :
  run e pool_list_cmd Tab = Ok rs → x ∈ rs →
  pool_entry py_float e scrub x = Err ex →
  ∃ ex', pool_list py_float e scrub = Err ex'.
Proof.
  intros Hrun Hin Hx. unfold pool_list. rewrite Hrun. simpl.
  by apply dict_comp_err with x ex.
Qed.

Lemma collect_pool_list_err (e : env) :
  (∀ scrub, ∃ ex, pool_list py_float e scrub = Err ex) →
  ∃ ex, collect py_float e = Err ex.
Proof.
  intros H. unfold collect.
  destruct (pool_status e) as [[scrub ve]|]; simpl; [|eauto].
  destruct (vdev_list e ve); simpl; [|eauto].
  destruct (H scrub) as [ex ->]. eauto.
Qed.
End Aborts.

Lemma pool_io_stats_ok_iff (e : env) (pool : string) (r : list row) :
  pool_io_rows e pool = Ok r →
  is_ok (pool_io_stats e pool) = true ↔ (2 ≤ length r)%nat.
Proof.
  intros H. destruct r as [|h [|v rest]].
  - unfold pool_io_stats. rewrite H. simpl. split; [done | lia].
  - unfold pool_io_stats. rewrite H. simpl. split; [done | lia].
  - rewrite (pool_io_stats_rows _ _ _ _ _ H). simpl. split; [lia|]. intros _.
    by apply dict_comp_ok_iff, Forall_forall.
Qed.

(** C9: [pool_io_stats] returns only when the file it settled on has at
    least two rows after the skipped line; with fewer, indexing the rows
    raises [IndexError], whatever the other file holds (the fallback covers
    the read of "iostats" alone), and the pool listing and the whole
    collection fail for a listed pool. *)
Theorem pool_io_stats_two_rows {F : Type} (py_float : string → option F)
    (e : env) (pool : string) (r : list row) :
  pool_io_rows e pool = Ok r →
  (is_ok (pool_io_stats e pool) = true ↔ (2 ≤ length r)%nat)
  ∧ (∀ ls, open_lines e (iostats_path pool) = Ok ls →
       r = re_split Spaces <$> drop 1 ls)
  ∧ ((length r < 2)%nat →
       pool_io_stats e pool = Err IndexError
       ∧ ∀ rs x, run e pool_list_cmd Tab = Ok rs → x ∈ rs →
           x !! 0%nat = Some pool →
           (∀ scrub, ∃ ex, pool_list py_float e scrub = Err ex)
           ∧ ∃ ex, collect py_float e = Err ex).
Proof.
  intros H. split; [by apply pool_io_stats_ok_iff|]. split.
  - intros ls Hls. unfold pool_io_rows, read_file in H. rewrite Hls in H.
    simpl in H. by injection H as <-.
  - intros Hlen.
    assert (pool_io_stats e pool = Err IndexError) as Hio.
    { unfold pool_io_stats. rewrite H. simpl.
      destruct r as [|h [|v rest]]; [done | done | simpl in Hlen; lia]. }
    split; [done|]. intros rs x Hrun Hin H0.
    assert (∀ scrub, ∃ ex, pool_list py_float e scrub = Err ex) as Hpl.
    { intros scrub.
      destruct (pool_entry_io_err py_float e scrub x pool _ H0 Hio) as [ex Hx].
      by apply pool_list_row_err with rs x ex. }
    split; [done | by apply collect_pool_list_err].
Qed.

Lemma pool_io_stats_two_rows_witness :
  pool_io_rows env_short_iostats "tank" = Ok short_rows
  ∧ (is_ok (pool_io_stats env_short_iostats "tank") = true
     ↔ (2 ≤ length short_rows)%nat)
  ∧ (∀ ls, open_lines env_short_iostats (iostats_path "tank") = Ok ls →
       short_rows = re_split Spaces <$> drop 1 ls)
  ∧ ((length short_rows < 2)%nat →
       pool_io_stats env_short_iostats "tank" = Err IndexError
       ∧ ∀ rs x, run env_short_iostats pool_list_cmd Tab = Ok rs → x ∈ rs →
           x !! 0%nat = Some "tank" →
           (∀ scrub, ∃ ex, pool_list float_dec env_short_iostats scrub = Err ex)
           ∧ ∃ ex, collect float_dec env_short_iostats = Err ex).
Proof.
  assert (pool_io_rows env_short_iostats "tank" = Ok short_rows) as H
    by (vm_compute; reflexivity).
  split; [exact H|].
  exact (pool_io_stats_two_rows float_dec env_short_iostats "tank" short_rows H).
Defined.

Example collect_short_iostats :
  pool_io_stats env_short_iostats "tank" = Err IndexError
  ∧ pool_list float_dec env_short_iostats {[ "tank" := false ]} = Err IndexError
  ∧ collect float_dec env_short_iostats = Err IndexError.
Proof. repeat split; vm_compute; reflexivity. Qed.

(** ** The device listing *)

Lemma int_or_zero_numeric (x : row) (i : nat) :
  (i < length x)%nat → int_or_zero x i = Ok (numeric (x !! i)).
Proof.
  intros (s & Hi & Hs)%index_lt. unfold int_or_zero, numeric.
  rewrite Hi, Hs. simpl. destruct (isdigit s) eqn:Hd; [|done].
  by apply int_isdigit.
Qed.

Lemma int_or_zero_short (x : row) (i : nat) :
  (length x ≤ i)%nat → int_or_zero x i = Err IndexError.
Proof.
  intros H. assert (index x i = Err IndexError) as Hi by (by apply index_err).
  unfold int_or_zero. by rewrite Hi.
Qed.

Lemma vdev_entry_skipped (errs : gmap string errors) (x : row) (k : string) :
  x !! 0%nat = Some k → startswith_slash k = false →
  vdev_entry errs x = Ok None.
Proof.
  intros H0%index_ok Hk. unfold vdev_entry. rewrite H0. simpl. by rewrite Hk.
Qed.

Lemma vdev_entry_kept (errs : gmap string errors) (x : row) (k : string)
    (es : errors) :
  x !! 0%nat = Some k → startswith_slash k = true → (10 ≤ length x)%nat →
  errs !! k = Some es →
  ∃ h, x !! 9%nat = Some h ∧ vdev_entry errs x = Ok (Some (k, vdev_of x k h es)).
Proof.
  intros H0%index_ok Hk Hlen He.
  destruct (index_lt x 9 ltac:(lia)) as (h & Hi9 & H9).
  exists h. split; [done|]. unfold vdev_entry, online_at, getitem.
  rewrite H0. simpl. rewrite Hk, Hi9, He.
  rewrite !int_or_zero_numeric by lia. done.
Qed.

Lemma vdev_entry_missing (errs : gmap string errors) (x : row) (k : string) :
  x !! 0%nat = Some k → startswith_slash k = true → (10 ≤ length x)%nat →
  errs !! k = None →
  vdev_entry errs x = Err (KeyError k).
Proof.
  intros H0%index_ok Hk Hlen He.
  destruct (index_lt x 9 ltac:(lia)) as (h & Hi9 & H9).
  unfold vdev_entry, online_at, getitem.
  rewrite H0. simpl. rewrite Hk, Hi9, He.
  rewrite !int_or_zero_numeric by lia. done.
Qed.

Lemma vdev_entry_short (errs : gmap string errors) (x : row) (k : string) :
  x !! 0%nat = Some k → startswith_slash k = true → (length x < 10)%nat →
  vdev_entry errs x = Err IndexError.
Proof.
  intros H0%index_ok Hk Hlen. unfold vdev_entry, online_at.
  rewrite H0. simpl. rewrite Hk.
  assert (index x 9 = Err IndexError) as -> by (apply index_err; split; [lia|done]).
  destruct (le_lt_dec (length x) 1);
    [by rewrite (int_or_zero_short x 1) by lia
    | rewrite (int_or_zero_numeric x 1) by lia; simpl].
  destruct (le_lt_dec (length x) 2);
    [by rewrite (int_or_zero_short x 2) by lia
    | rewrite (int_or_zero_numeric x 2) by lia; simpl].
  destruct (le_lt_dec (length x) 3);
    [by rewrite (int_or_zero_short x 3) by lia
    | rewrite (int_or_zero_numeric x 3) by lia; simpl].
  destruct (le_lt_dec (length x) 6);
    [by rewrite (int_or_zero_short x 6) by lia
    | rewrite (int_or_zero_numeric x 6) by lia; simpl].
  destruct (le_lt_dec (length x) 7);
    [by rewrite (int_or_zero_short x 7) by lia
    | rewrite (int_or_zero_numeric x 7) by lia; simpl].
  done.
Qed.

Lemma vdev_entry_inv (errs : gmap string errors) (x : row) (k : string)
    (d : vdev) :
  vdev_entry errs x = Ok (Some (k, d)) →
  ∃ h es, x !! 0%nat = Some k ∧ startswith_slash k = true
    ∧ x !! 9%nat = Some h ∧ errs !! k = Some es ∧ d = vdev_of x k h es.
Proof.
  intros H. destruct x as [|f x]; [done|].
  destruct (startswith_slash f) eqn:Hf.
  2:{ rewrite (vdev_entry_skipped errs _ f) in H; done. }
  destruct (le_lt_dec 10 (length (f :: x))) as [Hlen|Hlen].
  2:{ rewrite (vdev_entry_short errs _ f) in H; done. }
  destruct (errs !! f) as [es|] eqn:He.
  2:{ rewrite (vdev_entry_missing errs _ f) in H; done. }
  destruct (vdev_entry_kept errs (f :: x) f es) as (h & H9 & Hv); try done.
  rewrite Hv in H. injection H as <- <-. by exists h, es.
Qed.

(** C8: [vdev_list] keeps exactly the rows whose first field begins with
    "/"; as long as every kept row has its ten fields and an error record,
    it returns, whatever the numeric fields hold, and the record of a kept
    row has each of size, allocated, free, fragmentation and usage equal to
    the number in the field when the field is purely numeric and to 0
    otherwise. *)
Theorem vdev_list_kept_rows (e : env) (errs : gmap string errors)
    (out : string) :
  check_output e vdev_list_cmd = Ok out →
  (∀ x k, x ∈ rows_of_output Tab out → x !! 0%nat = Some k →
          startswith_slash k = true →
          (10 ≤ length x)%nat ∧ is_Some (errs !! k)) →
  ∃ m, vdev_list e errs = Ok m
    ∧ (∀ k, k ∈ dom m ↔
         ∃ x, x ∈ rows_of_output Tab out ∧ x !! 0%nat = Some k
              ∧ startswith_slash k = true)
    ∧ (∀ pre x post k,
         rows_of_output Tab out = pre ++ x :: post →
         x !! 0%nat = Some k → startswith_slash k = true →
         Forall (λ y, y !! 0%nat ≠ Some k) post →
         ∃ d, m !! k = Some d
           ∧ v_name d = k
           ∧ v_size d = numeric (x !! 1%nat)
           ∧ v_alloc d = numeric (x !! 2%nat)
           ∧ v_free d = numeric (x !! 3%nat)
           ∧ v_frag d = numeric (x !! 6%nat)
           ∧ v_usage d = numeric (x !! 7%nat)
           ∧ errs !! k = Some (v_errors d))
    ∧ (∀ s, isdigit s = false → numeric (Some s) = 0).
Proof.
  intros Hout Hwf. unfold vdev_list, run. rewrite Hout. simpl.
  set (rs := rows_of_output Tab out) in *.
  assert (Forall (λ x, is_ok (vdev_entry errs x) = true) rs) as Hall.
  { apply Forall_forall. intros x Hin.
    pose proof (rows_of_output_nonempty Tab out) as Hne.
    rewrite Forall_forall in Hne. specialize (Hne x Hin).
    destruct x as [|f x]; [done|].
    destruct (startswith_slash f) eqn:Hf.
    - destruct (Hwf (f :: x) f Hin eq_refl Hf) as [Hlen [es He]].
      destruct (vdev_entry_kept errs (f :: x) f es) as (h & _ & ->); done.
    - by rewrite (vdev_entry_skipped errs _ f). }
  apply dict_comp_ok_iff with (acc := ∅) in Hall.
  destruct (dict_comp (vdev_entry errs) rs ∅) as [m|] eqn:Hm; [|done].
  exists m. split; [done|]. split; [|split].
  - intros k. rewrite elem_of_dom, (dict_comp_dom _ _ _ _ k Hm), lookup_empty.
    split.
    + intros [[? ?]|(x & d & Hin & Hx)]; [done|].
      apply vdev_entry_inv in Hx as (h & es & H0 & Hk & _). eauto.
    + intros (x & Hin & H0 & Hk). right.
      destruct (Hwf x k Hin H0 Hk) as [Hlen [es He]].
      destruct (vdev_entry_kept errs x k es) as (h & _ & Hv); try done.
      eauto.
  - intros pre x post k Heq H0 Hk Hpost.
    assert (x ∈ rs) as Hin by (rewrite Heq; apply elem_of_app; right; left).
    destruct (Hwf x k Hin H0 Hk) as [Hlen [es He]].
    destruct (vdev_entry_kept errs x k es) as (h & _ & Hv); try done.
    exists (vdev_of x k h es). split; [|done].
    rewrite Heq in Hm. apply (dict_comp_last _ _ _ _ _ _ _ _ Hm Hv).
    eapply Forall_impl; [exact Hpost|]. intros y Hy d Hd.
    by apply vdev_entry_inv in Hd as (? & ? & ? & _).
  - intros s Hs. simpl. by rewrite Hs.
Qed.

Lemma vdev_list_kept_rows_witness :
  check_output env_devices vdev_list_cmd = Ok device_listing
  ∧ ∃ m, vdev_list env_devices device_errors = Ok m
    ∧ (∀ k, k ∈ dom m ↔
         ∃ x, x ∈ rows_of_output Tab device_listing ∧ x !! 0%nat = Some k
              ∧ startswith_slash k = true)
    ∧ (∀ pre x post k,
         rows_of_output Tab device_listing = pre ++ x :: post →
         x !! 0%nat = Some k → startswith_slash k = true →
         Forall (λ y, y !! 0%nat ≠ Some k) post →
         ∃ d, m !! k = Some d
           ∧ v_name d = k
           ∧ v_size d = numeric (x !! 1%nat)
           ∧ v_alloc d = numeric (x !! 2%nat)
           ∧ v_free d = numeric (x !! 3%nat)
           ∧ v_frag d = numeric (x !! 6%nat)
           ∧ v_usage d = numeric (x !! 7%nat)
           ∧ device_errors !! k = Some (v_errors d))
    ∧ (∀ s, isdigit s = false → numeric (Some s) = 0).
Proof.
  assert (check_output env_devices vdev_list_cmd = Ok device_listing) as H
    by (vm_compute; reflexivity).
  split; [exact H|].
  apply (vdev_list_kept_rows env_devices device_errors device_listing H).
  intros x k Hin H0 Hk.
  assert (rows_of_output Tab device_listing
          = [ ["tank"; "1000"; "400"; "600"; "-"; "-"; "3"; "40"; "1.00";
               "ONLINE"; "-"];
              ["/dev/sda1"; "1000"; "400"; "600"; "-"; "-"; "3"; "40"; "-";
               "ONLINE"];
              ["/dev/sdb1"; "-"; "-"; "-"; "-"; "-"; "-"; "-"; "-"; "Online"] ])
    as Hrows by (vm_compute; reflexivity).
  rewrite Hrows in Hin.
  repeat (apply elem_of_cons in Hin as [->|Hin]);
    [| | |by apply elem_of_nil in Hin];
    injection H0 as <-; try discriminate;
    (split; [simpl; lia | vm_compute; eauto]).
Defined.

Example vdev_list_example :
  vdev_list env_devices device_errors
  = Ok {[ "/dev/sda1" :=
            {| v_name := "/dev/sda1"; v_size := 1000; v_alloc := 400;
               v_free := 600; v_frag := 3; v_usage := 40; v_online := 1;
               v_errors := {| read := 1; write := 0; cksum := 2 |} |};
          "/dev/sdb1" :=
            {| v_name := "/dev/sdb1"; v_size := 0; v_alloc := 0; v_free := 0;
               v_frag := 0; v_usage := 0; v_online := 0;
               v_errors := no_errors |} ]}.
Proof. vm_compute. reflexivity. Qed.

(** ** The pool listing, and the faults of the two correlations *)

Lemma online_at_inv (x : row) (i : nat) (z : Z) :
  online_at x i = Ok z →
  ∃ h, x !! i = Some h ∧ z = Z.b2z (h =? "ONLINE")
    ∧ (z = 1 ↔ h = "ONLINE") ∧ (h ≠ "ONLINE" → z = 0).
Proof.
  unfold online_at. intros H. step_ok H. injection H as <-.
  match goal with H : index _ _ = Ok ?h |- _ =>
    apply index_ok in H; exists h; split; [done|]; split; [done|];
    destruct (String.eqb_spec h "ONLINE") as [->|Hne] end.
  - split; [done | by intros []].
  - split; [split; [done | by intros ?] | done].
Qed.

Section PoolListing.
Context {F : Type} (py_float : string → option F).

Lemma pool_entry_inv (e : env) (scrub : gmap string bool) (x : row)
    (k : string) (p : pool F) :
  pool_entry py_float e scrub x = Ok (Some (k, p)) →
  x !! 0%nat = Some k
  ∧ (∃ b, scrub !! k = Some b ∧ p_scrub p = Z.b2z b)
  ∧ (∃ h, x !! 7%nat = Some h ∧ p_online p = Z.b2z (h =? "ONLINE")
       ∧ (p_online p = 1 ↔ h = "ONLINE") ∧ (h ≠ "ONLINE" → p_online p = 0)).
Proof.
  unfold pool_entry. intros H. do 11 step_ok H. injection H as <- <-. simpl.
  repeat match goal with H : index x 0 = Ok _ |- _ => apply index_ok in H end.
  repeat match goal with
    | H1 : x !! 0%nat = Some ?a, H2 : x !! 0%nat = Some ?b |- _ =>
        assert (a = b) as -> by congruence; clear H2
    end.
  split; [done|]. split.
  - match goal with H : (_ ≫= _) = Ok ?b |- _ =>
      step_ok H; exists b end.
    split; [|done].
    match goal with H : getitem _ _ = Ok _ |- _ =>
      unfold getitem in H end.
    match goal with H : index x 0 = Ok _ |- _ => apply index_ok in H end.
    match goal with
    | H1 : x !! 0%nat = Some ?a, H2 : x !! 0%nat = Some ?b |- _ =>
        assert (a = b) as -> by congruence
    end.
    by destruct (scrub !! _) eqn:?; simplify_eq.
  - match goal with H : online_at _ _ = Ok _ |- _ =>
      apply online_at_inv in H as (h & ? & ? & ? & ?) end.
    by exists h.
Qed.

Lemma pool_entry_missing (e : env) (scrub : gmap string bool) (x : row)
    (k : string) :
  x !! 0%nat = Some k →
  Forall (λ i, is_ok (int_at x i) = true) [1; 2; 3; 4; 5]%nat →
  is_ok (s ← index x 6; float py_float s) = true →
  scrub !! k = None →
  pool_entry py_float e scrub x = Err (KeyError k).
Proof.
  intros H0%index_ok Hint Hfl Hk. unfold pool_entry. rewrite H0. simpl.
  repeat (apply Forall_cons in Hint as [? Hint]).
  repeat match goal with
    | H : is_ok ?m = true |- context [?m] =>
        let E := fresh in destruct m eqn:E; [clear H; simpl | done]
    end.
  unfold getitem. by rewrite Hk.
Qed.

Lemma pool_entry_unknown (e : env) (scrub : gmap string bool) (x : row)
    (k : string) :
  x !! 0%nat = Some k → scrub !! k = None →
  ∃ ex, pool_entry py_float e scrub x = Err ex.
Proof.
  intros H0%index_ok Hk. unfold pool_entry. rewrite H0. simpl.
  assert (getitem scrub k = Err (KeyError k)) as Hg
    by (unfold getitem; by rewrite Hk).
  rewrite Hg. fails_through.
Qed.

(** C3 (amended): neither builder returns when a listed pool has no
    entry in the scrub map, or a kept device no entry in the error map,
    and no default stands in for the entry; the fault is the [KeyError]
    of the missing name whenever everything the builder evaluates before
    the lookup goes through (the rows before, and in the row itself the
    fields read before it). *)
Theorem missing_entry_faults (e : env) :
  (∀ scrub rs x k,
     run e pool_list_cmd Tab = Ok rs → x ∈ rs → x !! 0%nat = Some k →
     scrub !! k = None →
     ∃ ex, pool_list py_float e scrub = Err ex)
  ∧ (∀ errs rs x k,
     run e vdev_list_cmd Tab = Ok rs → x ∈ rs → x !! 0%nat = Some k →
     startswith_slash k = true → errs !! k = None →
     ∃ ex, vdev_list e errs = Err ex)
  ∧ (∀ scrub pre x post k,
     run e pool_list_cmd Tab = Ok (pre ++ x :: post) →
     Forall (λ y, is_ok (pool_entry py_float e scrub y) = true) pre →
     x !! 0%nat = Some k →
     Forall (λ i, is_ok (int_at x i) = true) [1; 2; 3; 4; 5]%nat →
     is_ok (s ← index x 6; float py_float s) = true →
     scrub !! k = None →
     pool_list py_float e scrub = Err (KeyError k))
  ∧ (∀ errs pre x post k,
     run e vdev_list_cmd Tab = Ok (pre ++ x :: post) →
     Forall (λ y, is_ok (vdev_entry errs y) = true) pre →
     x !! 0%nat = Some k → startswith_slash k = true →
     (10 ≤ length x)%nat → errs !! k = None →
     vdev_list e errs = Err (KeyError k)).
Proof.
  split; [|split; [|split]].
  - intros scrub rs x k Hrun Hin H0 Hk.
    destruct (pool_entry_unknown e scrub x k H0 Hk) as [ex Hx].
    by apply pool_list_row_err with rs x ex.
  - intros errs rs x k Hrun Hin H0 Hs Hk. unfold vdev_list. rewrite Hrun.
    simpl. destruct (le_lt_dec 10 (length x)).
    + apply dict_comp_err with x (KeyError k); [done|].
      by apply vdev_entry_missing.
    + apply dict_comp_err with x IndexError; [done|].
      by apply vdev_entry_short with k.
  - intros scrub pre x post k Hrun Hpre H0 Hint Hfl Hk.
    unfold pool_list. rewrite Hrun. simpl.
    apply dict_comp_first_err; [done|]. by apply pool_entry_missing.
  - intros errs pre x post k Hrun Hpre H0 Hs Hlen Hk.
    unfold vdev_list. rewrite Hrun. simpl.
    apply dict_comp_first_err; [done|]. by apply vdev_entry_missing.
Qed.

Lemma pool_entry_some (e : env) (scrub : gmap string bool) (x : row)
    (o : option (string * pool F)) :
  pool_entry py_float e scrub x = Ok o → ∃ k p, o = Some (k, p).
Proof.
  unfold pool_entry. intros H. do 11 step_ok H. injection H as <-. eauto.
Qed.

Lemma pool_entry_built (e : env) (scrub : gmap string bool) (x : row)
    (k h : string) (b : bool) :
  x !! 0%nat = Some k →
  Forall (λ i, is_ok (int_at x i) = true) [1; 2; 3; 4; 5]%nat →
  is_ok (s ← index x 6; float py_float s) = true →
  scrub !! k = Some b → x !! 7%nat = Some h →
  is_ok (pool_io_stats e k) = true →
  ∃ p, pool_entry py_float e scrub x = Ok (Some (k, p))
    ∧ p_online p = Z.b2z (h =? "ONLINE").
Proof.
  intros H0%index_ok Hint Hfl Hk H7%index_ok Hio.
  unfold pool_entry, online_at. rewrite H0. simpl.
  repeat (apply Forall_cons in Hint as [? Hint]).
  repeat match goal with
    | H : is_ok ?m = true |- context [?m] =>
        let E := fresh in destruct m eqn:E; [clear H; simpl | done]
    end.
  unfold getitem. rewrite Hk. simpl. rewrite H7. simpl.
  eexists. split; [reflexivity | done].
Qed.

Lemma pool_list_online_last (e : env) (scrub : gmap string bool)
    (pre post : list row) (x : row) (k h : string) :
  run e pool_list_cmd Tab = Ok (pre ++ x :: post) →
  is_ok (pool_list py_float e scrub) = true →
  x !! 0%nat = Some k → x !! 7%nat = Some h →
  Forall (λ y, y !! 0%nat ≠ Some k) post →
  ∃ m p, pool_list py_float e scrub = Ok m ∧ m !! k = Some p
    ∧ p_online p = Z.b2z (h =? "ONLINE").
Proof.
  intros Hrun Hok H0 H7 Hpost. unfold pool_list in *. rewrite Hrun in *.
  simpl in *.
  pose proof Hok as Hall. apply dict_comp_ok_iff in Hall.
  apply Forall_app in Hall as [_ [Hx _]%Forall_cons].
  destruct (dict_comp (pool_entry py_float e scrub) (pre ++ x :: post) ∅)
    as [m|] eqn:Hm; [|done].
  destruct (pool_entry py_float e scrub x) as [o|] eqn:Ex; [|done].
  destruct (pool_entry_some _ _ _ _ Ex) as (k' & p & ->).
  pose proof (pool_entry_inv _ _ _ _ _ Ex) as (H0' & _ & h' & H7' & Hp & _).
  assert (k' = k) as -> by congruence.
  assert (h' = h) as -> by congruence.
  exists m, p. split; [done|]. split; [|done].
  apply (dict_comp_last _ _ _ _ _ _ _ _ Hm Ex).
  eapply Forall_impl; [exact Hpost|]. intros y Hy p' Hp'.
  by apply pool_entry_inv in Hp' as [? _].
Qed.

Lemma vdev_list_online_last (e : env) (errs : gmap string errors)
    (pre post : list row) (x : row) (k h : string) :
  run e vdev_list_cmd Tab = Ok (pre ++ x :: post) →
  is_ok (vdev_list e errs) = true →
  x !! 0%nat = Some k → startswith_slash k = true → x !! 9%nat = Some h →
  Forall (λ y, y !! 0%nat ≠ Some k) post →
  ∃ m d, vdev_list e errs = Ok m ∧ m !! k = Some d
    ∧ v_online d = Z.b2z (h =? "ONLINE").
Proof.
  intros Hrun Hok H0 Hk H9 Hpost. unfold vdev_list in *. rewrite Hrun in *.
  simpl in *.
  pose proof Hok as Hall. apply dict_comp_ok_iff in Hall.
  apply Forall_app in Hall as [_ [Hx _]%Forall_cons].
  destruct (dict_comp (vdev_entry errs) (pre ++ x :: post) ∅)
    as [m|] eqn:Hm; [|done].
  assert (10 ≤ length x)%nat as Hlen.
  { destruct (le_lt_dec 10 (length x)) as [|Hlt]; [done|].
    by rewrite (vdev_entry_short errs x k H0 Hk Hlt) in Hx. }
  destruct (errs !! k) as [es|] eqn:He.
  2:{ by rewrite (vdev_entry_missing errs x k H0 Hk Hlen He) in Hx. }
  destruct (vdev_entry_kept errs x k es H0 Hk Hlen He) as (h' & H9' & Ex).
  assert (h' = h) as -> by congruence.
  exists m, (vdev_of x k h es). split; [done|]. split; [|done].
  apply (dict_comp_last _ _ _ _ _ _ _ _ Hm Ex).
  eapply Forall_impl; [exact Hpost|]. intros y Hy d' Hd'.
  by apply vdev_entry_inv in Hd' as (? & ? & ? & _).
Qed.

(** C5: the online flag of a pool record is 1 iff field 7 of its row is
    exactly "ONLINE", and that of a device record is 1 iff field 9 of its
    row is; for any other string the flag is 0.  Every record of the two
    listings is built from such a row.  A record is built: a pool row
    whose fields are read without a fault, and a kept device row with its
    ten fields and an error record, give a record whose flag is 1 when the
    health field is "ONLINE" and 0 otherwise; and when a listing returns,
    the record it holds under a name has the flag of the last row of that
    name. *)
Theorem online_flag_exact (e : env) (scrub : gmap string bool)
    (errs : gmap string errors) :
  (∀ x k p, pool_entry py_float e scrub x = Ok (Some (k, p)) →
     ∃ h, x !! 7%nat = Some h
       ∧ (p_online p = 1 ↔ h = "ONLINE") ∧ (h ≠ "ONLINE" → p_online p = 0))
  ∧ (∀ x k d, vdev_entry errs x = Ok (Some (k, d)) →
     ∃ h, x !! 9%nat = Some h
       ∧ (v_online d = 1 ↔ h = "ONLINE") ∧ (h ≠ "ONLINE" → v_online d = 0))
  ∧ (∀ m k p, pool_list py_float e scrub = Ok m → m !! k = Some p →
     ∃ rs x, run e pool_list_cmd Tab = Ok rs ∧ x ∈ rs
       ∧ pool_entry py_float e scrub x = Ok (Some (k, p)))
  ∧ (∀ m k d, vdev_list e errs = Ok m → m !! k = Some d →
     ∃ rs x, run e vdev_list_cmd Tab = Ok rs ∧ x ∈ rs
       ∧ vdev_entry errs x = Ok (Some (k, d)))
  ∧ (∀ x, In x ["Online"; "online"; "DEGRADED"; "FAULTED"; "ONLINE "; ""] →
     online_at [x] 0 = Ok 0)
  ∧ (∀ x k h b,
     x !! 0%nat = Some k →
     Forall (λ i, is_ok (int_at x i) = true) [1; 2; 3; 4; 5]%nat →
     is_ok (s ← index x 6; float py_float s) = true →
     scrub !! k = Some b → x !! 7%nat = Some h →
     is_ok (pool_io_stats e k) = true →
     ∃ p, pool_entry py_float e scrub x = Ok (Some (k, p))
       ∧ p_online p = Z.b2z (h =? "ONLINE")
       ∧ (h = "ONLINE" → p_online p = 1) ∧ (h ≠ "ONLINE" → p_online p = 0))
  ∧ (∀ x k h es,
     x !! 0%nat = Some k → startswith_slash k = true →
     (10 ≤ length x)%nat → errs !! k = Some es → x !! 9%nat = Some h →
     ∃ d, vdev_entry errs x = Ok (Some (k, d))
       ∧ v_online d = Z.b2z (h =? "ONLINE")
       ∧ (h = "ONLINE" → v_online d = 1) ∧ (h ≠ "ONLINE" → v_online d = 0))
  ∧ (∀ pre x post k h,
     run e pool_list_cmd Tab = Ok (pre ++ x :: post) →
     is_ok (pool_list py_float e scrub) = true →
     x !! 0%nat = Some k → x !! 7%nat = Some h →
     Forall (λ y, y !! 0%nat ≠ Some k) post →
     ∃ m p, pool_list py_float e scrub = Ok m ∧ m !! k = Some p
       ∧ p_online p = Z.b2z (h =? "ONLINE"))
  ∧ (∀ pre x post k h,
     run e vdev_list_cmd Tab = Ok (pre ++ x :: post) →
     is_ok (vdev_list e errs) = true →
     x !! 0%nat = Some k → startswith_slash k = true → x !! 9%nat = Some h →
     Forall (λ y, y !! 0%nat ≠ Some k) post →
     ∃ m d, vdev_list e errs = Ok m ∧ m !! k = Some d
       ∧ v_online d = Z.b2z (h =? "ONLINE")).
Proof.
  assert (∀ (h : string) z, z = Z.b2z (h =? "ONLINE") →
            (h = "ONLINE" → z = 1) ∧ (h ≠ "ONLINE" → z = 0)) as Hflag.
  { intros h z ->. destruct (String.eqb_spec h "ONLINE"); by split. }
  split; [|split; [|split; [|split; [|split; [|split; [|split; [|split]]]]]]].
  - intros x k p (_ & _ & h & ? & _ & ? & ?)%pool_entry_inv. by exists h.
  - intros x k d (h & es & _ & _ & H9 & _ & ->)%vdev_entry_inv.
    exists h. split; [done|]. simpl.
    destruct (String.eqb_spec h "ONLINE") as [->|Hne]; simpl.
    + split; [done | by intros []].
    + split; [split; [done | by intros ?] | done].
  - intros m k p H Hm. unfold pool_list in H.
    destruct (run e pool_list_cmd Tab) as [rs|]; [|done]. simpl in H.
    destruct (dict_comp_origin _ _ _ _ _ _ H Hm) as [?|(x & Hin & Hx)];
      [done|].
    by exists rs, x.
  - intros m k d H Hm. unfold vdev_list in H.
    destruct (run e vdev_list_cmd Tab) as [rs|]; [|done]. simpl in H.
    destruct (dict_comp_origin _ _ _ _ _ _ H Hm) as [?|(x & Hin & Hx)];
      [done|].
    by exists rs, x.
  - intros x Hx. simpl in Hx.
    repeat destruct Hx as [<-|Hx]; try done.
  - intros x k h b H0 Hint Hfl Hk H7 Hio.
    destruct (pool_entry_built e scrub x k h b) as (p & Hp & Ho); try done.
    exists p. split; [done|]. split; [done|]. by apply Hflag.
  - intros x k h es H0 Hk Hlen He H9.
    destruct (vdev_entry_kept errs x k es H0 Hk Hlen He) as (h' & H9' & Hd).
    assert (h' = h) as -> by congruence.
    exists (vdev_of x k h es). split; [done|]. split; [done|].
    by apply Hflag.
  - intros pre x post k h. apply pool_list_online_last.
  - intros pre x post k h. apply vdev_list_online_last.
Qed.
End PoolListing.

Lemma online_flag_exact_witness :
  (∃ m p, pool_list float_dec env_two_pools
            {[ "tank" := false; "backup" := true ]} = Ok m
     ∧ m !! "tank" = Some p ∧ p_online p = 1)
  ∧ (∃ m p, pool_list float_dec env_two_pools
              {[ "tank" := false; "backup" := true ]} = Ok m
       ∧ m !! "backup" = Some p ∧ p_online p = 0)
  ∧ (∃ m d, vdev_list env_devices device_errors = Ok m
       ∧ m !! "/dev/sda1" = Some d ∧ v_online d = 1)
  ∧ (∃ m d, vdev_list env_devices device_errors = Ok m
       ∧ m !! "/dev/sdb1" = Some d ∧ v_online d = 0)
  ∧ (∃ p, pool_entry float_dec env_two_pools {[ "tank" := false ]} tank_row
          = Ok (Some ("tank", p)) ∧ p_online p = 1).
Proof.
  destruct (online_flag_exact float_dec env_two_pools
              {[ "tank" := false; "backup" := true ]} device_errors)
    as (_ & _ & _ & _ & _ & _ & _ & Hp & _).
  destruct (online_flag_exact float_dec env_devices ∅ device_errors)
    as (_ & _ & _ & _ & _ & _ & _ & _ & Hv).
  destruct (online_flag_exact float_dec env_two_pools
              {[ "tank" := false ]} ∅)
    as (_ & _ & _ & _ & _ & He & _).
  split; [|split; [|split; [|split]]].
  - apply (Hp [] tank_row
             [["backup"; "2000"; "500"; "1500"; "7"; "25"; "1.50";
               "DEGRADED"]] "tank" "ONLINE");
      [vm_compute; reflexivity | vm_compute; reflexivity | reflexivity
      | reflexivity | repeat constructor; discriminate].
  - apply (Hp [tank_row]
             ["backup"; "2000"; "500"; "1500"; "7"; "25"; "1.50"; "DEGRADED"]
             [] "backup" "DEGRADED");
      [vm_compute; reflexivity | vm_compute; reflexivity | reflexivity
      | reflexivity | constructor].
  - apply (Hv [["tank"; "1000"; "400"; "600"; "-"; "-"; "3"; "40"; "1.00";
                "ONLINE"; "-"]]
             ["/dev/sda1"; "1000"; "400"; "600"; "-"; "-"; "3"; "40"; "-";
              "ONLINE"]
             [["/dev/sdb1"; "-"; "-"; "-"; "-"; "-"; "-"; "-"; "-"; "Online"]]
             "/dev/sda1" "ONLINE");
      [vm_compute; reflexivity | vm_compute; reflexivity | reflexivity
      | reflexivity | reflexivity | repeat constructor; discriminate].
  - apply (Hv [["tank"; "1000"; "400"; "600"; "-"; "-"; "3"; "40"; "1.00";
                "ONLINE"; "-"];
               ["/dev/sda1"; "1000"; "400"; "600"; "-"; "-"; "3"; "40"; "-";
                "ONLINE"]]
             ["/dev/sdb1"; "-"; "-"; "-"; "-"; "-"; "-"; "-"; "-"; "Online"]
             [] "/dev/sdb1" "Online");
      [vm_compute; reflexivity | vm_compute; reflexivity | reflexivity
      | reflexivity | reflexivity | constructor].
  - destruct (He tank_row "tank" "ONLINE" false) as (p & Hp1 & Hp2 & _);
      [reflexivity | repeat constructor | vm_compute; reflexivity
      | reflexivity | reflexivity | vm_compute; reflexivity |].
    exists p. split; [exact Hp1 | exact Hp2].
Defined.

Example pool_list_online :
  match pool_list float_dec env_two_pools
          {[ "tank" := false; "backup" := true ]} with
  | Ok m => Some (p_online <$> m !! "tank", p_online <$> m !! "backup",
                  p_scrub <$> m !! "backup", p_io <$> m !! "backup")
  | Err _ => None
  end
  = Some (Some 1, Some 0, Some 1,
          Some {[ "nread" := 4096; "nwritten" := 8192; "writes" := 7 ]})%Z.
Proof. vm_compute. reflexivity. Qed.

(** C3, as stated, fails: with a pool missing from the scrub map, a row
    whose fragmentation is not reported makes [pool_list] fail on the
    integer conversion, before the scrub map is consulted. *)
Lemma pool_list_fault_not_correlation :
  run env_no_frag pool_list_cmd Tab = Ok [pool_row_no_frag]
  ∧ (∅ : gmap string bool) !! "tank" = None
  ∧ pool_list float_dec env_no_frag ∅ = Err ValueError.
Proof. repeat split; vm_compute; reflexivity. Qed.

Example vdev_list_fault_short_row :
  vdev_list (env_of [(vdev_list_cmd, tsv ["/dev/sda1"; "1000"; "400"])] []) ∅
  = Err IndexError.
Proof. vm_compute. reflexivity. Qed.

Example pool_list_missing_scrub :
  pool_list float_dec (env_of [(pool_list_cmd, tsv tank_row)] []) ∅
  = Err (KeyError "tank").
Proof. vm_compute. reflexivity. Qed.

(** ** Binary64 rounding *)

Section Rounding.
Local Open Scope Z_scope.

Lemma rhe_le (N D T : Z) : 0 < D -> N <= T * D -> round_half_even N D <= T.
Proof.
  intros HD H. unfold round_half_even.
  pose proof (Z.div_mod N D ltac:(lia)) as E.
  pose proof (Z.mod_pos_bound N D HD) as B.
  assert (N / D <= T) as Hq by nia.
  destruct (Z.ltb_spec (2 * (N mod D)) D); [done|].
  assert (N / D < T) by nia.
  destruct (Z.ltb_spec D (2 * (N mod D))); [lia|].
  destruct (Z.even (N / D)); lia.
Qed.

Lemma rhe_ge (N D T : Z) : 0 < D -> T * D <= N -> T <= round_half_even N D.
Proof.
  intros HD H. unfold round_half_even.
  pose proof (Z.div_mod N D ltac:(lia)) as E.
  pose proof (Z.mod_pos_bound N D HD) as B.
  assert (T <= N / D) as Hq by nia.
  destruct (Z.ltb_spec (2 * (N mod D)) D); [done|].
  destruct (Z.ltb_spec D (2 * (N mod D))); [lia|].
  destruct (Z.even (N / D)); lia.
Qed.

Lemma ge_pow2_mono (n d k k' : Z) :
  0 < n -> 0 < d -> k' <= k -> ge_pow2 n d k = true -> ge_pow2 n d k' = true.
Proof.
  unfold ge_pow2. intros Hn Hd Hk H. apply Z.leb_le in H. apply Z.leb_le.
  destruct (Z.le_gt_cases 0 k'), (Z.le_gt_cases 0 k).
  - rewrite !Z.max_l, !Z.max_r in * by lia.
    pose proof (Z.pow_le_mono_r 2 k' k ltac:(lia) ltac:(lia)).
    pose proof (Z.pow_pos_nonneg 2 k' ltac:(lia) ltac:(lia)). simpl in *. nia.
  - lia.
  - rewrite (Z.max_l k), (Z.max_r (-k)) in H by lia.
    rewrite (Z.max_r k'), (Z.max_l (-k')) by lia.
    pose proof (Z.pow_pos_nonneg 2 k ltac:(lia) ltac:(lia)).
    pose proof (Z.pow_pos_nonneg 2 (-k') ltac:(lia) ltac:(lia)).
    simpl in *. nia.
  - rewrite (Z.max_r k), (Z.max_l (-k)) in H by lia.
    rewrite (Z.max_r k'), (Z.max_l (-k')) by lia.
    pose proof (Z.pow_le_mono_r 2 (-k) (-k') ltac:(lia) ltac:(lia)).
    simpl in *. nia.
Qed.

Lemma ilog2_lower (n d : Z) :
  0 < n -> 0 < d -> ge_pow2 n d (ilog2 n d) = true.
Proof.
  intros Hn Hd. unfold ilog2.
  destruct (ge_pow2 n d (Z.log2 n - Z.log2 d)) eqn:E; [done|].
  clear E. unfold ge_pow2. apply Z.leb_le.
  pose proof (Z.log2_spec n Hn) as [Ln _].
  pose proof (Z.log2_spec d Hd) as [_ Ld].
  pose proof (Z.log2_nonneg n). pose proof (Z.log2_nonneg d).
  set (a := Z.log2 n) in *. set (b := Z.log2 d) in *.
  destruct (Z.le_gt_cases 0 (a - b - 1)).
  - rewrite Z.max_l, Z.max_r by lia. simpl.
    assert (2 ^ a = 2 ^ (b + 1) * 2 ^ (a - b - 1)) as E
      by (rewrite <-Z.pow_add_r by lia; f_equal; lia).
    pose proof (Z.pow_pos_nonneg 2 (a - b - 1) ltac:(lia) ltac:(lia)). nia.
  - rewrite Z.max_r, Z.max_l by lia. simpl.
    assert (2 ^ (b + 1) = 2 ^ a * 2 ^ (- (a - b - 1))) as E
      by (rewrite <-Z.pow_add_r by lia; f_equal; lia).
    pose proof (Z.pow_pos_nonneg 2 (- (a - b - 1)) ltac:(lia) ltac:(lia)). nia.
Qed.

Lemma pow2_pos (x : Z) : 0 <= x -> 0 < 2 ^ x.
Proof. intros. apply Z.pow_pos_nonneg; lia. Qed.

Lemma rhe_nonneg (N D : Z) : 0 < D -> 0 <= N -> 0 <= round_half_even N D.
Proof. intros HD HN. apply rhe_ge; lia. Qed.

Lemma round_exp_ge (n d : Z) :
  0 < n -> 0 < d -> ge_pow2 n d (-1074) = true ->
  ge_pow2 n d (round_exp n d) = true.
Proof.
  intros Hn Hd H. unfold round_exp.
  destruct (Z.max_spec (ilog2 n d - 52) (-1074)) as [[_ ->]|[_ ->]]; [done|].
  apply ge_pow2_mono with (ilog2 n d); [done | done | lia |].
  by apply ilog2_lower.
Qed.

(** A quotient that is at least [2 ^ -1074] does not round to zero. *)
Lemma round_pos_nonzero (s : bool) (n d : Z) :
  0 < n -> 0 < d -> ge_pow2 n d (-1074) = true ->
  (exists m e, round_pos s n d = S754_finite s m e /\ -1074 <= e)
  \/ round_pos s n d = S754_infinity s.
Proof.
  intros Hn Hd H. unfold round_pos. fold (round_exp n d).
  pose proof (round_exp_ge n d Hn Hd H) as He.
  assert (-1074 <= round_exp n d) as Hlo by (unfold round_exp; lia).
  set (e := round_exp n d) in *. unfold ge_pow2 in He. apply Z.leb_le in He.
  set (N := n * 2 ^ Z.max (- e) 0) in *. set (D := d * 2 ^ Z.max e 0) in *.
  assert (0 < D) as HD.
  { unfold D. pose proof (pow2_pos (Z.max e 0) ltac:(lia)). nia. }
  assert (1 <= round_half_even N D) as Hm by (apply rhe_ge; lia).
  destruct (Z.eqb_spec (round_half_even N D) (2 ^ 53)) as [_|_].
  - destruct (Z.leb_spec (e + 1) 971); [left | by right].
    eexists _, _. split; [reflexivity | lia].
  - destruct (round_half_even N D) as [|p|p] eqn:Ep; [lia| |lia].
    destruct (Z.leb_spec e 971); [left | by right].
    eexists _, _. split; [reflexivity | lia].
Qed.

(** A quotient bounded by a float [nb * 2 ^ j] rounds to zero or to a
    finite float bounded by it. *)
Lemma round_pos_le (s : bool) (n d nb j : Z) :
  0 < n -> 0 < d -> 0 < nb < 2 ^ 53 -> 0 <= j <= 971 ->
  n <= nb * 2 ^ j * d ->
  round_pos s n d = S754_zero s
  \/ exists m e, round_pos s n d = S754_finite s m e
       /\ (-1074) <= e <= j /\ Zpos m <= nb * 2 ^ (j - e).
Proof.
  intros Hn Hd Hnb Hj H. unfold round_pos. fold (round_exp n d).
  assert (round_exp n d <= j) as Hhi.
  { unfold round_exp. apply Z.max_lub; [|lia].
    destruct (Z.le_gt_cases (ilog2 n d) (j + 52)) as [|Hk]; [lia|].
    exfalso. pose proof (ilog2_lower n d Hn Hd) as Hl.
    apply (ge_pow2_mono _ _ _ (j + 53)) in Hl; [|lia|lia|lia].
    unfold ge_pow2 in Hl. apply Z.leb_le in Hl.
    rewrite Z.max_l, Z.max_r in Hl by lia. simpl in Hl.
    rewrite Z.pow_add_r in Hl by lia.
    pose proof (pow2_pos j ltac:(lia)). nia. }
  assert (-1074 <= round_exp n d) as Hlo by (unfold round_exp; lia).
  set (e := round_exp n d) in *.
  set (N := n * 2 ^ Z.max (- e) 0). set (D := d * 2 ^ Z.max e 0).
  assert (0 < D) as HD.
  { unfold D. pose proof (pow2_pos (Z.max e 0) ltac:(lia)). nia. }
  assert (0 <= N) as HN.
  { unfold N. pose proof (pow2_pos (Z.max (- e) 0) ltac:(lia)). nia. }
  assert (N <= nb * 2 ^ (j - e) * D) as HT.
  { unfold N, D.
    assert (2 ^ (j - e) * 2 ^ Z.max e 0 = 2 ^ j * 2 ^ Z.max (- e) 0) as E
      by (rewrite <-!Z.pow_add_r by lia; f_equal; lia).
    pose proof (pow2_pos (Z.max (- e) 0) ltac:(lia)). nia. }
  pose proof (rhe_le N D _ HD HT) as Hm.
  pose proof (rhe_nonneg N D HD HN) as Hm0.
  destruct (Z.eqb_spec (round_half_even N D) (2 ^ 53)) as [E|_].
  - rewrite E in Hm.
    assert (1 <= j - e) as Hje.
    { destruct (Z.le_gt_cases 1 (j - e)) as [|Hlt]; [done|].
      assert (j - e = 0) as E0 by lia. rewrite E0, Z.pow_0_r in Hm. lia. }
    destruct (Z.leb_spec (e + 1) 971); [|lia].
    right. eexists _, _. split; [reflexivity|]. split; [lia|].
    replace (j - e) with (1 + (j - (e + 1))) in Hm by lia.
    rewrite Z.pow_add_r in Hm by lia.
    change (2 ^ 53) with (2 * 2 ^ 52) in Hm. change (2 ^ 1) with 2 in Hm.
    change (Z.pos (2 ^ 52)) with (2 ^ 52). lia.
  - destruct (round_half_even N D) as [|p|p] eqn:Ep; [by left| |lia].
    destruct (Z.leb_spec e 971); [|lia].
    right. eexists _, _. split; [reflexivity|]. split; lia.
Qed.

(** A number divided by itself rounds to 1.0. *)
Lemma round_pos_same (s : bool) (n : Z) :
  0 < n -> round_pos s n n = S754_finite s (2 ^ 52) (-52).
Proof.
  intros Hn. unfold round_pos.
  assert (ilog2 n n = 0) as ->.
  { unfold ilog2. rewrite Z.sub_diag. unfold ge_pow2. simpl.
    by rewrite Z.leb_refl. }
  change (Z.max (0 - 52) (-1074)) with (-52).
  change (Z.max (- -52) 0) with 52. change (Z.max (-52) 0) with 0.
  rewrite Z.pow_0_r, Z.mul_1_r.
  assert (round_half_even (n * 2 ^ 52) n = 2 ^ 52) as ->.
  { unfold round_half_even. rewrite (Z.mul_comm n), Z.div_mul, Z.mod_mul by lia.
    destruct (Z.ltb_spec (2 * 0) n); [done | lia]. }
  reflexivity.
Qed.

Lemma quotient_cases (hit l : Z) :
  0 <= hit <= l -> 0 < l ->
  quotient hit l = S754_zero false
  \/ exists m e, quotient hit l = S754_finite false m e
       /\ (-1074) <= e <= 0 /\ Zpos m <= 2 ^ (- e).
Proof.
  intros Hh Hl. unfold quotient. destruct (Z.eqb_spec hit 0); [by left|].
  destruct (round_pos_le false hit l 1 0) as [?|(m & e & ? & ? & Hm)];
    try lia; [by left|].
  right. exists m, e. split; [done|]. split; [done|].
  by rewrite Z.mul_1_l, Z.sub_0_l in Hm.
Qed.

Lemma truediv_quotient (hit l : Z) :
  0 <= hit <= l -> 0 < l -> truediv hit l = Ok (quotient hit l).
Proof.
  intros Hh Hl. unfold truediv, quotient.
  destruct (Z.eqb_spec l 0); [lia|].
  destruct (Z.eqb_spec hit 0).
  - destruct (Z.ltb_spec l 0); [lia | done].
  - assert ((hit <? 0) = false) as -> by (apply Z.ltb_ge; lia).
    assert ((l <? 0) = false) as -> by (apply Z.ltb_ge; lia).
    rewrite !Z.abs_eq by lia. simpl.
    destruct (round_pos_le false hit l 1 0) as [->|(m & e & -> & _)];
      try lia; done.
Qed.

Lemma times_hundred_cases (m : positive) (e : Z) :
  (-1074) <= e <= 0 -> Zpos m <= 2 ^ (- e) ->
  exists m' e', float_mul (S754_finite false m e) hundred = S754_finite false m' e'
    /\ (-1074) <= e' <= 2 /\ Zpos m' <= 25 * 2 ^ (2 - e').
Proof.
  intros He Hm. unfold float_mul, hundred. simpl xorb.
  rewrite (Z.max_r (e + -46)), (Z.max_l (- (e + -46))) by lia.
  rewrite Z.pow_0_r, Z.mul_1_r.
  set (n := Z.pos m * 7036874417766400). set (d := 2 ^ (- (e + -46))).
  assert (0 < d) as Hd by (apply pow2_pos; lia).
  assert (0 < n) as Hn by (unfold n; lia).
  assert (d = 2 ^ 46 * 2 ^ (- e)) as Ed
    by (unfold d; rewrite <-Z.pow_add_r by lia; f_equal; lia).
  assert (n <= 25 * 2 ^ 2 * d) as Hle.
  { rewrite Ed. unfold n. change (2 ^ 2) with 4.
    change (2 ^ 46) with 70368744177664. nia. }
  destruct (round_pos_nonzero false n d Hn Hd) as [(m1 & e1 & E1 & _)|E1].
  { unfold ge_pow2. apply Z.leb_le.
    change (Z.max (-1074) 0) with 0. change (Z.max (- -1074) 0) with 1074.
    rewrite Z.pow_0_r, Z.mul_1_r, Ed. unfold n.
    pose proof (Z.pow_le_mono_r 2 (- e) 1074 ltac:(lia) ltac:(lia)) as Hp.
    pose proof (pow2_pos (- e) ltac:(lia)) as Hp0.
    set (P := 2 ^ 1074) in *. set (X := 2 ^ (- e)) in *.
    change (2 ^ 46) with 70368744177664.
    assert (X <= Z.pos m * P) by nia. nia. }
  - destruct (round_pos_le false n d 25 2 Hn Hd ltac:(lia) ltac:(lia) Hle)
      as [E2|(m2 & e2 & E2 & ? & ?)]; [congruence|].
    by exists m2, e2.
  - destruct (round_pos_le false n d 25 2 Hn Hd ltac:(lia) ltac:(lia) Hle)
      as [E2|(m2 & e2 & E2 & ? & ?)]; congruence.
Qed.

Lemma float_value_bounds (m : positive) (e nb j : Z) :
  e <= j -> Zpos m <= nb * 2 ^ (j - e) -> 0 <= j ->
  (0 < float_value (S754_finite false m e))%Q
  /\ (float_value (S754_finite false m e) <= inject_Z (nb * 2 ^ j))%Q.
Proof.
  intros He Hm Hj. unfold float_value, Qlt, Qle. simpl.
  assert (0 < 2 ^ Z.max e 0) by (apply pow2_pos; lia).
  assert (0 < 2 ^ Z.max (- e) 0) as Hp by (apply pow2_pos; lia).
  rewrite Z2Pos.id by done. split; [nia|].
  assert (2 ^ (j - e) * 2 ^ Z.max e 0 = 2 ^ j * 2 ^ Z.max (- e) 0) as E
    by (rewrite <-!Z.pow_add_r by lia; f_equal; lia).
  nia.
Qed.

Lemma rate_range (hit miss : Z) :
  0 <= hit -> 0 <= miss ->
  is_finite (rate hit miss) = true
  /\ (0 <= number_value (rate hit miss))%Q /\ (number_value (rate hit miss) <= 100)%Q.
Proof.
  intros Hh Hm. unfold rate. destruct (Z.eqb_spec (hit + miss) 0).
  - by repeat split.
  - destruct (quotient_cases hit (hit + miss)) as [->|(m & e & -> & He & Hme)];
      try lia.
    + by repeat split.
    + destruct (times_hundred_cases m e He Hme) as (m' & e' & -> & He' & Hm').
      destruct (float_value_bounds m' e' 25 2) as [H1 H2]; try lia.
      split; [done|]. split; [by apply Qlt_le_weak | exact H2].
Qed.

Lemma rate_zero_iff (hit miss : Z) :
  0 <= hit -> 0 <= miss -> hit + miss <= 2 ^ 1074 ->
  (number_value (rate hit miss) == 0)%Q <-> hit = 0.
Proof.
  intros Hh Hm Hb. split.
  - intros H. destruct (Z.eq_dec hit 0) as [|Hne]; [done|]. exfalso.
    unfold rate in H. destruct (Z.eqb_spec (hit + miss) 0); [lia|].
    unfold quotient in H. destruct (Z.eqb_spec hit 0); [lia|].
    destruct (round_pos_nonzero false hit (hit + miss))
      as [(m & e & E & He)|E]; try lia.
    { unfold ge_pow2. apply Z.leb_le.
      change (Z.max (-1074) 0) with 0. change (Z.max (- -1074) 0) with 1074.
      rewrite Z.pow_0_r, Z.mul_1_r. set (P := 2 ^ 1074) in *. nia. }
    + destruct (round_pos_le false hit (hit + miss) 1 0)
        as [E'|(m' & e' & E' & He' & Hm')]; try lia; try congruence.
      rewrite E in E'. injection E' as <- <-.
      rewrite Z.mul_1_l, Z.sub_0_l in Hm'. rewrite E in H.
      destruct (times_hundred_cases m e ltac:(lia) Hm')
        as (m2 & e2 & E2 & He2 & Hm2).
      rewrite E2 in H. simpl in H.
      destruct (float_value_bounds m2 e2 25 2) as [H1 _]; try lia.
      rewrite H in H1. by apply Qlt_irrefl in H1.
    + destruct (round_pos_le false hit (hit + miss) 1 0)
        as [E'|(m' & e' & E' & _)]; try lia; congruence.
  - intros ->. unfold rate, quotient. simpl.
    destruct (0 + miss =? 0); reflexivity.
Qed.

Lemma rate_full (hit : Z) : 0 < hit -> rate hit 0 = Float hundred.
Proof.
  intros H. unfold rate, quotient. rewrite Z.add_0_r.
  destruct (Z.eqb_spec hit 0); [lia|]. by rewrite round_pos_same.
Qed.
End Rounding.

(** The model against the Standard Library's specification of IEEE 754
    division and multiplication, on quotients that are exact, inexact,
    ties, subnormal, underflowing and overflowing. *)
Example round_pos_agrees_with_SFdiv :
  Forall (λ nd : positive * positive,
            round_pos false (Zpos nd.1) (Zpos nd.2)
            = SFdiv 53 1024 (S754_finite false nd.1 0) (S754_finite false nd.2 0))
    [ (7, 100); (1, 3); (2, 3); (1, 1); (80, 100); (1, 10 ^ 400);
      (10 ^ 400, 1); (10 ^ 308, 1); (10 ^ 309, 1); (2 ^ 60, 2 ^ 60 + 1);
      (1, 2 ^ 1074); (1, 2 ^ 1075); (3, 2 ^ 1076); (3, 2 ^ 1075);
      (2 ^ 1024 - 2 ^ 970, 1); (2 ^ 1024 - 2 ^ 970 - 1, 1); (2 ^ 53 + 1, 1);
      (2 ^ 53 + 3, 1); (2 ^ 54 + 6, 1); (9007199254740993, 2);
      (1, 7); (22, 7); (355, 113); (4503599627370497, 2 ^ 1075 + 1) ]%positive.
Proof. repeat constructor; vm_compute; reflexivity. Qed.

Example float_mul_agrees_with_SFmul :
  Forall (λ x : spec_float, float_mul x hundred = SFmul 53 1024 x hundred)
    [ round_pos false 7 100; round_pos false 1 3; round_pos false 80 100;
      round_pos false 1 (2 ^ 1074); round_pos true 2 3;
      round_pos false (10 ^ 307) 1; round_pos false (2 ^ 60) (2 ^ 60 + 1);
      S754_zero false; S754_zero true ].
Proof. repeat constructor; vm_compute; reflexivity. Qed.

Example hundred_is_100 :
  round_pos false 100 1 = hundred ∧ (float_value hundred == inject_Z 100)%Q.
Proof. split; reflexivity. Qed.

(** Rounding shows: 7 hits in 100 accesses give 7.000000000000001. *)
Example rate_rounds :
  rate 7 93 = Float (S754_finite false 7881299347898369 (-50))
  ∧ ¬ (number_value (rate 7 93) == inject_Z 7)%Q
  ∧ rate 80 20 = Float (S754_finite false 5629499534213120 (-46))
  ∧ (number_value (rate 80 20) == inject_Z 80)%Q.
Proof.
  split; [vm_compute; reflexivity|]. split; [by vm_compute|].
  split; vm_compute; reflexivity.
Qed.

Example rate_extremes :
  rate (2 ^ 60) 1 = Float hundred
  ∧ rate 1 (10 ^ 400) = Float (S754_zero false)
  ∧ truediv (10 ^ 400) 1 = Err OverflowError
  ∧ truediv 0 (-5) = Ok (S754_zero true).
Proof. repeat split; vm_compute; reflexivity. Qed.

(** ** Hit rates *)

Lemma hitrate_rate (r : gmap string Z) (k : string) (hit miss : Z) :
  r !! k = Some hit → (0 ≤ hit)%Z → (0 ≤ miss)%Z →
  hitrate r k (hit + miss) = Ok (rate hit miss).
Proof.
  intros Hk Hh Hm. unfold hitrate, rate, getitem.
  destruct (Z.eqb_spec (hit + miss) 0) as [|Hne]; simpl; [done|].
  rewrite Hk. simpl. by rewrite truediv_quotient by lia.
Qed.

Lemma truediv_no_zero_division (a b : Z) :
  b ≠ 0%Z → truediv a b ≠ Err ZeroDivisionError.
Proof.
  intros Hb. unfold truediv. destruct (Z.eqb_spec b 0); [done|].
  destruct (a =? 0)%Z; [done|]. by destruct (round_pos _ _ _).
Qed.

Lemma hitrate_no_zero_division (r : gmap string Z) (k : string) (l : Z) :
  hitrate r k l ≠ Err ZeroDivisionError.
Proof.
  unfold hitrate, getitem.
  destruct (Z.eqb_spec l 0) as [|Hne]; simpl; [done|].
  destruct (r !! k) as [h|]; simpl; [|done].
  pose proof (truediv_no_zero_division h l Hne).
  by destruct (truediv h l) as [?|[]].
Qed.

Lemma getitem_not_zero_division {V} (r : gmap string V) (k : string) :
  getitem r k ≠ Err ZeroDivisionError.
Proof. unfold getitem. by destruct (r !! k). Qed.

Lemma arc_of_map_no_zero_division (r : gmap string Z) :
  arc_of_map r ≠ Err ZeroDivisionError.
Proof.
  unfold arc_of_map.
  repeat match goal with
    | |- (getitem ?r ?k ≫= _) ≠ _ =>
        let E := fresh "E" in
        destruct (getitem r k) as [?|[]] eqn:E; simpl; try done;
        try (by destruct (getitem_not_zero_division r k))
    | |- (hitrate ?r ?k ?l ≫= _) ≠ _ =>
        let E := fresh "E" in
        destruct (hitrate r k l) as [?|[]] eqn:E; simpl; try done;
        try (by destruct (hitrate_no_zero_division r k l))
    end.
Qed.

Lemma rate_no_hit (miss : Z) : (number_value (rate 0 miss) == 0)%Q.
Proof. unfold rate, quotient. simpl. destruct (0 + miss =? 0)%Z; reflexivity. Qed.

(** C4 (amended): [arc_stats] never divides by zero; on counters that are
    all present and not negative, the hit rate of each tier is the integer
    0 when hits + misses is zero, and otherwise the binary64 product by
    100.0 of the float nearest to hits / (hits + misses); it is a finite
    number between 0 and 100; it is 0 whenever the tier's hit counter is 0
    (hence also when both of its counters are 0), and, as long as
    hits + misses does not exceed 2 ^ 1074, only then. *)
Theorem hit_rates (r : gmap string Z) :
  arc_of_map r ≠ Err ZeroDivisionError
  ∧ ∀ hits misses l2_hits l2_misses,
      Forall (λ k, is_Some (r !! k)) arc_keys →
      r !! "hits" = Some hits → r !! "misses" = Some misses →
      r !! "l2_hits" = Some l2_hits → r !! "l2_misses" = Some l2_misses →
      (0 ≤ hits)%Z → (0 ≤ misses)%Z → (0 ≤ l2_hits)%Z → (0 ≤ l2_misses)%Z →
      ∃ a, arc_of_map r = Ok a
        ∧ l1_hitrate (l1 a) = rate hits misses
        ∧ l2_hitrate (l2 a) = rate l2_hits l2_misses
        ∧ is_finite (l1_hitrate (l1 a)) = true
        ∧ (inject_Z 0 <= number_value (l1_hitrate (l1 a)))%Q
        ∧ (number_value (l1_hitrate (l1 a)) <= inject_Z 100)%Q
        ∧ is_finite (l2_hitrate (l2 a)) = true
        ∧ (inject_Z 0 <= number_value (l2_hitrate (l2 a)))%Q
        ∧ (number_value (l2_hitrate (l2 a)) <= inject_Z 100)%Q
        ∧ (hits = 0%Z → (number_value (l1_hitrate (l1 a)) == inject_Z 0)%Q)
        ∧ (l2_hits = 0%Z →
           (number_value (l2_hitrate (l2 a)) == inject_Z 0)%Q)
        ∧ ((hits + misses ≤ 2 ^ 1074)%Z →
           (number_value (l1_hitrate (l1 a)) == inject_Z 0)%Q → hits = 0%Z)
        ∧ ((l2_hits + l2_misses ≤ 2 ^ 1074)%Z →
           (number_value (l2_hitrate (l2 a)) == inject_Z 0)%Q →
           l2_hits = 0%Z)
        ∧ (hits = 0%Z ∧ misses = 0%Z → l1_hitrate (l1 a) = Int 0)
        ∧ (l2_hits = 0%Z ∧ l2_misses = 0%Z → l2_hitrate (l2 a) = Int 0).
Proof.
  split; [apply arc_of_map_no_zero_division|].
  intros hits misses l2_hits l2_misses Hkeys H1 H2 H3 H4 P1 P2 P3 P4.
  unfold arc_keys in Hkeys.
  repeat (apply Forall_cons in Hkeys as [[? ?] Hkeys]).
  unfold arc_of_map.
  repeat match goal with
    | H : r !! ?k = Some ?v |- context [getitem r ?k] =>
        replace (getitem r k) with (Ok v) by (unfold getitem; by rewrite H)
    end.
  simpl.
  rewrite (hitrate_rate r "hits" hits misses H1 P1 P2).
  rewrite (hitrate_rate r "l2_hits" l2_hits l2_misses H3 P3 P4). simpl.
  eexists. split; [reflexivity|]. simpl.
  destruct (rate_range hits misses P1 P2) as (? & ? & ?).
  destruct (rate_range l2_hits l2_misses P3 P4) as (? & ? & ?).
  do 8 (split; [done|]).
  split; [intros ->; apply rate_no_hit|].
  split; [intros ->; apply rate_no_hit|].
  split; [intros Hb; by apply rate_zero_iff|].
  split; [intros Hb; by apply rate_zero_iff|].
  split; intros [-> ->]; reflexivity.
Qed.

Lemma hit_rates_witness :
  arc_of_map (arc_counters 80 20 0 0) ≠ Err ZeroDivisionError
  ∧ ∃ a, arc_of_map (arc_counters 80 20 0 0) = Ok a
      ∧ l1_hitrate (l1 a) = rate 80 20
      ∧ l2_hitrate (l2 a) = rate 0 0
      ∧ is_finite (l1_hitrate (l1 a)) = true
      ∧ (inject_Z 0 <= number_value (l1_hitrate (l1 a)))%Q
      ∧ (number_value (l1_hitrate (l1 a)) <= inject_Z 100)%Q
      ∧ is_finite (l2_hitrate (l2 a)) = true
      ∧ (inject_Z 0 <= number_value (l2_hitrate (l2 a)))%Q
      ∧ (number_value (l2_hitrate (l2 a)) <= inject_Z 100)%Q
      ∧ (80%Z = 0%Z → (number_value (l1_hitrate (l1 a)) == inject_Z 0)%Q)
      ∧ (0%Z = 0%Z → (number_value (l2_hitrate (l2 a)) == inject_Z 0)%Q)
      ∧ ((80 + 20 ≤ 2 ^ 1074)%Z →
         (number_value (l1_hitrate (l1 a)) == inject_Z 0)%Q → 80%Z = 0%Z)
      ∧ ((0 + 0 ≤ 2 ^ 1074)%Z →
         (number_value (l2_hitrate (l2 a)) == inject_Z 0)%Q → 0%Z = 0%Z)
      ∧ (80%Z = 0%Z ∧ 20%Z = 0%Z → l1_hitrate (l1 a) = Int 0)
      ∧ (0%Z = 0%Z ∧ 0%Z = 0%Z → l2_hitrate (l2 a) = Int 0).
Proof.
  destruct (hit_rates (arc_counters 80 20 0 0)) as [H0 H].
  split; [exact H0|].
  apply (H 80 20 0 0)%Z; try reflexivity; try lia.
  unfold arc_keys. repeat constructor; vm_compute; eauto.
Defined.

Example hit_rates_scenario :
  ∃ a, arc_of_map (arc_counters 80 20 0 0) = Ok a
    ∧ l1_hitrate (l1 a) = Float (S754_finite false 5629499534213120 (-46))
    ∧ (number_value (l1_hitrate (l1 a)) == inject_Z 80)%Q
    ∧ l2_hitrate (l2 a) = Int 0.
Proof.
  eexists. split; [vm_compute; reflexivity|]. repeat split.
Qed.

(** C4, as stated, fails: with no hit and five misses the tier-1 hit rate
    is 0.0 although the miss counter is not 0. *)
Lemma hit_rate_zero_with_misses :
  ∃ a, arc_of_map (arc_counters 0 5 0 0) = Ok a
    ∧ l1_hitrate (l1 a) = Float (S754_zero false)
    ∧ (number_value (l1_hitrate (l1 a)) == inject_Z 0)%Q
    ∧ arc_counters 0 5 0 0 !! "hits" = Some 0%Z
    ∧ arc_counters 0 5 0 0 !! "misses" = Some 5%Z.
Proof. eexists. split; [vm_compute; reflexivity|]. repeat split. Qed.

(** ** Slab usage *)

Lemma slab_row_entry (x : row) :
  (3 ≤ length x)%nat → slab_row x = Ok (slab_entry x).
Proof.
  intros (s & Hi & Hs)%index_lt. unfold slab_row, slab_entry.
  rewrite Hi, Hs. simpl. destruct (isdigit s) eqn:Hd; [|done].
  by rewrite (int_isdigit _ Hd).
Qed.

Lemma slab_row_short (x : row) :
  (length x < 3)%nat → slab_row x = Err IndexError.
Proof.
  intros H. unfold slab_row.
  assert (index x 2 = Err IndexError) as -> by (apply index_err; split; [lia|done]).
  done.
Qed.

Lemma sum_slab_entries (rows : list row) :
  py_sum (omap slab_entry rows) = py_sum (third <$> rows).
Proof.
  induction rows as [|x rows IH]; [done|]. simpl.
  unfold slab_entry at 1, third at 1, numeric.
  unfold py_sum in *.
  destruct (x !! 2%nat) as [s|]; [destruct (isdigit s)|]; simpl;
    change (list_omap row Z slab_entry rows) with (omap slab_entry rows);
    change (list_fmap row Z third rows) with (third <$> rows); lia.
Qed.

(** The rows before the first one that is too short. *)
Lemma first_short_row (rows : list row) :
  ¬ Forall (λ x, (3 ≤ length x)%nat) rows →
  ∃ pre x post, rows = pre ++ x :: post
    ∧ Forall (λ x, (3 ≤ length x)%nat) pre ∧ (length x < 3)%nat.
Proof.
  induction rows as [|y rows IH]; intros H; [by destruct H|].
  destruct (le_lt_dec 3 (length y)) as [Hy|Hy].
  - destruct IH as (pre & x & post & -> & Hpre & Hx).
    { intros Hall. apply H. by constructor. }
    exists (y :: pre), x, post. split; [done|]. split; [by constructor | done].
  - by exists [], y, rows.
Qed.

(** C7 (amended): on a slab file whose every row after the two header
    lines has at least three fields, [slab_usage] returns the sum of the
    third fields that are purely numeric, the other rows adding nothing;
    as soon as a row has fewer than three fields it raises [IndexError]. *)
Theorem slab_usage_sum (e : env) (ls : list string) :
  open_lines e slab_path = Ok ls →
  (Forall (λ x, (3 ≤ length x)%nat) (re_split Spaces <$> drop 2 ls) →
     slab_usage e = Ok (py_sum (third <$> (re_split Spaces <$> drop 2 ls))))
  ∧ (¬ Forall (λ x, (3 ≤ length x)%nat) (re_split Spaces <$> drop 2 ls) →
     slab_usage e = Err IndexError).
Proof.
  intros Hls. unfold slab_usage, read_file. rewrite Hls. simpl.
  set (rows := re_split Spaces <$> drop 2 ls). split.
  - intros Hall. rewrite (list_comp_ok slab_row slab_entry).
    + simpl. by rewrite sum_slab_entries.
    + eapply Forall_impl; [exact Hall|]. apply slab_row_entry.
  - intros (pre & x & post & -> & Hpre & Hx)%first_short_row.
    rewrite (list_comp_first_err slab_row pre post x IndexError); [done| |].
    + eapply Forall_impl; [exact Hpre|]. intros y Hy.
      by rewrite slab_row_entry.
    + by apply slab_row_short.
Qed.

Lemma slab_usage_sum_witness :
  open_lines env_slab slab_path = Ok slab_lines
  ∧ Forall (λ x, (3 ≤ length x)%nat) (re_split Spaces <$> drop 2 slab_lines)
  ∧ slab_usage env_slab
    = Ok (py_sum (third <$> (re_split Spaces <$> drop 2 slab_lines)))
  ∧ py_sum (third <$> (re_split Spaces <$> drop 2 slab_lines)) = 122880%Z.
Proof.
  assert (open_lines env_slab slab_path
          = Ok slab_lines) as H by (vm_compute; reflexivity).
  assert (Forall (λ x, (3 ≤ length x)%nat)
            (re_split Spaces <$> drop 2 slab_lines)) as Hall
    by (apply Forall_forall; intros x Hx; vm_compute in Hx;
        repeat (apply elem_of_cons in Hx as [->|Hx]; [simpl; lia|]);
        by apply elem_of_nil in Hx).
  split; [exact H|]. split; [exact Hall|]. split.
  - exact (proj1 (slab_usage_sum _ slab_lines H) Hall).
  - vm_compute. reflexivity.
Defined.

(** C7, as stated, fails: a blank line after the header splits into two
    fields, and reading the third raises. *)
Lemma slab_usage_blank_line :
  re_split Spaces <$> drop 2 slab_lines_blank
  = [ [""; ""];
      ["spl_vn_cache"; "0x00020"; "98304"; "48048"; "16384"; "104"; ""] ]
  ∧ slab_usage env_slab_blank = Err IndexError.
Proof. split; vm_compute; reflexivity. Qed.

(** * Further properties of the script *)

(** ** The two readers *)

Lemma first_nonspace_app (s : string) (c : ascii) :
  first_nonspace s = true ∨ (s = "" ∧ is_space c = false) →
  first_nonspace (s +:+ String c "") = true.
Proof.
  destruct s as [|d s]; simpl.
  - intros [?|[_ ->]]; done.
  - intros [?|[? _]]; done.
Qed.

Lemma split_ws_head (s cur : string) (ws : bool) :
  first_nonspace cur = true ∨ (cur = "" ∧ ws = false ∧ first_nonspace s = true) →
  ∃ f fs, split_ws s cur ws = f :: fs ∧ first_nonspace f = true.
Proof.
  revert cur ws. induction s as [|c s IH]; intros cur ws H; simpl.
  - destruct H as [?|(_ & _ & ?)]; [eauto | done].
  - destruct (is_space c) eqn:Hc.
    + destruct H as [H|(_ & _ & H)]; [|simpl in H; by rewrite Hc in H].
      destruct ws; [apply IH; by left | eauto].
    + apply IH. left. apply first_nonspace_app.
      destruct H as [?|(-> & _ & _)]; [by left | by right].
Qed.

Lemma split_char_head (d : ascii) (s cur : string) :
  is_space d = true →
  first_nonspace cur = true ∨ (cur = "" ∧ first_nonspace s = true) →
  ∃ f fs, split_char d s cur = f :: fs ∧ first_nonspace f = true.
Proof.
  intros Hd. revert cur. induction s as [|c s IH]; intros cur H; simpl.
  - destruct H as [?|[_ ?]]; [eauto | done].
  - destruct (Ascii.eqb_spec c d) as [->|Hne].
    + destruct H as [H|[_ H]]; [eauto|]. simpl in H. by rewrite Hd in H.
    + apply IH. left. apply first_nonspace_app.
      destruct H as [?|[-> H]]; [by left | right].
      split; [done|]. simpl in H. by apply negb_true_iff in H.
Qed.

Lemma no_space_app (s : string) (c : ascii) :
  no_space s = true → is_space c = false →
  no_space (s +:+ String c "") = true.
Proof.
  intros Hs Hc. induction s as [|d s IH]; simpl in *; [by rewrite Hc|].
  apply andb_true_iff in Hs as [-> ?]. simpl. by apply IH.
Qed.

Lemma split_ws_no_space (s cur : string) (ws : bool) :
  no_space cur = true → Forall (λ f, no_space f = true) (split_ws s cur ws).
Proof.
  revert cur ws. induction s as [|c s IH]; intros cur ws H; simpl.
  - by constructor.
  - destruct (is_space c) eqn:Hc.
    + destruct ws; [by apply IH|]. constructor; [done | by apply IH].
    + apply IH. by apply no_space_app.
Qed.

Lemma strip_first (s : string) : strip s ≠ "" → first_nonspace (strip s) = true.
Proof.
  intros Hne. unfold strip in *.
  assert (lstrip s ≠ "") as Hl by (intros H; by rewrite H in Hne).
  by apply lstrip_first, rstrip_first in Hl as [? _].
Qed.

(** X1: every row [run] returns has a first field, which is not empty and
    does not begin with white space, whatever the indentation of the line;
    when the pattern is [\s+], no field of any row is empty or holds white
    space. *)
Theorem run_rows_shape (e : env) (cmd : list string) (p : pattern)
    (rs : list row) :
  run e cmd p = Ok rs →
  Forall (λ x, ∃ f, index x 0 = Ok f ∧ first_nonspace f = true) rs
  ∧ (p = Spaces → Forall (Forall (λ f, f ≠ "" ∧ no_space f = true)) rs).
Proof.
  unfold run. intros H. destruct (check_output e cmd) as [out|]; [|done].
  simpl in H. injection H as <-. unfold rows_of_output. split.
  - apply Forall_fmap, Forall_forall. intros l [Hl _]%list_elem_of_filter.
    simpl. apply strip_first in Hl.
    assert (∃ f fs, re_split p (strip l) = f :: fs ∧ first_nonspace f = true)
      as (f & fs & -> & Hf).
    { destruct p; simpl.
      - apply split_char_head; [done | by right].
      - apply split_ws_head. by right. }
    by exists f.
  - intros ->. apply Forall_fmap, Forall_forall.
    intros l [Hl _]%list_elem_of_filter. simpl.
    pose proof (strip_fields l Hl) as H1.
    pose proof (split_ws_no_space (strip l) "" false eq_refl) as H2.
    simpl in H1. rewrite Forall_forall in H1, H2. apply Forall_forall.
    intros f Hf. split; [by apply H1 | by apply H2].
Qed.

Lemma run_rows_shape_witness :
  run env_indented vdev_list_cmd Tab = Ok [["/dev/sda1"; "1000"; ""; "600"]]
  ∧ Forall (λ x, ∃ f, index x 0 = Ok f ∧ first_nonspace f = true)
      [["/dev/sda1"; "1000"; ""; "600"]]
  ∧ (Tab = Spaces → Forall (Forall (λ f, f ≠ "" ∧ no_space f = true))
                      [["/dev/sda1"; "1000"; ""; "600"]]).
Proof.
  assert (run env_indented vdev_list_cmd Tab
          = Ok [["/dev/sda1"; "1000"; ""; "600"]]) as H
    by (vm_compute; reflexivity).
  split; [exact H|]. exact (run_rows_shape _ _ _ _ H).
Defined.

Lemma rows_of_blank_output (p : pattern) (out : string) :
  Forall (λ l, strip l = "") (split_char newline out "") →
  rows_of_output p out = [].
Proof.
  intros H. unfold rows_of_output.
  induction H as [|l ls Hl _ IH]; [done|].
  rewrite filter_cons_False by (by intros ?). done.
Qed.

Section BlankOutput.
Context {F : Type} (py_float : string → option F).

(** X2: when every command prints only blank lines, the status parser
    returns two empty maps and the three listing builders return empty
    maps, whatever maps they are given: no row, no lookup, no fault. *)
Theorem blank_output_empty_maps (e : env) (scrub : gmap string bool)
    (errs : gmap string errors) :
  (∀ cmd, ∃ out, check_output e cmd = Ok out
     ∧ Forall (λ l, strip l = "") (split_char newline out "")) →
  pool_status e = Ok (∅, ∅)
  ∧ vdev_list e errs = Ok ∅
  ∧ pool_list py_float e scrub = Ok ∅
  ∧ zfs_list py_float e = Ok ∅.
Proof.
  intros H.
  assert (∀ cmd p, run e cmd p = Ok []) as Hrun.
  { intros cmd p. unfold run. destruct (H cmd) as (out & -> & Hb). simpl.
    by rewrite rows_of_blank_output. }
  unfold pool_status, vdev_list, pool_list, zfs_list. by rewrite !Hrun.
Qed.
End BlankOutput.

Lemma blank_output_empty_maps_witness :
  (∀ cmd, ∃ out, check_output env_blank cmd = Ok out
     ∧ Forall (λ l, strip l = "") (split_char newline out ""))
  ∧ pool_status env_blank = Ok (∅, ∅)
  ∧ vdev_list env_blank device_errors = Ok ∅
  ∧ pool_list float_dec env_blank ∅ = Ok ∅
  ∧ zfs_list float_dec env_blank = Ok ∅.
Proof.
  assert (∀ cmd, ∃ out, check_output env_blank cmd = Ok out
            ∧ Forall (λ l, strip l = "") (split_char newline out "")) as H.
  { intros cmd. eexists. split; [reflexivity|]. vm_compute.
    repeat constructor. }
  split; [exact H|].
  exact (blank_output_empty_maps float_dec env_blank ∅ device_errors H).
Defined.



Lemma split_ws_snoc (s cur : string) (ws : bool) (c : ascii) :
  is_space c = true → (ws = true → cur = "") →
  ∃ fs, split_ws (s +:+ String c "") cur ws = fs ++ [""]
    ∧ (ws = false → fs ≠ []).
Proof.
  intros Hc. revert cur ws. induction s as [|d s IH]; intros cur ws Hws; simpl.
  - rewrite Hc. destruct ws.
    + rewrite (Hws eq_refl). by exists [].
    + by exists [cur].
  - destruct (is_space d).
    + destruct ws.
      * destruct (IH cur true Hws) as (fs & -> & _). by exists fs.
      * destruct (IH "" true ltac:(done)) as (fs & -> & _).
        by exists (cur :: fs).
    + destruct (IH (cur +:+ String d "") false ltac:(done)) as (fs & -> & Hfs).
      exists fs. split; [done|]. intros _. by apply Hfs.
Qed.

(** X4: a line that ends in white space, as every line of a file does
    that ends with its newline, splits on [\s+] into at least two fields
    the last of which is empty: a kstat line of n columns gives n + 1
    fields. *)
Theorem trailing_space_empty_field (s : string) (c : ascii) :
  is_space c = true →
  last (re_split Spaces (s +:+ String c "")) = Some ""
  ∧ (2 ≤ length (re_split Spaces (s +:+ String c "")))%nat.
Proof.
  intros Hc. simpl.
  destruct (split_ws_snoc s "" false c Hc ltac:(done)) as (fs & -> & Hfs).
  split; [apply last_snoc|]. rewrite length_app. simpl.
  destruct fs; [by destruct Hfs | simpl; lia].
Qed.

Lemma trailing_space_empty_field_witness :
  is_space newline = true
  ∧ last (re_split Spaces ("total: 3" +:+ String newline "")) = Some ""
  ∧ (2 ≤ length (re_split Spaces ("total: 3" +:+ String newline "")))%nat.
Proof.
  split; [reflexivity|].
  exact (trailing_space_empty_field "total: 3" newline eq_refl).
Defined.

(** ** What the builders hold and which faults they raise *)

Lemma dict_comp_err_inv {A V} (f : A → result (option (string * V)))
    (l : list A) (acc : gmap string V) (ex : exn) :
  dict_comp f l acc = Err ex → ∃ x, x ∈ l ∧ f x = Err ex.
Proof.
  revert acc. induction l as [|x l IH]; intros acc H; simpl in H; [done|].
  destruct (f x) as [kv|ex'] eqn:Hx; simpl in H.
  - destruct (IH _ H) as (y & Hin & Hy). exists y. split; [by right | done].
  - injection H as ->. exists x. split; [left | done].
Qed.

Lemma list_comp_elem {A B} (f : A → result (option B)) (l : list A)
    (r : list B) (b : B) :
  list_comp f l = Ok r → b ∈ r → ∃ x, x ∈ l ∧ f x = Ok (Some b).
Proof.
  revert r. induction l as [|x l IH]; intros r H Hb; simpl in H.
  - injection H as <-. by apply elem_of_nil in Hb.
  - destruct (f x) as [v|] eqn:Hx; [|done]. simpl in H.
    destruct (list_comp f l) as [r'|]; [|done]. simpl in H. injection H as <-.
    destruct v as [b'|].
    + apply elem_of_cons in Hb as [->|Hb].
      * exists x. split; [left | done].
      * destruct (IH r' eq_refl Hb) as (y & ? & ?). exists y.
        split; [by right | done].
    + destruct (IH r' eq_refl Hb) as (y & ? & ?). exists y.
      split; [by right | done].
Qed.

Lemma numeric_nonneg (f : option string) : (0 ≤ numeric f)%Z.
Proof.
  unfold numeric. destruct f as [s|]; [|done].
  destruct (isdigit s) eqn:Hd; [|done].
  apply isdigit_all in Hd as [Hd _]. by apply digits_value_nonneg.
Qed.

(** X5: every counter [pool_io_stats] returns is a non-negative integer. *)
Theorem pool_io_stats_nonneg (e : env) (pool : string) (m : gmap string Z)
    (k : string) (z : Z) :
  pool_io_stats e pool = Ok m → m !! k = Some z → (0 ≤ z)%Z.
Proof.
  intros H Hk. unfold pool_io_stats in H.
  do 3 step_ok H.
  destruct (dict_comp_origin _ _ _ _ _ _ H Hk) as [?|([k' s] & _ & Hx)];
    [done|].
  rewrite io_pair_entry in Hx. injection Hx as Hx.
  apply io_entry_some in Hx as (_ & Hd & ->). simpl in Hd.
  apply isdigit_all in Hd as [Hd _]. by apply digits_value_nonneg.
Qed.

Lemma pool_io_stats_nonneg_witness :
  pool_io_stats (env_of [] [(iostats_path "tank", iostats_lines)]) "tank"
  = Ok {[ "nread" := 4096; "nwritten" := 8192; "writes" := 7 ]}%Z
  ∧ ({[ "nread" := 4096; "nwritten" := 8192; "writes" := 7 ]}%Z
       : gmap string Z) !! "writes" = Some 7%Z
  ∧ (0 ≤ 7)%Z.
Proof.
  assert (pool_io_stats (env_of [] [(iostats_path "tank", iostats_lines)]) "tank"
          = Ok {[ "nread" := 4096; "nwritten" := 8192; "writes" := 7 ]}%Z) as H
    by (vm_compute; reflexivity).
  assert (({[ "nread" := 4096; "nwritten" := 8192; "writes" := 7 ]}%Z
             : gmap string Z) !! "writes" = Some 7%Z) as Hk
    by (vm_compute; reflexivity).
  split; [exact H|]. split; [exact Hk|].
  exact (pool_io_stats_nonneg _ _ _ _ _ H Hk).
Defined.

(** X6: the only faults of [pool_io_stats] are [IndexError], for a file
    with fewer than two rows, and the fault of opening the "io" file when
    the "iostats" file could not be read either; a value that is not
    numeric never makes it fail. *)
Theorem pool_io_stats_faults (e : env) (pool : string) (ex : exn) :
  pool_io_stats e pool = Err ex →
  (ex = IndexError ∧ ∃ r, pool_io_rows e pool = Ok r ∧ (length r < 2)%nat)
  ∨ (open_lines e (io_path pool) = Err ex
     ∧ ∃ ex', open_lines e (iostats_path pool) = Err ex').
Proof.
  intros H. destruct (pool_io_rows e pool) as [r|ex0] eqn:Hr.
  - left. destruct (le_lt_dec 2 (length r)) as [Hlen|Hlen].
    + apply (pool_io_stats_ok_iff e pool r Hr) in Hlen. by rewrite H in Hlen.
    + split; [|by exists r]. unfold pool_io_stats in H. rewrite Hr in H.
      simpl in H. destruct r as [|h [|v rest]]; simpl in *;
        [by injection H | by injection H | lia].
  - right. unfold pool_io_stats in H. rewrite Hr in H. simpl in H.
    injection H as <-. unfold pool_io_rows, read_file in Hr.
    destruct (open_lines e (iostats_path pool)) as [|ex1]; [done|].
    simpl in Hr. destruct (open_lines e (io_path pool)) as [|ex2]; [done|].
    simpl in Hr. injection Hr as ->. split; [done | by exists ex1].
Qed.

Lemma pool_io_stats_faults_witness :
  pool_io_stats env_short_iostats "tank" = Err IndexError
  ∧ ((IndexError = IndexError
      ∧ ∃ r, pool_io_rows env_short_iostats "tank" = Ok r ∧ (length r < 2)%nat)
     ∨ (open_lines env_short_iostats (io_path "tank") = Err IndexError
        ∧ ∃ ex', open_lines env_short_iostats (iostats_path "tank") = Err ex')).
Proof.
  assert (pool_io_stats env_short_iostats "tank" = Err IndexError) as H
    by (vm_compute; reflexivity).
  split; [exact H|]. exact (pool_io_stats_faults _ _ _ H).
Defined.

(** X7: the total [slab_usage] returns is never negative. *)
Theorem slab_usage_nonneg (e : env) (n : Z) :
  slab_usage e = Ok n → (0 ≤ n)%Z.
Proof.
  unfold slab_usage. intros H. do 2 step_ok H. injection H as <-.
  assert (Forall (λ z, (0 ≤ z)%Z) x0) as Hall.
  { apply Forall_forall. intros z Hz.
    match goal with H : list_comp _ _ = Ok _ |- _ =>
      destruct (list_comp_elem _ _ _ _ H Hz) as (y & _ & Hy) end.
    unfold slab_row in Hy. step_ok Hy.
    destruct (isdigit _) eqn:Hd; [|done]. do 2 step_ok Hy.
    injection Hy as <-.
    match goal with Hi : index y 2 = Ok ?s, Hj : index y 2 = Ok ?t |- _ =>
      assert (s = t) as -> by congruence end.
    match goal with Hi : int _ = Ok _ |- _ =>
      rewrite (int_isdigit _ Hd) in Hi; injection Hi as <- end.
    apply isdigit_all in Hd as [Hd _]. by apply digits_value_nonneg. }
  clear -Hall. unfold py_sum.
  induction Hall as [|z l Hz _ IH]; [done|].
  change (0 ≤ z + foldr Z.add 0 l)%Z. lia.
Qed.

Lemma slab_usage_nonneg_witness :
  slab_usage env_slab = Ok 122880%Z ∧ (0 ≤ 122880)%Z.
Proof.
  assert (slab_usage env_slab = Ok 122880%Z) as H by (vm_compute; reflexivity).
  split; [exact H | exact (slab_usage_nonneg _ _ H)].
Defined.

(** X8: in the map [vdev_list] returns, every record sits under its own
    name, which begins with "/"; its error record is the entry of that name
    in the error map it was given; its five numeric fields are not
    negative and its online flag is 0 or 1. *)
Theorem vdev_list_records (e : env) (errs : gmap string errors)
    (m : gmap string vdev) (k : string) (d : vdev) :
  vdev_list e errs = Ok m → m !! k = Some d →
  v_name d = k ∧ startswith_slash k = true
  ∧ errs !! k = Some (v_errors d)
  ∧ (0 ≤ v_size d)%Z ∧ (0 ≤ v_alloc d)%Z ∧ (0 ≤ v_free d)%Z
  ∧ (0 ≤ v_frag d)%Z ∧ (0 ≤ v_usage d)%Z
  ∧ (v_online d = 0%Z ∨ v_online d = 1%Z).
Proof.
  intros H Hk. unfold vdev_list in H. step_ok H.
  destruct (dict_comp_origin _ _ _ _ _ _ H Hk) as [?|(y & _ & Hy)]; [done|].
  apply vdev_entry_inv in Hy as (h & es & _ & Hs & _ & He & ->). simpl.
  do 3 (split; [done|]).
  do 5 (split; [apply numeric_nonneg|]).
  destruct (h =? "ONLINE"); [by right | by left].
Qed.

Lemma vdev_list_records_witness :
  vdev_list env_devices device_errors = Ok device_records
  ∧ device_records !! "/dev/sdb1" = Some sdb1_record
  ∧ v_name sdb1_record = "/dev/sdb1" ∧ startswith_slash "/dev/sdb1" = true
  ∧ device_errors !! "/dev/sdb1" = Some (v_errors sdb1_record)
  ∧ (0 ≤ v_size sdb1_record)%Z ∧ (0 ≤ v_alloc sdb1_record)%Z
  ∧ (0 ≤ v_free sdb1_record)%Z ∧ (0 ≤ v_frag sdb1_record)%Z
  ∧ (0 ≤ v_usage sdb1_record)%Z
  ∧ (v_online sdb1_record = 0%Z ∨ v_online sdb1_record = 1%Z).
Proof.
  assert (vdev_list env_devices device_errors = Ok device_records) as H
    by (vm_compute; reflexivity).
  assert (device_records !! "/dev/sdb1" = Some sdb1_record) as Hd
    by (vm_compute; reflexivity).
  split; [exact H|]. split; [exact Hd|].
  exact (vdev_list_records env_devices device_errors _ _ _ H Hd).
Defined.

(** X9: once its command has run, [vdev_list] fails only with
    [IndexError], for a kept row with fewer than ten fields, or with the
    [KeyError] of a kept path that the error map lacks; a numeric field
    that does not read as a number never makes it fail. *)
Theorem vdev_list_faults (e : env) (errs : gmap string errors)
    (out : string) (ex : exn) :
  check_output e vdev_list_cmd = Ok out →
  vdev_list e errs = Err ex →
  ∃ x k, x ∈ rows_of_output Tab out ∧ x !! 0%nat = Some k
    ∧ startswith_slash k = true
    ∧ ((ex = IndexError ∧ (length x < 10)%nat)
       ∨ (ex = KeyError k ∧ (10 ≤ length x)%nat ∧ errs !! k = None)).
Proof.
  intros Hout H. unfold vdev_list, run in H. rewrite Hout in H. simpl in H.
  apply dict_comp_err_inv in H as (x & Hin & Hx).
  pose proof (rows_of_output_nonempty Tab out) as Hne.
  rewrite Forall_forall in Hne. specialize (Hne x Hin).
  destruct x as [|k x]; [done|]. exists (k :: x), k.
  split; [done|]. split; [done|].
  destruct (startswith_slash k) eqn:Hs.
  2:{ by rewrite (vdev_entry_skipped errs _ k) in Hx. }
  split; [done|].
  destruct (le_lt_dec 10 (length (k :: x))) as [Hlen|Hlen].
  - right. destruct (errs !! k) as [es|] eqn:He.
    + destruct (vdev_entry_kept errs (k :: x) k es) as (h & _ & Hv); try done.
      by rewrite Hv in Hx.
    + rewrite (vdev_entry_missing errs _ k) in Hx by done.
      by injection Hx as <-.
  - left. rewrite (vdev_entry_short errs _ k) in Hx by done.
    by injection Hx as <-.
Qed.

Lemma vdev_list_faults_witness :
  check_output env_devices vdev_list_cmd = Ok device_listing
  ∧ vdev_list env_devices ∅ = Err (KeyError "/dev/sda1")
  ∧ ∃ x k, x ∈ rows_of_output Tab device_listing ∧ x !! 0%nat = Some k
      ∧ startswith_slash k = true
      ∧ ((KeyError "/dev/sda1" = IndexError ∧ (length x < 10)%nat)
         ∨ (KeyError "/dev/sda1" = KeyError k ∧ (10 ≤ length x)%nat
            ∧ (∅ : gmap string errors) !! k = None)).
Proof.
  assert (check_output env_devices vdev_list_cmd = Ok device_listing) as H
    by (vm_compute; reflexivity).
  assert (vdev_list env_devices ∅ = Err (KeyError "/dev/sda1")) as H'
    by (vm_compute; reflexivity).
  split; [exact H|]. split; [exact H'|].
  exact (vdev_list_faults env_devices ∅ _ _ H H').
Defined.

(** Name the first field of a row once. *)
Ltac same_first_field x :=
  repeat match goal with
    | H1 : index x 0 = Ok ?a, H2 : index x 0 = Ok ?b |- _ =>
        assert (b = a) as -> by congruence; clear H2
    end.

Section ListingRecords.
Context {F : Type} (py_float : string → option F).

Lemma pool_entry_fields (e : env) (scrub : gmap string bool) (x : row)
    (k : string) (p : pool F) :
  pool_entry py_float e scrub x = Ok (Some (k, p)) →
  x !! 0%nat = Some k ∧ p_name p = k
  ∧ int_at x 1 = Ok (p_size p) ∧ int_at x 2 = Ok (p_alloc p)
  ∧ int_at x 3 = Ok (p_free p) ∧ int_at x 4 = Ok (p_frag p)
  ∧ int_at x 5 = Ok (p_usage p)
  ∧ (∃ s, x !! 6%nat = Some s ∧ py_float s = Some (p_dedup p))
  ∧ pool_io_stats e k = Ok (p_io p).
Proof.
  unfold pool_entry. intros H. do 11 step_ok H. injection H as <- <-. simpl.
  repeat match goal with
    | H : (_ ≫= _) = Ok _ |- _ => step_ok H
    end.
  same_first_field x.
  match goal with H : index x 0 = Ok _ |- _ => apply index_ok in H end.
  do 7 (split; [done|]). split; [|done].
  match goal with H : index x 6 = Ok ?s |- _ =>
    apply index_ok in H; exists s; split; [done|] end.
  match goal with H : float _ _ = Ok _ |- _ => unfold float in H end.
  by destruct (py_float _); simplify_eq.
Qed.

(** X10: in the map [pool_list] returns, every record sits under its own
    name; its scrub flag is the flag of that name in the scrub map it was
    given, its I/O counters are what [pool_io_stats] returns for that name,
    its online flag is 0 or 1, and its five integer fields are those of a
    row of the listing whose first field is the name. *)
Theorem pool_list_records (e : env) (scrub : gmap string bool)
    (m : gmap string (pool F)) (k : string) (p : pool F) :
  pool_list py_float e scrub = Ok m → m !! k = Some p →
  p_name p = k
  ∧ (∃ b, scrub !! k = Some b ∧ p_scrub p = Z.b2z b)
  ∧ pool_io_stats e k = Ok (p_io p)
  ∧ (p_online p = 0%Z ∨ p_online p = 1%Z)
  ∧ ∃ rs x, run e pool_list_cmd Tab = Ok rs ∧ x ∈ rs ∧ x !! 0%nat = Some k
      ∧ int_at x 1 = Ok (p_size p) ∧ int_at x 2 = Ok (p_alloc p)
      ∧ int_at x 3 = Ok (p_free p) ∧ int_at x 4 = Ok (p_frag p)
      ∧ int_at x 5 = Ok (p_usage p).
Proof.
  intros H Hk. unfold pool_list in H.
  destruct (run e pool_list_cmd Tab) as [rs|]; [|done]. simpl in H.
  destruct (dict_comp_origin _ _ _ _ _ _ H Hk) as [?|(x & Hin & Hx)]; [done|].
  pose proof (pool_entry_fields _ _ _ _ _ Hx)
    as (H0 & Hn & H1 & H2 & H3 & H4 & H5 & _ & Hio).
  pose proof (pool_entry_inv py_float _ _ _ _ _ Hx)
    as (_ & Hs & h & _ & Ho & _).
  split; [done|]. split; [done|]. split; [done|]. split.
  - rewrite Ho. destruct (h =? "ONLINE"); [by right | by left].
  - by exists rs, x.
Qed.

Lemma zfs_entry_ok_iff (x : row) :
  is_ok (zfs_entry py_float x) = true ↔ zfs_row_ok py_float x.
Proof.
  unfold zfs_entry, zfs_row_ok, int_at, float, int, index. split.
  - intros H.
    destruct (x !! 0%nat) as [k|]; simpl in H; [|done].
    destruct (x !! 1%nat) as [s1|]; simpl in H; [|done].
    destruct (py_int s1) eqn:E1; simpl in H; [|done].
    destruct (x !! 2%nat) as [s2|]; simpl in H; [|done].
    destruct (py_int s2) eqn:E2; simpl in H; [|done].
    destruct (x !! 3%nat) as [s3|]; simpl in H; [|done].
    destruct (py_float s3) eqn:E3; simpl in H; [|done].
    destruct (x !! 4%nat) as [s4|]; simpl in H; [|done].
    destruct (py_int s4) eqn:E4; simpl in H; [|done].
    exists k, s1, s2, s3, s4. repeat split; try done; by eexists.
  - intros (k & s1 & s2 & s3 & s4 & -> & -> & -> & -> & ->
            & [? E1] & [? E2] & [? E3] & [? E4]).
    simpl. rewrite E1. simpl. rewrite E2. simpl. rewrite E3. simpl.
    by rewrite E4.
Qed.

(** X11: once its command has run, [zfs_list] returns exactly when every
    row has five fields with integers in fields 1, 2 and 4 and a float in
    field 3: unlike the device listing it takes no placeholder. *)
Theorem zfs_list_ok_iff (e : env) (rs : list row) :
  run e zfs_list_cmd Tab = Ok rs →
  is_ok (zfs_list py_float e) = true ↔ Forall (zfs_row_ok py_float) rs.
Proof.
  intros H. unfold zfs_list. rewrite H. simpl. rewrite dict_comp_ok_iff.
  split; intros Hall; (eapply Forall_impl; [exact Hall|]);
    intros x; by rewrite zfs_entry_ok_iff.
Qed.

(** X12: in the map [zfs_list] returns, every record sits under its own
    name, and its fields are read from a row of the listing whose first
    field is the name: available, used and referenced are the integers of
    fields 1, 2 and 4, the compression ratio the float of field 3. *)
Theorem zfs_list_records (e : env) (m : gmap string (dataset F))
    (k : string) (d : dataset F) :
  zfs_list py_float e = Ok m → m !! k = Some d →
  d_name d = k
  ∧ ∃ rs x, run e zfs_list_cmd Tab = Ok rs ∧ x ∈ rs ∧ x !! 0%nat = Some k
      ∧ int_at x 1 = Ok (d_avail d) ∧ int_at x 2 = Ok (d_used d)
      ∧ (∃ s, x !! 3%nat = Some s ∧ py_float s = Some (d_compress d))
      ∧ int_at x 4 = Ok (d_referenced d).
Proof.
  intros H Hk. unfold zfs_list in H.
  destruct (run e zfs_list_cmd Tab) as [rs|]; [|done]. simpl in H.
  destruct (dict_comp_origin _ _ _ _ _ _ H Hk) as [?|(x & Hin & Hx)]; [done|].
  unfold zfs_entry in Hx. do 6 step_ok Hx. injection Hx as <- <-. simpl.
  repeat match goal with
    | H : (_ ≫= _) = Ok _ |- _ => step_ok H
    end.
  same_first_field x.
  match goal with H : index x 0 = Ok _ |- _ => apply index_ok in H end.
  split; [done|]. exists rs, x. do 5 (split; [done|]). split; [|done].
  match goal with H : index x 3 = Ok ?s |- _ =>
    apply index_ok in H; exists s; split; [done|] end.
  match goal with H : float _ _ = Ok _ |- _ => unfold float in H end.
  by destruct (py_float _); simplify_eq.
Qed.
End ListingRecords.

Lemma pool_list_records_witness :
  pool_list float_dec env_two_pools scrub_two = Ok two_pools_map
  ∧ two_pools_map !! "backup" = Some backup_record
  ∧ p_name backup_record = "backup"
  ∧ (∃ b, scrub_two !! "backup" = Some b ∧ p_scrub backup_record = Z.b2z b)
  ∧ pool_io_stats env_two_pools "backup" = Ok (p_io backup_record)
  ∧ (p_online backup_record = 0%Z ∨ p_online backup_record = 1%Z)
  ∧ ∃ rs x, run env_two_pools pool_list_cmd Tab = Ok rs ∧ x ∈ rs
      ∧ x !! 0%nat = Some "backup"
      ∧ int_at x 1 = Ok (p_size backup_record)
      ∧ int_at x 2 = Ok (p_alloc backup_record)
      ∧ int_at x 3 = Ok (p_free backup_record)
      ∧ int_at x 4 = Ok (p_frag backup_record)
      ∧ int_at x 5 = Ok (p_usage backup_record).
Proof.
  assert (pool_list float_dec env_two_pools scrub_two = Ok two_pools_map) as H
    by (vm_compute; reflexivity).
  assert (two_pools_map !! "backup" = Some backup_record) as Hk
    by (vm_compute; reflexivity).
  split; [exact H|]. split; [exact Hk|].
  exact (pool_list_records float_dec env_two_pools scrub_two _ _ _ H Hk).
Defined.

Lemma zfs_list_ok_iff_witness :
  run env_datasets zfs_list_cmd Tab = Ok dataset_rows
  ∧ (is_ok (zfs_list float_dec env_datasets) = true
     ↔ Forall (zfs_row_ok float_dec) dataset_rows).
Proof.
  assert (run env_datasets zfs_list_cmd Tab = Ok dataset_rows) as H
    by (vm_compute; reflexivity).
  split; [exact H | exact (zfs_list_ok_iff float_dec env_datasets _ H)].
Defined.

Lemma zfs_list_records_witness :
  zfs_list float_dec env_datasets = Ok datasets_map
  ∧ datasets_map !! "tank/home" = Some home_record
  ∧ d_name home_record = "tank/home"
  ∧ ∃ rs x, run env_datasets zfs_list_cmd Tab = Ok rs ∧ x ∈ rs
      ∧ x !! 0%nat = Some "tank/home"
      ∧ int_at x 1 = Ok (d_avail home_record)
      ∧ int_at x 2 = Ok (d_used home_record)
      ∧ (∃ s, x !! 3%nat = Some s ∧ float_dec s = Some (d_compress home_record))
      ∧ int_at x 4 = Ok (d_referenced home_record).
Proof.
  assert (zfs_list float_dec env_datasets = Ok datasets_map) as H
    by (vm_compute; reflexivity).
  assert (datasets_map !! "tank/home" = Some home_record) as Hk
    by (vm_compute; reflexivity).
  split; [exact H|]. split; [exact Hk|].
  exact (zfs_list_records float_dec env_datasets _ _ _ H Hk).
Defined.

Example zfs_list_placeholder :
  zfs_list float_dec
    (env_of [(zfs_list_cmd, tsv ["tank"; "-"; "400"; "1.00"; "96"])] [])
  = Err ValueError
  ∧ d_used home_record = 300%Z
  ∧ (d_compress home_record == Qmake 152 100)%Q.
Proof. split; [vm_compute; reflexivity|]. split; reflexivity. Qed.

(** ** The status parser as a whole *)

Lemma vdev_errors_loop_ok (rs : list row) :
  ∃ m, vdev_errors_loop rs = Ok m.
Proof.
  rewrite vdev_errors_loop_comp.
  assert (is_ok (dict_comp (λ x, Ok (dev_entry x)) rs ∅) = true) as H
    by (apply dict_comp_ok_iff, Forall_forall; done).
  destruct (dict_comp _ rs ∅) as [m|]; [eauto | done].
Qed.

(** X13: once its command has run, [pool_status] returns exactly when
    every row whose first field is "pool:" has a second field; otherwise
    it raises [IndexError], whatever else the report holds. *)
Theorem pool_status_ok_iff (e : env) (out : string) :
  check_output e status_cmd = Ok out →
  (is_ok (pool_status e) = true ↔
     Forall (λ l, marker l → (2 ≤ length l)%nat) (rows_of_output Spaces out))
  ∧ (is_ok (pool_status e) = false → pool_status e = Err IndexError).
Proof.
  intros Hout. unfold pool_status, run. rewrite Hout. simpl.
  set (rs := rows_of_output Spaces out).
  assert (Forall status_row_ok rs ↔
          Forall (λ l, marker l → (2 ≤ length l)%nat) rs) as Hiff.
  { pose proof (rows_of_output_nonempty Spaces out) as Hne. fold rs in Hne.
    rewrite !Forall_forall in *. split.
    - intros H l Hl. by apply H.
    - intros H l Hl. split; [by apply Hne | by apply H]. }
  destruct (vdev_errors_loop_ok rs) as [ve Hve].
  destruct (decide (Forall status_row_ok rs)) as [Hok|Hbad].
  - destruct (scrub_loop_total rs ("", ∅) Hok) as [st Hst].
    unfold scrub_loop. rewrite Hst. simpl. rewrite Hve. simpl.
    split; [|done]. split; [intros _; by apply Hiff | done].
  - unfold scrub_loop. rewrite (scrub_loop_raises rs _ Hbad). simpl.
    split; [|done]. split; [done|]. intros H. by apply Hiff in H.
Qed.

Lemma pool_status_ok_iff_witness :
  check_output env_nameless status_cmd = Ok status_nameless
  ∧ (is_ok (pool_status env_nameless) = true ↔
       Forall (λ l, marker l → (2 ≤ length l)%nat)
         (rows_of_output Spaces status_nameless))
  ∧ (is_ok (pool_status env_nameless) = false →
       pool_status env_nameless = Err IndexError)
  ∧ is_ok (pool_status env_nameless) = false.
Proof.
  assert (check_output env_nameless status_cmd = Ok status_nameless) as H
    by (vm_compute; reflexivity).
  split; [exact H|].
  destruct (pool_status_ok_iff env_nameless _ H) as [H1 H2].
  split; [exact H1|]. split; [exact H2 | vm_compute; reflexivity].
Defined.

(** ** ARC statistics *)

Lemma getitem_some {V} (r : gmap string V) (k : string) (v : V) :
  r !! k = Some v → getitem r k = Ok v.
Proof. intros H. unfold getitem. by rewrite H. Qed.

Lemma getitem_none {V} (r : gmap string V) (k : string) :
  r !! k = None → getitem r k = Err (KeyError k).
Proof. intros H. unfold getitem. by rewrite H. Qed.

Lemma truediv_err (a b : Z) (ex : exn) :
  truediv a b = Err ex → ex = ZeroDivisionError ∨ ex = OverflowError.
Proof.
  unfold truediv. destruct (b =? 0)%Z; [intros [= <-]; by left|].
  destruct (a =? 0)%Z; [done|].
  destruct (round_pos _ _ _); try done. intros [= <-]. by right.
Qed.

Lemma hitrate_cases (r : gmap string Z) (k : string) (l h : Z) :
  r !! k = Some h →
  (∃ q, hitrate r k l = Ok q)
  ∨ (hitrate r k l = Err OverflowError ∧ truediv h l = Err OverflowError).
Proof.
  intros H. unfold hitrate. rewrite (getitem_some _ _ _ H).
  destruct (Z.eqb_spec l 0) as [|Hne]; simpl; [left; eauto|].
  destruct (truediv h l) as [q|ex] eqn:E; simpl; [left; eauto|].
  destruct (truediv_err _ _ _ E) as [->| ->]; [|by right].
  by destruct (truediv_no_zero_division h l Hne).
Qed.

(** Look the next key up: go on when it is there, conclude when not. *)
Ltac arc_lookup r k :=
  let v := fresh "v" in
  let E := fresh "E" in
  destruct (r !! k) as [v|] eqn:E;
  [ rewrite (getitem_some r k v E); simpl
  | left; exists k; rewrite (getitem_none r k E); simpl;
    split; [apply list_elem_of_In; simpl; tauto
           | split; [exact E | reflexivity] ] ].

Lemma arc_of_map_cases (r : gmap string Z) :
  (∃ k, k ∈ arc_keys ∧ r !! k = None ∧ arc_of_map r = Err (KeyError k))
  ∨ (arc_of_map r = Err OverflowError ∧ arc_overflow r)
  ∨ (∃ a, arc_of_map r = Ok a
       ∧ Forall (λ k, is_Some (r !! k)) arc_keys
       ∧ r !! "size" = Some (l1_size (l1 a))
       ∧ r !! "memory_available_bytes" = Some (l1_free (l1 a))
       ∧ r !! "arc_meta_used" = Some (l1_meta_used (l1 a))
       ∧ r !! "arc_meta_limit" = Some (l1_meta_limit (l1 a))
       ∧ r !! "l2_size" = Some (l2_usage (l2 a))
       ∧ r !! "l2_asize" = Some (l2_usage_actual (l2 a))
       ∧ r !! "l2_read_bytes" = Some (l2_bytes_read (l2 a))
       ∧ r !! "l2_write_bytes" = Some (l2_bytes_written (l2 a))
       ∧ r !! "l2_io_error" = Some (l2_io_error (l2 a))
       ∧ r !! "l2_cksum_bad" = Some (l2_cksum_bad (l2 a))).
Proof.
  unfold arc_of_map.
  arc_lookup r "hits". arc_lookup r "misses".
  arc_lookup r "l2_hits". arc_lookup r "l2_misses".
  arc_lookup r "size".
  destruct (hitrate_cases r "hits" (v + v0) v) as [[q1 ->]|[-> Hov]];
    [done | simpl | right; left; split; [reflexivity|]; exists v, v0; by left].
  arc_lookup r "memory_available_bytes". arc_lookup r "arc_meta_used".
  arc_lookup r "arc_meta_limit". arc_lookup r "l2_size".
  arc_lookup r "l2_asize".
  destruct (hitrate_cases r "l2_hits" (v1 + v2) v1) as [[q2 ->]|[-> Hov]];
    [done | simpl
    | right; left; split; [reflexivity|]; exists v1, v2; by right].
  arc_lookup r "l2_read_bytes". arc_lookup r "l2_write_bytes".
  arc_lookup r "l2_io_error". arc_lookup r "l2_cksum_bad".
  right. right. eexists. split; [reflexivity|]. simpl.
  split; [|by repeat split].
  unfold arc_keys. repeat (constructor; [eauto|]). constructor.
Qed.

Lemma arc_of_map_ok_present (r : gmap string Z) :
  is_ok (arc_of_map r) = true → Forall (λ k, is_Some (r !! k)) arc_keys.
Proof.
  destruct (arc_of_map_cases r)
    as [(k & _ & _ & ->)|[[-> _]|(a & _ & Hall & _)]]; done.
Qed.

Lemma no_overflow_nonneg (h m : Z) :
  (0 ≤ h)%Z → (0 ≤ m)%Z → truediv h (h + m) ≠ Err OverflowError.
Proof.
  intros Hh Hm. destruct (Z.eq_dec (h + m) 0) as [E|Hne].
  - rewrite E. unfold truediv. simpl. done.
  - by rewrite truediv_quotient by lia.
Qed.

Lemma arc_of_map_ok_nonneg (r : gmap string Z) :
  Forall (λ k, is_Some (r !! k)) arc_keys →
  (∀ k z, k ∈ arc_rate_keys → r !! k = Some z → (0 ≤ z)%Z) →
  is_ok (arc_of_map r) = true.
Proof.
  intros Hall Hpos.
  destruct (arc_of_map_cases r)
    as [(k & Hin & Hk & _)|[[_ (h & m & Hov)]|(a & -> & _)]]; [| |done].
  - rewrite Forall_forall in Hall. destruct (Hall k Hin) as [? ?]. congruence.
  - exfalso.
    destruct Hov as [(Hh & Hm & Hov)|(Hh & Hm & Hov)];
      (apply (no_overflow_nonneg h m); [| |done]);
      (eapply Hpos; [|eassumption]); apply list_elem_of_In; simpl; tauto.
Qed.

(** X14: [arc_stats] builds its result from its dictionary only when the
    dictionary holds the fourteen counters it reads, and does so whenever
    the four hit and miss counters are not negative as well; when it
    fails, the fault is the [KeyError] of one of the counters that is
    missing, or [OverflowError] from a quotient too large for a float;
    every field other than the two hit rates is the dictionary's entry as
    it is. *)
Theorem arc_of_map_keys (r : gmap string Z) :
  (is_ok (arc_of_map r) = true → Forall (λ k, is_Some (r !! k)) arc_keys)
  ∧ (Forall (λ k, is_Some (r !! k)) arc_keys →
     (∀ k z, k ∈ arc_rate_keys → r !! k = Some z → (0 ≤ z)%Z) →
     is_ok (arc_of_map r) = true)
  ∧ (∀ ex, arc_of_map r = Err ex →
       (∃ k, k ∈ arc_keys ∧ r !! k = None ∧ ex = KeyError k)
       ∨ (ex = OverflowError ∧ arc_overflow r))
  ∧ (∀ a, arc_of_map r = Ok a →
       r !! "size" = Some (l1_size (l1 a))
       ∧ r !! "memory_available_bytes" = Some (l1_free (l1 a))
       ∧ r !! "arc_meta_used" = Some (l1_meta_used (l1 a))
       ∧ r !! "arc_meta_limit" = Some (l1_meta_limit (l1 a))
       ∧ r !! "l2_size" = Some (l2_usage (l2 a))
       ∧ r !! "l2_asize" = Some (l2_usage_actual (l2 a))
       ∧ r !! "l2_read_bytes" = Some (l2_bytes_read (l2 a))
       ∧ r !! "l2_write_bytes" = Some (l2_bytes_written (l2 a))
       ∧ r !! "l2_io_error" = Some (l2_io_error (l2 a))
       ∧ r !! "l2_cksum_bad" = Some (l2_cksum_bad (l2 a))).
Proof.
  split; [apply arc_of_map_ok_present|].
  split; [apply arc_of_map_ok_nonneg|].
  destruct (arc_of_map_cases r)
    as [(k & Hin & Hk & Hr)|[[Hr Hov]|(a & Hr & Hall & Hf)]]; rewrite Hr.
  - split; [|done]. intros ex [= <-]. left. by exists k.
  - split; [|done]. intros ex [= <-]. by right.
  - split; [done|]. by intros ? [= <-].
Qed.

Example arc_of_map_faults :
  arc_of_map (delete "l2_asize" (arc_counters 80 20 0 0))
  = Err (KeyError "l2_asize")
  ∧ arc_of_map ∅ = Err (KeyError "hits")
  ∧ arc_of_map (arc_counters (10 ^ 400) (1 - 10 ^ 400) 0 0)
    = Err OverflowError.
Proof. repeat split; vm_compute; reflexivity. Qed.

Lemma arc_row_some (x : row) (k : string) (v : Z) :
  arc_row x = Ok (Some (k, v)) ↔
  x !! 0%nat = Some k ∧ ∃ s, x !! 2%nat = Some s ∧ py_int s = Some v.
Proof.
  unfold arc_row, int, index. split.
  - intros H. destruct (x !! 0%nat) as [k'|]; simpl in H; [|done].
    destruct (x !! 2%nat) as [s|]; simpl in H; [|done].
    destruct (py_int s) eqn:E; simpl in H; [|done].
    injection H as -> ->. eauto.
  - intros (-> & s & -> & E). simpl. by rewrite E.
Qed.

Lemma arc_row_ok_iff (x : row) : is_ok (arc_row x) = true ↔ arc_row_ok x.
Proof.
  unfold arc_row_ok. split.
  - intros H. destruct (arc_row x) as [[[k v]|]|] eqn:E; try done.
    + apply arc_row_some in E as (_ & s & ? & ?). exists s. eauto.
    + unfold arc_row in E. by do 2 step_ok E.
  - intros (s & H2 & [v Hv]).
    destruct (x !! 0%nat) as [k|] eqn:H0.
    + by rewrite (proj2 (arc_row_some x k v)) by eauto.
    + apply lookup_ge_None in H0. apply lookup_lt_Some in H2. lia.
Qed.

(** X15: on an arcstats file it can open, [arc_stats] returns only when
    every row after the two header lines has a third field that reads as
    an integer and each of the fourteen counters is the first field of
    some row: a blank line, or a value that is not an integer, makes it
    fail.  It does return when, in addition, no value is negative. *)
Theorem arc_stats_rows (e : env) (ls : list string) :
  open_lines e arcstats_path = Ok ls →
  (is_ok (arc_stats e) = true →
     Forall arc_row_ok (re_split Spaces <$> drop 2 ls)
     ∧ Forall (λ k, ∃ x, x ∈ (re_split Spaces <$> drop 2 ls)
                         ∧ x !! 0%nat = Some k) arc_keys)
  ∧ (Forall arc_row_nonneg (re_split Spaces <$> drop 2 ls) →
     Forall (λ k, ∃ x, x ∈ (re_split Spaces <$> drop 2 ls)
                       ∧ x !! 0%nat = Some k) arc_keys →
     is_ok (arc_stats e) = true).
Proof.
  intros Hls. unfold arc_stats, read_file. rewrite Hls. simpl.
  set (rows := re_split Spaces <$> drop 2 ls).
  assert (∀ r, dict_comp arc_row rows ∅ = Ok r →
            Forall arc_row_ok rows
            ∧ ∀ k, is_Some (r !! k) ↔ ∃ x, x ∈ rows ∧ x !! 0%nat = Some k)
    as Hdict.
  { intros r Hr.
    assert (Forall arc_row_ok rows) as Hrows.
    { assert (is_ok (dict_comp arc_row rows ∅) = true) as Hok
        by (by rewrite Hr).
      apply dict_comp_ok_iff in Hok.
      eapply Forall_impl; [exact Hok|]. intros x. by rewrite arc_row_ok_iff. }
    split; [done|]. intros k.
    rewrite (dict_comp_dom _ _ _ _ k Hr), lookup_empty. split.
    - intros [[? ?]|(x & v & Hin & Hx)]; [done|].
      apply arc_row_some in Hx as [? _]. eauto.
    - intros (x & Hin & H0). right. rewrite Forall_forall in Hrows.
      destruct (Hrows x Hin) as (s & H2 & [v Hv]).
      exists x, v. split; [done|]. apply arc_row_some. eauto. }
  split.
  - destruct (dict_comp arc_row rows ∅) as [r|ex] eqn:Hr; simpl; [|done].
    destruct (Hdict r eq_refl) as [Hrows Hdom].
    intros Hall%arc_of_map_ok_present. split; [done|].
    eapply Forall_impl; [exact Hall|]. intros k. by rewrite Hdom.
  - intros Hnn Hnamed.
    assert (Forall arc_row_ok rows) as Hrows.
    { eapply Forall_impl; [exact Hnn|]. intros x (s & z & ? & ? & _).
      exists s. eauto. }
    assert (is_ok (dict_comp arc_row rows ∅) = true) as Hok.
    { apply dict_comp_ok_iff.
      eapply Forall_impl; [exact Hrows|]. intros x. by rewrite arc_row_ok_iff. }
    destruct (dict_comp arc_row rows ∅) as [r|ex] eqn:Hr; [|done]. simpl.
    destruct (Hdict r eq_refl) as [_ Hdom].
    apply arc_of_map_ok_nonneg.
    + eapply Forall_impl; [exact Hnamed|]. intros k. by rewrite Hdom.
    + intros k z _ Hk.
      destruct (dict_comp_origin _ _ _ _ _ _ Hr Hk) as [?|(x & Hin & Hx)];
        [done|].
      apply arc_row_some in Hx as (_ & s & H2 & Hs).
      rewrite Forall_forall in Hnn.
      destruct (Hnn x Hin) as (s' & z' & H2' & Hs' & Hz).
      congruence.
Qed.

Lemma arc_stats_rows_witness :
  open_lines env_full arcstats_path = Ok arcstats_lines
  ∧ (is_ok (arc_stats env_full) = true →
       Forall arc_row_ok (re_split Spaces <$> drop 2 arcstats_lines)
       ∧ Forall (λ k, ∃ x, x ∈ (re_split Spaces <$> drop 2 arcstats_lines)
                           ∧ x !! 0%nat = Some k) arc_keys)
  ∧ (Forall arc_row_nonneg (re_split Spaces <$> drop 2 arcstats_lines) →
     Forall (λ k, ∃ x, x ∈ (re_split Spaces <$> drop 2 arcstats_lines)
                       ∧ x !! 0%nat = Some k) arc_keys →
     is_ok (arc_stats env_full) = true)
  ∧ is_ok (arc_stats env_full) = true.
Proof.
  assert (open_lines env_full arcstats_path = Ok arcstats_lines) as H
    by (vm_compute; reflexivity).
  split; [exact H|].
  destruct (arc_stats_rows env_full _ H) as [H1 H2].
  split; [exact H1|]. split; [exact H2 | vm_compute; reflexivity].
Defined.

Example arc_stats_bad_rows :
  arc_stats (env_of [] [(arcstats_path, arcstats_lines ++ [nl])])
  = Err IndexError
  ∧ arc_stats (env_of [] [(arcstats_path,
                           arcstats_lines ++ ["p 4 -" +:+ nl])])
    = Err ValueError.
Proof. split; vm_compute; reflexivity. Qed.

(** X16: a tier with at least one hit and no miss has the hit rate
    100.0 exactly. *)
Theorem hitrate_full (r : gmap string Z) (k : string) (hit : Z) :
  r !! k = Some hit → (0 < hit)%Z →
  hitrate r k (hit + 0) = Ok (Float hundred)
  ∧ (number_value (Float hundred) == inject_Z 100)%Q.
Proof.
  intros Hk Hh. split; [|reflexivity].
  rewrite (hitrate_rate r k hit 0 Hk) by lia. by rewrite rate_full.
Qed.

Lemma hitrate_full_witness :
  arc_counters 80 0 0 0 !! "hits" = Some 80%Z ∧ (0 < 80)%Z
  ∧ hitrate (arc_counters 80 0 0 0) "hits" (80 + 0) = Ok (Float hundred)
  ∧ (number_value (Float hundred) == inject_Z 100)%Q.
Proof.
  assert (arc_counters 80 0 0 0 !! "hits" = Some 80%Z) as H
    by (vm_compute; reflexivity).
  split; [exact H|]. split; [lia|].
  exact (hitrate_full _ "hits" 80 H ltac:(lia)).
Defined.

(** ** The snapshot *)

Lemma rows_of_output_first (p : pattern) (out : string) :
  Forall (λ x, ∃ f, x !! 0%nat = Some f ∧ f ≠ "") (rows_of_output p out).
Proof.
  unfold rows_of_output. apply Forall_fmap, Forall_forall.
  intros l [Hl _]%list_elem_of_filter. simpl. apply strip_first in Hl.
  assert (∃ f fs, re_split p (strip l) = f :: fs ∧ first_nonspace f = true)
    as (f & fs & -> & Hf).
  { destruct p; simpl.
    - apply split_char_head; [done | by right].
    - apply split_ws_head. by right. }
  exists f. split; [done|]. by intros ->.
Qed.

Section Snapshot.
Context {F : Type} (py_float : string → option F).

Lemma collect_ok (e : env) (s : snapshot F) :
  collect py_float e = Ok s →
  ∃ scrub ve, pool_status e = Ok (scrub, ve)
    ∧ vdev_list e ve = Ok (vdevs s)
    ∧ pool_list py_float e scrub = Ok (pools s)
    ∧ zfs_list py_float e = Ok (datasets s)
    ∧ arc_stats e = Ok (s_arc s)
    ∧ slab_usage e = Ok (slab s).
Proof.
  unfold collect. intros H.
  destruct (pool_status e) as [[scrub ve]|]; [|done]. simpl in H.
  do 5 step_ok H. injection H as <-. simpl. by exists scrub, ve.
Qed.

(** X17: a snapshot that [collect] returns is consistent with the status
    report: every device it lists is the first field of a device-error row
    of the report, and carries the error record read from such a row; every
    pool it lists is introduced by a "pool:" row of the report. *)
Theorem snapshot_correlated (e : env) (out : string) (s : snapshot F) :
  check_output e status_cmd = Ok out →
  collect py_float e = Ok s →
  (∀ k d, vdevs s !! k = Some d →
     ∃ x, x ∈ rows_of_output Spaces out ∧ dev_row x ∧ x !! 0%nat = Some k
          ∧ v_errors d = error_record x)
  ∧ (∀ k p, pools s !! k = Some p →
     ∃ l, l ∈ rows_of_output Spaces out ∧ names k l).
Proof.
  intros Hout (scrub & ve & Hst & Hv & Hp & _)%collect_ok.
  apply pool_status_ok in Hst as (out' & Hout' & Hscrub & Hve).
  rewrite Hout in Hout'. injection Hout' as <-.
  set (rs := rows_of_output Spaces out) in *. split.
  - intros k d Hk. unfold vdev_list in Hv.
    destruct (run e vdev_list_cmd Tab) as [vrs|]; [|done]. simpl in Hv.
    destruct (dict_comp_origin _ _ _ _ _ _ Hv Hk) as [?|(y & _ & Hy)]; [done|].
    apply vdev_entry_inv in Hy as (h & es & _ & _ & _ & He & ->). simpl.
    rewrite vdev_errors_loop_comp in Hve.
    destruct (dict_comp_origin _ _ _ _ _ _ Hve He) as [?|(x & Hin & [= Hx])];
      [done|].
    apply dev_entry_some in Hx as (? & ? & ->). by exists x.
  - intros k p Hk. unfold pool_list in Hp.
    destruct (run e pool_list_cmd Tab) as [prs|] eqn:Hrun; [|done].
    simpl in Hp.
    destruct (dict_comp_origin _ _ _ _ _ _ Hp Hk) as [?|(y & Hin & Hy)]; [done|].
    apply (pool_entry_inv py_float) in Hy as (H0 & (b & Hb & _) & _).
    assert (k ≠ "") as Hne.
    { unfold run in Hrun.
      destruct (check_output e pool_list_cmd) as [pout|]; [|done].
      simpl in Hrun. injection Hrun as <-.
      pose proof (rows_of_output_first Tab pout) as Hf.
      rewrite Forall_forall in Hf. destruct (Hf y Hin) as (f & Hf0 & ?).
      congruence. }
    unfold scrub_loop in Hscrub.
    destruct (for_loop scrub_step rs ("", ∅)) as [[cur m]|] eqn:Hl; [|done].
    simpl in Hscrub. injection Hscrub as ->.
    assert (is_Some (scrub !! k)) as Hs by eauto.
    apply (scrub_dom_inv _ _ _ _ _ Hl k) in Hs as [Hs|[Hs|[? _]]];
      [by rewrite lookup_empty in Hs; destruct Hs | done | done].
Qed.
End Snapshot.

Lemma snapshot_correlated_witness :
  check_output env_full status_cmd = Ok status_full
  ∧ collect float_dec env_full = Ok snapshot_full
  ∧ (∀ k d, vdevs snapshot_full !! k = Some d →
       ∃ x, x ∈ rows_of_output Spaces status_full ∧ dev_row x
            ∧ x !! 0%nat = Some k ∧ v_errors d = error_record x)
  ∧ (∀ k p, pools snapshot_full !! k = Some p →
       ∃ l, l ∈ rows_of_output Spaces status_full ∧ names k l).
Proof.
  assert (check_output env_full status_cmd = Ok status_full) as H
    by (vm_compute; reflexivity).
  assert (collect float_dec env_full = Ok snapshot_full) as Hc
    by (vm_compute; reflexivity).
  split; [exact H|]. split; [exact Hc|].
  exact (snapshot_correlated float_dec env_full _ _ H Hc).
Defined.

Example snapshot_full_values :
  dom (vdevs snapshot_full) = {[ "/dev/sda1" ]}
  ∧ dom (pools snapshot_full) = {[ "tank" ]}
  ∧ (v_errors <$> vdevs snapshot_full !! "/dev/sda1")
    = Some {| read := 0; write := 0; cksum := 2 |}
  ∧ (p_scrub <$> pools snapshot_full !! "tank") = Some 1%Z
  ∧ slab snapshot_full = 122880%Z
  ∧ (number_value (l1_hitrate (l1 (s_arc snapshot_full))) == inject_Z 80)%Q.
Proof. repeat split; vm_compute; reflexivity. Qed.
